(** * VimAI editor: modal key dispatcher, command line, file tree and lint pass

    A shallow embedding of the parts of [src/vimai.py] that carry the
    editor's own logic: the three mode flags and their setters, the key
    dispatch of [VimTextEdit.keyPressEvent] and
    [VimAIEditor.vim_key_handler], the command table of
    [execute_vim_command], the in-memory file tree with [save_file],
    [open_file] and [find_and_open_file], the gutter markers of
    [LineNumberArea], the lint pass [lint_code] and [run_current_file]
    up to the start of the first process.

    Conventions.
    - A Python [str] is a [string]; one [ascii] stands for one character.
      The display constants that contain symbols outside Latin-1 are
      written in their UTF-8 spelling.
    - The window object [self] is the record [VimAIEditor]; a method is a
      function [VimAIEditor -> VimAIEditor] (explicit state passing).
    - The text widget is a Qt object.  Its state is the history of the
      calls the program made on it ([editor : list EditorCall]); what Qt
      answers when the program reads it back ([toPlainText], the
      selection, whether a call changed the document and so fired
      [textChanged]) is the [Toolkit] the development is parametrised by.
    - Timers, sub-processes and paint events run outside the embedding;
      arming a timer, writing a temporary file and starting a process
      are recorded in the state. *)

From Stdlib Require Import String Ascii ZArith List DecimalString Lia.
From stdpp Require Import gmap strings list.

Open Scope string_scope.
Open Scope list_scope.

(** ** Python string primitives used by the source *)

Module Py.

(** [s.startswith(p)] *)
Definition startswith (s p : string) : bool := String.prefix p s.

(** [s.endswith(p)] *)
Definition endswith (s p : string) : bool :=
  String.prefix (String.rev p) (String.rev s).

(** [sub in s] *)
Fixpoint contains (sub s : string) : bool :=
  match s with
  | EmptyString => String.prefix sub EmptyString
  | String _ s' => String.prefix sub s || contains sub s'
  end.

(** [str.isspace] on one character (code points below 256). *)
Definition isspace (c : ascii) : bool :=
  let n := nat_of_ascii c in
  (((9 <=? n) && (n <=? 13)) || ((28 <=? n) && (n <=? 32))
   || (n =? 133) || (n =? 160))%nat.

Fixpoint lstrip (s : string) : string :=
  match s with
  | EmptyString => EmptyString
  | String c s' => if isspace c then lstrip s' else s
  end.

Definition rstrip (s : string) : string :=
  String.rev (lstrip (String.rev s)).

(** [s.strip()] *)
Definition strip (s : string) : string := rstrip (lstrip s).

Definition newline : ascii := ascii_of_nat 10.

(** [s.split('\n')] *)
Fixpoint split_lines (s : string) : list string :=
  match s with
  | EmptyString => [EmptyString]
  | String c s' =>
      if Ascii.eqb c newline then EmptyString :: split_lines s'
      else match split_lines s' with
           | h :: t => String c h :: t
           | [] => [String c EmptyString]
           end
  end.

(** [s[n:]] *)
Fixpoint drop (n : nat) (s : string) : string :=
  match n, s with
  | O, _ => s
  | S _, EmptyString => EmptyString
  | S n', String _ s' => drop n' s'
  end.

(** [s[:-1]] *)
Fixpoint drop_last (s : string) : string :=
  match s with
  | EmptyString => EmptyString
  | String _ EmptyString => EmptyString
  | String c s' => String c (drop_last s')
  end.

(** [str(n)] for a non-negative integer *)
Definition str (n : nat) : string := NilEmpty.string_of_uint (Nat.to_uint n).

(** [sep.join(l)] *)
Fixpoint join (sep : string) (l : list string) : string :=
  match l with
  | [] => EmptyString
  | [x] => x
  | x :: l' => x +:+ sep +:+ join sep l'
  end.

(** [c.lower()] on one character (code points below 256). *)
Definition lower_char (c : ascii) : ascii :=
  let n := nat_of_ascii c in
  if (((65 <=? n) && (n <=? 90))
      || ((192 <=? n) && (n <=? 222) && negb (n =? 215)))%nat
  then ascii_of_nat (n + 32) else c.

(** [s.lower()] *)
Fixpoint lower (s : string) : string :=
  match s with
  | EmptyString => EmptyString
  | String c s' => String (lower_char c) (lower s')
  end.

(** [s.rfind('.')]; [None] stands for the answer [-1]. *)
Fixpoint rfind_dot (s : string) : option nat :=
  match s with
  | EmptyString => None
  | String c s' =>
      match rfind_dot s' with
      | Some i => Some (S i)
      | None => if Ascii.eqb c "."%char then Some O else None
      end
  end.

(** [s[s.rfind('.'):]]: from the last dot on; with no dot the slice
    [s[-1:]] is the last character. *)
Definition from_last_dot (s : string) : string :=
  match rfind_dot s with
  | Some i => drop i s
  | None => drop (String.length s - 1) s
  end.

(** truth value of a string: non-empty *)
Definition truthy (s : string) : bool :=
  match s with EmptyString => false | String _ _ => true end.

(** truth value of an attribute that is [None] or a string *)
Definition truthy_opt (o : option string) : bool :=
  match o with None => false | Some s => truthy s end.

End Py.

(** ** Qt values the source refers to

    [QKeyEvent] carries [key()], [text()] and [modifiers()].  The key
    and modifier codes are the values of the [Qt.Key] and
    [Qt.KeyboardModifier] enumerations. *)

Record QKeyEvent := {
  key : Z;
  text : string;
  modifiers : Z
}.

Module Qt.
Definition Key_Escape : Z := 0x01000000.
Definition Key_Backspace : Z := 0x01000003.
Definition Key_Return : Z := 0x01000004.
Definition NoModifier : Z := 0.
Definition ShiftModifier : Z := 0x02000000.
Definition ControlModifier : Z := 0x04000000.
End Qt.

(** [QTextCursor.MoveOperation] values passed to [moveCursor]. *)
Inductive MoveOperation := Left | Right | Up | Down | End_ | Start.

(** The calls the program makes on the text widget [self.editor].
    [Call_removeLineUnderCursor] is the pair
    [cursor.select(QTextCursor.LineUnderCursor)],
    [cursor.removeSelectedText()]; [Call_keyPressEvent] is the base
    class handler [QPlainTextEdit.keyPressEvent]. *)
Inductive EditorCall :=
| Call_moveCursor (op : MoveOperation)
| Call_deleteChar
| Call_removeLineUnderCursor
| Call_undo
| Call_redo
| Call_setPlainText (t : string)
| Call_setFocus
| Call_keyPressEvent (e : QKeyEvent).

(** Reply of [gemini_model.generate_content]: a response with its text,
    or an exception with its message. *)
Inductive GeminiReply :=
| Response (response_text : string)
| Raised (message : string).

(** What the program asks of the operating system when it runs a file:
    the [with tempfile.NamedTemporaryFile(...)] block that writes the
    program text, and [QProcess.start]. *)
Inductive OsCall :=
| Call_NamedTemporaryFile (suffix written : string)
| Call_start (program : string) (arguments : list string).

(** Outcome of the [with tempfile.NamedTemporaryFile(...)] block: the
    name of the file written, or an exception with its message. *)
Inductive TempReply :=
| Written (temp_path : string)
| Failed (message : string).

(** What the toolkit, the operating system and the remote model answer.
    Every argument [list EditorCall] is the history of calls made on the
    widget, every argument [list OsCall] the history of requests to the
    operating system. *)
Record Toolkit := {
  toPlainText : list EditorCall -> string;
  selectedText : list EditorCall -> option string;
  lineUnderCursor : list EditorCall -> string;
  textChanged_emitted : list EditorCall -> EditorCall -> bool;
  generate_content : string -> GeminiReply;
  NamedTemporaryFile : list OsCall -> string -> string -> TempReply;
  is_windows : bool
}.

(** ** The in-memory file tree ([VirtualFileSystemModel.root])

    A node is a dict with ['type'] equal to ['file'] (keys ['name'],
    ['content']) or ['dir'] (keys ['name'], ['children']). *)
#[local] Unset Elimination Schemes.
Inductive Item :=
| File (name content : string)
| Dir (name : string) (children : list Item).
#[local] Set Elimination Schemes.

(** ** Gutter markers ([LineNumberArea]) *)
Record LineNumberArea := {
  error_lines : gset nat;
  warning_lines : gset nat;
  info_lines : gset nat;
  error_messages : gmap nat string;
  warning_messages : gmap nat string;
  info_messages : gmap nat string
}.

(** ** The window object ([VimAIEditor])

    [file_model] holds [self.file_model.root['children']] (the root is
    the directory ['workspace']); [editor] is the call history of
    [self.editor]; [language] is [self.highlighter.language]; the four
    label and panel fields hold the text shown by the widgets of the
    same name, [terminal_output] the paragraphs appended to the terminal
    panel.  [auto_lint_timer] tells whether the one-second lint timer is
    armed, [closed] whether [self.close()] was called, [launched] the
    temporary files written and the processes started by
    [run_current_file]. *)
Record VimAIEditor := {
  vim_mode : bool;
  command_mode : bool;
  insert_mode : bool;
  last_action : option string;
  current_file : option string;
  modified : bool;
  command_buffer : string;
  ai_ready : bool;
  ai_connected : bool;
  file_model : list Item;
  editor : list EditorCall;
  line_number_area : LineNumberArea;
  language : option string;
  mode_label : string;
  file_status_label : string;
  ai_status_label : string;
  ai_output : string;
  terminal_output : list string;
  auto_lint_timer : bool;
  closed : bool;
  launched : list OsCall
}.

(** Attribute assignment [self.f = v], one function per attribute. *)
Definition with_vim_mode (v : bool) (s : VimAIEditor) : VimAIEditor :=
  {| vim_mode := v;
     command_mode := command_mode s;
     insert_mode := insert_mode s;
     last_action := last_action s;
     current_file := current_file s;
     modified := modified s;
     command_buffer := command_buffer s;
     ai_ready := ai_ready s;
     ai_connected := ai_connected s;
     file_model := file_model s;
     editor := editor s;
     line_number_area := line_number_area s;
     language := language s;
     mode_label := mode_label s;
     file_status_label := file_status_label s;
     ai_status_label := ai_status_label s;
     ai_output := ai_output s;
     terminal_output := terminal_output s;
     auto_lint_timer := auto_lint_timer s;
     closed := closed s;
     launched := launched s |}.

Definition with_command_mode (v : bool) (s : VimAIEditor) : VimAIEditor :=
  {| vim_mode := vim_mode s;
     command_mode := v;
     insert_mode := insert_mode s;
     last_action := last_action s;
     current_file := current_file s;
     modified := modified s;
     command_buffer := command_buffer s;
     ai_ready := ai_ready s;
     ai_connected := ai_connected s;
     file_model := file_model s;
     editor := editor s;
     line_number_area := line_number_area s;
     language := language s;
     mode_label := mode_label s;
     file_status_label := file_status_label s;
     ai_status_label := ai_status_label s;
     ai_output := ai_output s;
     terminal_output := terminal_output s;
     auto_lint_timer := auto_lint_timer s;
     closed := closed s;
     launched := launched s |}.

Definition with_insert_mode (v : bool) (s : VimAIEditor) : VimAIEditor :=
  {| vim_mode := vim_mode s;
     command_mode := command_mode s;
     insert_mode := v;
     last_action := last_action s;
     current_file := current_file s;
     modified := modified s;
     command_buffer := command_buffer s;
     ai_ready := ai_ready s;
     ai_connected := ai_connected s;
     file_model := file_model s;
     editor := editor s;
     line_number_area := line_number_area s;
     language := language s;
     mode_label := mode_label s;
     file_status_label := file_status_label s;
     ai_status_label := ai_status_label s;
     ai_output := ai_output s;
     terminal_output := terminal_output s;
     auto_lint_timer := auto_lint_timer s;
     closed := closed s;
     launched := launched s |}.

Definition with_last_action (v : option string) (s : VimAIEditor) : VimAIEditor :=
  {| vim_mode := vim_mode s;
     command_mode := command_mode s;
     insert_mode := insert_mode s;
     last_action := v;
     current_file := current_file s;
     modified := modified s;
     command_buffer := command_buffer s;
     ai_ready := ai_ready s;
     ai_connected := ai_connected s;
     file_model := file_model s;
     editor := editor s;
     line_number_area := line_number_area s;
     language := language s;
     mode_label := mode_label s;
     file_status_label := file_status_label s;
     ai_status_label := ai_status_label s;
     ai_output := ai_output s;
     terminal_output := terminal_output s;
     auto_lint_timer := auto_lint_timer s;
     closed := closed s;
     launched := launched s |}.

Definition with_current_file (v : option string) (s : VimAIEditor) : VimAIEditor :=
  {| vim_mode := vim_mode s;
     command_mode := command_mode s;
     insert_mode := insert_mode s;
     last_action := last_action s;
     current_file := v;
     modified := modified s;
     command_buffer := command_buffer s;
     ai_ready := ai_ready s;
     ai_connected := ai_connected s;
     file_model := file_model s;
     editor := editor s;
     line_number_area := line_number_area s;
     language := language s;
     mode_label := mode_label s;
     file_status_label := file_status_label s;
     ai_status_label := ai_status_label s;
     ai_output := ai_output s;
     terminal_output := terminal_output s;
     auto_lint_timer := auto_lint_timer s;
     closed := closed s;
     launched := launched s |}.

Definition with_modified (v : bool) (s : VimAIEditor) : VimAIEditor :=
  {| vim_mode := vim_mode s;
     command_mode := command_mode s;
     insert_mode := insert_mode s;
     last_action := last_action s;
     current_file := current_file s;
     modified := v;
     command_buffer := command_buffer s;
     ai_ready := ai_ready s;
     ai_connected := ai_connected s;
     file_model := file_model s;
     editor := editor s;
     line_number_area := line_number_area s;
     language := language s;
     mode_label := mode_label s;
     file_status_label := file_status_label s;
     ai_status_label := ai_status_label s;
     ai_output := ai_output s;
     terminal_output := terminal_output s;
     auto_lint_timer := auto_lint_timer s;
     closed := closed s;
     launched := launched s |}.

Definition with_command_buffer (v : string) (s : VimAIEditor) : VimAIEditor :=
  {| vim_mode := vim_mode s;
     command_mode := command_mode s;
     insert_mode := insert_mode s;
     last_action := last_action s;
     current_file := current_file s;
     modified := modified s;
     command_buffer := v;
     ai_ready := ai_ready s;
     ai_connected := ai_connected s;
     file_model := file_model s;
     editor := editor s;
     line_number_area := line_number_area s;
     language := language s;
     mode_label := mode_label s;
     file_status_label := file_status_label s;
     ai_status_label := ai_status_label s;
     ai_output := ai_output s;
     terminal_output := terminal_output s;
     auto_lint_timer := auto_lint_timer s;
     closed := closed s;
     launched := launched s |}.

Definition with_ai_ready (v : bool) (s : VimAIEditor) : VimAIEditor :=
  {| vim_mode := vim_mode s;
     command_mode := command_mode s;
     insert_mode := insert_mode s;
     last_action := last_action s;
     current_file := current_file s;
     modified := modified s;
     command_buffer := command_buffer s;
     ai_ready := v;
     ai_connected := ai_connected s;
     file_model := file_model s;
     editor := editor s;
     line_number_area := line_number_area s;
     language := language s;
     mode_label := mode_label s;
     file_status_label := file_status_label s;
     ai_status_label := ai_status_label s;
     ai_output := ai_output s;
     terminal_output := terminal_output s;
     auto_lint_timer := auto_lint_timer s;
     closed := closed s;
     launched := launched s |}.

Definition with_ai_connected (v : bool) (s : VimAIEditor) : VimAIEditor :=
  {| vim_mode := vim_mode s;
     command_mode := command_mode s;
     insert_mode := insert_mode s;
     last_action := last_action s;
     current_file := current_file s;
     modified := modified s;
     command_buffer := command_buffer s;
     ai_ready := ai_ready s;
     ai_connected := v;
     file_model := file_model s;
     editor := editor s;
     line_number_area := line_number_area s;
     language := language s;
     mode_label := mode_label s;
     file_status_label := file_status_label s;
     ai_status_label := ai_status_label s;
     ai_output := ai_output s;
     terminal_output := terminal_output s;
     auto_lint_timer := auto_lint_timer s;
     closed := closed s;
     launched := launched s |}.

Definition with_file_model (v : list Item) (s : VimAIEditor) : VimAIEditor :=
  {| vim_mode := vim_mode s;
     command_mode := command_mode s;
     insert_mode := insert_mode s;
     last_action := last_action s;
     current_file := current_file s;
     modified := modified s;
     command_buffer := command_buffer s;
     ai_ready := ai_ready s;
     ai_connected := ai_connected s;
     file_model := v;
     editor := editor s;
     line_number_area := line_number_area s;
     language := language s;
     mode_label := mode_label s;
     file_status_label := file_status_label s;
     ai_status_label := ai_status_label s;
     ai_output := ai_output s;
     terminal_output := terminal_output s;
     auto_lint_timer := auto_lint_timer s;
     closed := closed s;
     launched := launched s |}.

Definition with_editor (v : list EditorCall) (s : VimAIEditor) : VimAIEditor :=
  {| vim_mode := vim_mode s;
     command_mode := command_mode s;
     insert_mode := insert_mode s;
     last_action := last_action s;
     current_file := current_file s;
     modified := modified s;
     command_buffer := command_buffer s;
     ai_ready := ai_ready s;
     ai_connected := ai_connected s;
     file_model := file_model s;
     editor := v;
     line_number_area := line_number_area s;
     language := language s;
     mode_label := mode_label s;
     file_status_label := file_status_label s;
     ai_status_label := ai_status_label s;
     ai_output := ai_output s;
     terminal_output := terminal_output s;
     auto_lint_timer := auto_lint_timer s;
     closed := closed s;
     launched := launched s |}.

Definition with_line_number_area (v : LineNumberArea) (s : VimAIEditor) : VimAIEditor :=
  {| vim_mode := vim_mode s;
     command_mode := command_mode s;
     insert_mode := insert_mode s;
     last_action := last_action s;
     current_file := current_file s;
     modified := modified s;
     command_buffer := command_buffer s;
     ai_ready := ai_ready s;
     ai_connected := ai_connected s;
     file_model := file_model s;
     editor := editor s;
     line_number_area := v;
     language := language s;
     mode_label := mode_label s;
     file_status_label := file_status_label s;
     ai_status_label := ai_status_label s;
     ai_output := ai_output s;
     terminal_output := terminal_output s;
     auto_lint_timer := auto_lint_timer s;
     closed := closed s;
     launched := launched s |}.

Definition with_language (v : option string) (s : VimAIEditor) : VimAIEditor :=
  {| vim_mode := vim_mode s;
     command_mode := command_mode s;
     insert_mode := insert_mode s;
     last_action := last_action s;
     current_file := current_file s;
     modified := modified s;
     command_buffer := command_buffer s;
     ai_ready := ai_ready s;
     ai_connected := ai_connected s;
     file_model := file_model s;
     editor := editor s;
     line_number_area := line_number_area s;
     language := v;
     mode_label := mode_label s;
     file_status_label := file_status_label s;
     ai_status_label := ai_status_label s;
     ai_output := ai_output s;
     terminal_output := terminal_output s;
     auto_lint_timer := auto_lint_timer s;
     closed := closed s;
     launched := launched s |}.

Definition with_mode_label (v : string) (s : VimAIEditor) : VimAIEditor :=
  {| vim_mode := vim_mode s;
     command_mode := command_mode s;
     insert_mode := insert_mode s;
     last_action := last_action s;
     current_file := current_file s;
     modified := modified s;
     command_buffer := command_buffer s;
     ai_ready := ai_ready s;
     ai_connected := ai_connected s;
     file_model := file_model s;
     editor := editor s;
     line_number_area := line_number_area s;
     language := language s;
     mode_label := v;
     file_status_label := file_status_label s;
     ai_status_label := ai_status_label s;
     ai_output := ai_output s;
     terminal_output := terminal_output s;
     auto_lint_timer := auto_lint_timer s;
     closed := closed s;
     launched := launched s |}.

Definition with_file_status_label (v : string) (s : VimAIEditor) : VimAIEditor :=
  {| vim_mode := vim_mode s;
     command_mode := command_mode s;
     insert_mode := insert_mode s;
     last_action := last_action s;
     current_file := current_file s;
     modified := modified s;
     command_buffer := command_buffer s;
     ai_ready := ai_ready s;
     ai_connected := ai_connected s;
     file_model := file_model s;
     editor := editor s;
     line_number_area := line_number_area s;
     language := language s;
     mode_label := mode_label s;
     file_status_label := v;
     ai_status_label := ai_status_label s;
     ai_output := ai_output s;
     terminal_output := terminal_output s;
     auto_lint_timer := auto_lint_timer s;
     closed := closed s;
     launched := launched s |}.

Definition with_ai_status_label (v : string) (s : VimAIEditor) : VimAIEditor :=
  {| vim_mode := vim_mode s;
     command_mode := command_mode s;
     insert_mode := insert_mode s;
     last_action := last_action s;
     current_file := current_file s;
     modified := modified s;
     command_buffer := command_buffer s;
     ai_ready := ai_ready s;
     ai_connected := ai_connected s;
     file_model := file_model s;
     editor := editor s;
     line_number_area := line_number_area s;
     language := language s;
     mode_label := mode_label s;
     file_status_label := file_status_label s;
     ai_status_label := v;
     ai_output := ai_output s;
     terminal_output := terminal_output s;
     auto_lint_timer := auto_lint_timer s;
     closed := closed s;
     launched := launched s |}.

Definition with_ai_output (v : string) (s : VimAIEditor) : VimAIEditor :=
  {| vim_mode := vim_mode s;
     command_mode := command_mode s;
     insert_mode := insert_mode s;
     last_action := last_action s;
     current_file := current_file s;
     modified := modified s;
     command_buffer := command_buffer s;
     ai_ready := ai_ready s;
     ai_connected := ai_connected s;
     file_model := file_model s;
     editor := editor s;
     line_number_area := line_number_area s;
     language := language s;
     mode_label := mode_label s;
     file_status_label := file_status_label s;
     ai_status_label := ai_status_label s;
     ai_output := v;
     terminal_output := terminal_output s;
     auto_lint_timer := auto_lint_timer s;
     closed := closed s;
     launched := launched s |}.

Definition with_terminal_output (v : list string) (s : VimAIEditor) : VimAIEditor :=
  {| vim_mode := vim_mode s;
     command_mode := command_mode s;
     insert_mode := insert_mode s;
     last_action := last_action s;
     current_file := current_file s;
     modified := modified s;
     command_buffer := command_buffer s;
     ai_ready := ai_ready s;
     ai_connected := ai_connected s;
     file_model := file_model s;
     editor := editor s;
     line_number_area := line_number_area s;
     language := language s;
     mode_label := mode_label s;
     file_status_label := file_status_label s;
     ai_status_label := ai_status_label s;
     ai_output := ai_output s;
     terminal_output := v;
     auto_lint_timer := auto_lint_timer s;
     closed := closed s;
     launched := launched s |}.

Definition with_auto_lint_timer (v : bool) (s : VimAIEditor) : VimAIEditor :=
  {| vim_mode := vim_mode s;
     command_mode := command_mode s;
     insert_mode := insert_mode s;
     last_action := last_action s;
     current_file := current_file s;
     modified := modified s;
     command_buffer := command_buffer s;
     ai_ready := ai_ready s;
     ai_connected := ai_connected s;
     file_model := file_model s;
     editor := editor s;
     line_number_area := line_number_area s;
     language := language s;
     mode_label := mode_label s;
     file_status_label := file_status_label s;
     ai_status_label := ai_status_label s;
     ai_output := ai_output s;
     terminal_output := terminal_output s;
     auto_lint_timer := v;
     closed := closed s;
     launched := launched s |}.

Definition with_closed (v : bool) (s : VimAIEditor) : VimAIEditor :=
  {| vim_mode := vim_mode s;
     command_mode := command_mode s;
     insert_mode := insert_mode s;
     last_action := last_action s;
     current_file := current_file s;
     modified := modified s;
     command_buffer := command_buffer s;
     ai_ready := ai_ready s;
     ai_connected := ai_connected s;
     file_model := file_model s;
     editor := editor s;
     line_number_area := line_number_area s;
     language := language s;
     mode_label := mode_label s;
     file_status_label := file_status_label s;
     ai_status_label := ai_status_label s;
     ai_output := ai_output s;
     terminal_output := terminal_output s;
     auto_lint_timer := auto_lint_timer s;
     closed := v;
     launched := launched s |}.

Definition with_launched (v : list OsCall) (s : VimAIEditor) : VimAIEditor :=
  {| vim_mode := vim_mode s;
     command_mode := command_mode s;
     insert_mode := insert_mode s;
     last_action := last_action s;
     current_file := current_file s;
     modified := modified s;
     command_buffer := command_buffer s;
     ai_ready := ai_ready s;
     ai_connected := ai_connected s;
     file_model := file_model s;
     editor := editor s;
     line_number_area := line_number_area s;
     language := language s;
     mode_label := mode_label s;
     file_status_label := file_status_label s;
     ai_status_label := ai_status_label s;
     ai_output := ai_output s;
     terminal_output := terminal_output s;
     auto_lint_timer := auto_lint_timer s;
     closed := closed s;
     launched := v |}.

Definition nl : string := String Py.newline EmptyString.

(** ** [LineNumberArea.set_errors], [set_warnings], [set_info]

    [messages] defaults to [None]; [if messages:] is false for [None]
    and for an empty dict.  The repaint request [self.update()] has no
    effect on the state. *)
Definition truthy_messages (messages : option (gmap nat string)) : bool :=
  match messages with
  | Some d => negb (bool_decide (d = ∅))
  | None => false
  end.

Definition set_errors (lines : list nat) (messages : option (gmap nat string))
    (a : LineNumberArea) : LineNumberArea :=
  {| error_lines := list_to_set lines;
     warning_lines := warning_lines a;
     info_lines := info_lines a;
     error_messages :=
       if truthy_messages messages then default ∅ messages
       else error_messages a;
     warning_messages := warning_messages a;
     info_messages := info_messages a |}.

Definition set_warnings (lines : list nat) (messages : option (gmap nat string))
    (a : LineNumberArea) : LineNumberArea :=
  {| error_lines := error_lines a;
     warning_lines := list_to_set lines;
     info_lines := info_lines a;
     error_messages := error_messages a;
     warning_messages :=
       if truthy_messages messages then default ∅ messages
       else warning_messages a;
     info_messages := info_messages a |}.

Definition set_info (lines : list nat) (messages : option (gmap nat string))
    (a : LineNumberArea) : LineNumberArea :=
  {| error_lines := error_lines a;
     warning_lines := warning_lines a;
     info_lines := list_to_set lines;
     error_messages := error_messages a;
     warning_messages := warning_messages a;
     info_messages :=
       if truthy_messages messages then default ∅ messages
       else info_messages a |}.

(** A call on [self.editor.line_number_area]. *)
Definition on_line_number_area (f : LineNumberArea -> LineNumberArea)
    (s : VimAIEditor) : VimAIEditor :=
  with_line_number_area (f (line_number_area s)) s.

(** ** [CodeHighlighter.set_document_language] *)
Definition endswith_any (s : string) (suffixes : list string) : bool :=
  existsb (Py.endswith s) suffixes.

Definition set_document_language (filename : string) (s : VimAIEditor)
    : VimAIEditor :=
  if Py.endswith filename ".py" then with_language (Some "python") s
  else if endswith_any filename [".js"; ".jsx"; ".ts"; ".tsx"]
  then with_language (Some "javascript") s
  else if Py.endswith filename ".c" then with_language (Some "c") s
  else if endswith_any filename [".cpp"; ".cc"; ".cxx"; ".c++"; ".hpp"; ".hxx"]
  then with_language (Some "cpp") s
  else if endswith_any filename [".md"; ".markdown"]
  then with_language (Some "markdown") s
  else with_language None s.

(** ** Status bar *)

(** [VimAIEditor.update_status] *)
Definition update_status (s : VimAIEditor) : VimAIEditor :=
  let file_status :=
    if Py.truthy_opt (current_file s) then
      let file_status := default "" (current_file s) in
      if modified s then file_status +:+ " [modified]" else file_status
    else "No file open" in
  let s := with_file_status_label file_status s in
  with_ai_status_label ("AI: " +:+ (if ai_connected s then "✓" else "✗")) s.

(** [VimAIEditor.set_modified] *)
Definition set_modified (s : VimAIEditor) : VimAIEditor :=
  if negb (modified s) && Py.truthy_opt (current_file s)
  then update_status (with_modified true s)
  else s.

(** [VimAIEditor.trigger_auto_lint]: [self.auto_lint_timer.start(1000)] *)
Definition trigger_auto_lint (s : VimAIEditor) : VimAIEditor :=
  with_auto_lint_timer true s.

(** [VimAIEditor.update_command_status] *)
Definition update_command_status (s : VimAIEditor) : VimAIEditor :=
  with_file_status_label (command_buffer s) s.

(** ** Mode setters.  The style sheet of the label is presentation only. *)

(** A call on [self.editor] that cannot change the document. *)
Definition editor_call (c : EditorCall) (s : VimAIEditor) : VimAIEditor :=
  with_editor (editor s ++ [c]) s.

(** [VimAIEditor.set_normal_mode] *)
Definition set_normal_mode (s : VimAIEditor) : VimAIEditor :=
  let s := with_vim_mode true s in
  let s := with_command_mode false s in
  let s := with_insert_mode false s in
  with_mode_label "NORMAL" s.

(** [VimAIEditor.set_insert_mode] *)
Definition set_insert_mode (s : VimAIEditor) : VimAIEditor :=
  let s := with_vim_mode true s in
  let s := with_command_mode false s in
  let s := with_insert_mode true s in
  let s := with_mode_label "INSERT" s in
  editor_call Call_setFocus s.

(** [VimAIEditor.set_command_mode] *)
Definition set_command_mode (s : VimAIEditor) : VimAIEditor :=
  let s := with_vim_mode true s in
  let s := with_command_mode true s in
  let s := with_insert_mode false s in
  let s := with_command_buffer ":" s in
  let s := with_mode_label "COMMAND" s in
  update_command_status s.

(** ** File tree *)

(** [VimAIEditor.update_file_content]: the first file of that name, in
    depth-first order, receives the content. *)
Fixpoint update_file_content (item : Item) (filename content : string)
    : Item * bool :=
  match item with
  | File n c =>
      if String.eqb n filename then (File n content, true) else (item, false)
  | Dir n ch =>
      let fix each (l : list Item) : list Item * bool :=
        match l with
        | [] => ([], false)
        | child :: l' =>
            let '(child', found) := update_file_content child filename content in
            if found then (child' :: l', true)
            else let '(l'', found') := each l' in (child' :: l'', found')
        end in
      let '(ch', found) := each ch in (Dir n ch', found)
  end.

(** The loop of [save_file] over [root['children']]. *)
Fixpoint update_first (items : list Item) (filename content : string)
    : list Item * bool :=
  match items with
  | [] => ([], false)
  | item :: items' =>
      let '(item', found) := update_file_content item filename content in
      if found then (item' :: items', true)
      else let '(items'', found') := update_first items' filename content in
           (item' :: items'', found')
  end.

(** [VimAIEditor.get_file_content] *)
Fixpoint get_file_content (item : Item) (filename : string) : option string :=
  match item with
  | File n c => if String.eqb n filename then Some c else None
  | Dir n ch =>
      let fix each (l : list Item) : option string :=
        match l with
        | [] => None
        | child :: l' =>
            match get_file_content child filename with
            | Some content => Some content
            | None => each l'
            end
        end in
      each ch
  end.

(** ** The lint pass, as a function of the text

    The six local variables of [lint_code]; the line lists keep the
    order and the repetitions of the [append] calls. *)
Record LintReport := {
  rep_error_lines : list nat;
  rep_warning_lines : list nat;
  rep_info_lines : list nat;
  rep_error_messages : gmap nat string;
  rep_warning_messages : gmap nat string;
  rep_info_messages : gmap nat string
}.

Definition empty_report : LintReport :=
  {| rep_error_lines := []; rep_warning_lines := []; rep_info_lines := [];
     rep_error_messages := ∅; rep_warning_messages := ∅;
     rep_info_messages := ∅ |}.

Definition add_error (i : nat) (msg : string) (r : LintReport) : LintReport :=
  {| rep_error_lines := rep_error_lines r ++ [i];
     rep_warning_lines := rep_warning_lines r;
     rep_info_lines := rep_info_lines r;
     rep_error_messages := <[i := msg]> (rep_error_messages r);
     rep_warning_messages := rep_warning_messages r;
     rep_info_messages := rep_info_messages r |}.

Definition add_warning (i : nat) (msg : string) (r : LintReport) : LintReport :=
  {| rep_error_lines := rep_error_lines r;
     rep_warning_lines := rep_warning_lines r ++ [i];
     rep_info_lines := rep_info_lines r;
     rep_error_messages := rep_error_messages r;
     rep_warning_messages := <[i := msg]> (rep_warning_messages r);
     rep_info_messages := rep_info_messages r |}.

Definition add_info (i : nat) (msg : string) (r : LintReport) : LintReport :=
  {| rep_error_lines := rep_error_lines r;
     rep_warning_lines := rep_warning_lines r;
     rep_info_lines := rep_info_lines r ++ [i];
     rep_error_messages := rep_error_messages r;
     rep_warning_messages := rep_warning_messages r;
     rep_info_messages := <[i := msg]> (rep_info_messages r) |}.

Definition dquote : string := String (ascii_of_nat 34) EmptyString.

(** The body of the loop [for i, line in enumerate(lines, 1)]. *)
Definition lint_line (lines : list string) (i : nat) (line : string)
    (r : LintReport) : LintReport :=
  let r :=
    if Py.contains "import" line && negb (Py.contains "from" line)
       && negb (Py.contains "import os" line)
    then add_warning i
           "Consider using 'from module import name' instead of 'import module'" r
    else r in
  let r :=
    if Py.contains "print(" line && negb (Py.contains ("f" +:+ dquote) line)
       && negb (Py.contains "'" line)
    then add_info i "Consider using f-strings for better readability" r
    else r in
  let r :=
    if Py.contains "TODO" line || Py.contains "FIXME" line
    then add_error i "TODO or FIXME found" r
    else r in
  if Py.contains "    " line && negb (Py.startswith (Py.strip line) "#")
  then
    if (1 <? i)%nat
       && negb (Py.endswith (Py.strip (default "" (lines !! (i - 2)%nat))) ":")
    then add_warning i "Potential indentation issue" r
    else r
  else r.

Fixpoint lint_loop (lines : list string) (i : nat) (rest : list string)
    (r : LintReport) : LintReport :=
  match rest with
  | [] => r
  | line :: rest' => lint_loop lines (S i) rest' (lint_line lines i line r)
  end.

Definition lint_report (content : string) : LintReport :=
  let lines := Py.split_lines content in
  lint_loop lines 1 lines empty_report.

Definition lint_summary (r : LintReport) : string :=
  let summary := "Linting complete:" +:+ nl in
  let summary :=
    summary +:+ "Errors: " +:+ Py.str (length (rep_error_lines r)) +:+ nl in
  let summary :=
    summary +:+ "Warnings: " +:+ Py.str (length (rep_warning_lines r)) +:+ nl in
  let summary :=
    summary +:+ "Info: " +:+ Py.str (length (rep_info_lines r)) +:+ nl +:+ nl in
  let summary :=
    match rep_error_lines r with
    | [] => summary
    | _ => summary +:+ "Errors on lines: "
             +:+ Py.join ", " (map Py.str (rep_error_lines r)) +:+ nl
    end in
  let summary :=
    match rep_warning_lines r with
    | [] => summary
    | _ => summary +:+ "Warnings on lines: "
             +:+ Py.join ", " (map Py.str (rep_warning_lines r)) +:+ nl
    end in
  match rep_info_lines r with
  | [] => summary
  | _ => summary +:+ "Info on lines: "
           +:+ Py.join ", " (map Py.str (rep_info_lines r)) +:+ nl
  end.

(** ** Methods that read the text widget or call the remote model *)

Section Editor.

Variable qt : Toolkit.

(** The slots connected to [self.editor.textChanged], in connection
    order. *)
Definition textChanged (s : VimAIEditor) : VimAIEditor :=
  trigger_auto_lint (set_modified s).

(** A call on [self.editor] that may change the document; Qt then
    emits [textChanged] before the call returns. *)
Definition editor_edit (c : EditorCall) (s : VimAIEditor) : VimAIEditor :=
  let emitted := textChanged_emitted qt (editor s) c in
  let s := editor_call c s in
  if emitted then textChanged s else s.

(** [VimAIEditor.save_file] *)
Definition save_file (s : VimAIEditor) : VimAIEditor :=
  if negb (Py.truthy_opt (current_file s)) then s
  else
    let current := default "" (current_file s) in
    let '(items, found) :=
      update_first (file_model s) current (toPlainText qt (editor s)) in
    let s := with_file_model items s in
    if found then
      let s := with_modified false s in
      let s := update_status s in
      with_ai_output ("Saved " +:+ current) s
    else with_ai_output ("Could not save " +:+ current) s.

(** [VimAIEditor.open_file], applied to the node the index points to. *)
Definition open_file (item : Item) (s : VimAIEditor) : VimAIEditor :=
  match item with
  | File n c =>
      let s := editor_edit (Call_setPlainText c) s in
      let s := with_current_file (Some n) s in
      let s := with_modified false s in
      let s := update_status s in
      let s := set_document_language n s in
      let s := on_line_number_area (set_errors [] None) s in
      let s := on_line_number_area (set_warnings [] None) s in
      on_line_number_area (set_info [] None) s
  | Dir _ _ => s
  end.

(** [VimAIEditor.search_and_open] *)
Fixpoint search_and_open (item : Item) (filename : string) (s : VimAIEditor)
    : VimAIEditor * bool :=
  match item with
  | File n c =>
      if String.eqb n filename then
        let s := editor_edit (Call_setPlainText c) s in
        let s := with_current_file (Some n) s in
        let s := with_modified false s in
        let s := update_status s in
        let s := set_document_language n s in
        (s, true)
      else (s, false)
  | Dir n ch =>
      let fix each (l : list Item) (s : VimAIEditor) : VimAIEditor * bool :=
        match l with
        | [] => (s, false)
        | child :: l' =>
            let '(s, found) := search_and_open child filename s in
            if found then (s, true) else each l' s
        end in
      each ch s
  end.

(** The loop of [find_and_open_file] over [root['children']]. *)
Fixpoint search_first (items : list Item) (filename : string)
    (s : VimAIEditor) : VimAIEditor * bool :=
  match items with
  | [] => (s, false)
  | item :: items' =>
      let '(s, found) := search_and_open item filename s in
      if found then (s, true) else search_first items' filename s
  end.

(** [VimAIEditor.find_and_open_file] *)
Definition find_and_open_file (filename : string) (s : VimAIEditor)
    : VimAIEditor :=
  let '(s, found) := search_first (file_model s) filename s in
  if found then s
  else with_ai_output ("File not found: " +:+ filename) s.

(** [VimAIEditor.lint_code] *)
Definition lint_code (s : VimAIEditor) : VimAIEditor :=
  if negb (Py.truthy_opt (current_file s))
  then with_ai_output "No file open to lint" s
  else
    let r := lint_report (toPlainText qt (editor s)) in
    let s :=
      on_line_number_area
        (set_errors (rep_error_lines r) (Some (rep_error_messages r))) s in
    let s :=
      on_line_number_area
        (set_warnings (rep_warning_lines r) (Some (rep_warning_messages r))) s in
    let s :=
      on_line_number_area
        (set_info (rep_info_lines r) (Some (rep_info_messages r))) s in
    with_ai_output (lint_summary r) s.

(** [VimAIEditor.call_ai].  [QApplication.processEvents()] hands
    control to the event loop and is not part of the embedding. *)
Definition call_ai (prompt context : string) (s : VimAIEditor) : VimAIEditor :=
  if negb (ai_ready s) then
    with_ai_output
      ("❌ Gemini AI not available" +:+ nl
       +:+ "Please install: pip install google-generativeai") s
  else
    let s := with_ai_output "🔄 Asking Gemini..." s in
    let full_prompt :=
      prompt +:+ nl +:+ nl +:+ "```" +:+ nl +:+ context +:+ nl +:+ "```" in
    match generate_content qt full_prompt with
    | Response response_text =>
        if Py.truthy response_text then with_ai_output response_text s
        else with_ai_output "❌ No response text received from Gemini" s
    | Raised e => with_ai_output ("❌ Gemini Error: " +:+ e) s
    end.

(** [VimAIEditor.explain_code]; the cursor it selects with is a copy. *)
Definition explain_code (s : VimAIEditor) : VimAIEditor :=
  match selectedText qt (editor s) with
  | Some selected_text => call_ai "Explain this code:" selected_text s
  | None =>
      call_ai "Explain this line of code:" (lineUnderCursor qt (editor s)) s
  end.

(** The loop of [run_current_file] that looks the content up. *)
Fixpoint find_content (items : list Item) (filename : string)
    (content : option string) : option string :=
  match items with
  | [] => content
  | item :: items' =>
      match get_file_content item filename with
      | Some c => Some c
      | None => find_content items' filename None
      end
  end.

(** [self.terminal_output.appendPlainText(text)] *)
Definition appendPlainText (text : string) (s : VimAIEditor) : VimAIEditor :=
  with_terminal_output (terminal_output s ++ [text]) s.

(** [QProcess.start(command[0], command[1:])]. *)
Definition QProcess_start (command : list string) (s : VimAIEditor)
    : VimAIEditor :=
  with_launched
    (launched s ++ [Call_start (hd "" command) (tl command)]) s.

(** [VimAIEditor.run_single_command]: the process is created, its
    signals are connected and it is started; the handlers run when the
    process reports back, after the method has returned. *)
Definition run_single_command (command : list string)
    (temp_path file_ext : string) (s : VimAIEditor) : VimAIEditor :=
  QProcess_start command s.

(** The lines [run_current_file] writes to the temporary file: those
    of [content] that do not start, blanks apart, with a colon. *)
Definition cleaned_content (content : string) : string :=
  Py.join nl
    (List.filter (fun line => negb (Py.startswith (Py.strip line) ":"))
       (Py.split_lines content)).

(** [VimAIEditor.run_current_file], up to the start of the first
    process.  What the process prints, the run that follows a
    successful compilation and the removal of the temporary file happen
    in signal handlers, after the method has returned. *)
Definition run_current_file (s : VimAIEditor) : VimAIEditor :=
  if negb (Py.truthy_opt (current_file s)) then
    appendPlainText "Error: No file is currently open" s
  else
    let s := save_file s in
    let current := default "" (current_file s) in
    match find_content (file_model s) current (Some "") with
    | None => appendPlainText "Error: Could not find file content" s
    | Some content =>
        let s := with_terminal_output [] s in
        let s := appendPlainText ("Running " +:+ current +:+ "..." +:+ nl) s in
        let s := on_line_number_area (set_errors [] None) s in
        let s := on_line_number_area (set_warnings [] None) s in
        let suffix := Py.from_last_dot current in
        let cleaned := cleaned_content content in
        let reply := NamedTemporaryFile qt (launched s) suffix cleaned in
        let s :=
          with_launched
            (launched s ++ [Call_NamedTemporaryFile suffix cleaned]) s in
        match reply with
        | Failed e => appendPlainText ("Error: " +:+ e) s
        | Written temp_path =>
            let file_ext := Py.lower (Py.from_last_dot current) in
            if String.eqb file_ext ".py" then
              run_single_command ["python"; temp_path] temp_path file_ext s
            else if String.eqb file_ext ".js" then
              run_single_command ["node"; temp_path] temp_path file_ext s
            else if String.eqb file_ext ".java" then
              let compile_cmd := ["javac"; temp_path] in
              let s :=
                appendPlainText
                  ("Compiling with: " +:+ Py.join " " compile_cmd) s in
              QProcess_start compile_cmd s
            else if String.eqb file_ext ".c" || String.eqb file_ext ".cpp" then
              let compiler :=
                if String.eqb file_ext ".c" then "gcc" else "g++" in
              let exe_ext := if is_windows qt then ".exe" else "" in
              let exe_path := temp_path +:+ exe_ext in
              let compile_cmd := [compiler; temp_path; "-o"; exe_path] in
              let s :=
                appendPlainText
                  ("Compiling with: " +:+ Py.join " " compile_cmd) s in
              QProcess_start compile_cmd s
            else
              appendPlainText ("Error: Unsupported file type " +:+ file_ext) s
        end
    end.

(** [self.close()] *)
Definition close (s : VimAIEditor) : VimAIEditor := with_closed true s.

(** [VimAIEditor.execute_vim_command] *)
Definition execute_vim_command (command : string) (s : VimAIEditor)
    : VimAIEditor :=
  if Py.startswith command ":w" then save_file s
  else if Py.startswith command ":wq" then close (save_file s)
  else if Py.startswith command ":q" then close s
  else if Py.startswith command ":e " then
    let file_name := Py.strip (Py.drop 3 command) in
    find_and_open_file file_name s
  else if Py.startswith command ":ai " then
    call_ai (Py.drop 4 command) (toPlainText qt (editor s)) s
  else if String.eqb command ":fix" then
    call_ai "Find and fix any bugs in this code:" (toPlainText qt (editor s)) s
  else if String.eqb command ":explain" then explain_code s
  else if String.eqb command ":opt" then
    call_ai "Optimize this code for better performance or readability:"
      (toPlainText qt (editor s)) s
  else if String.eqb command ":test" then
    call_ai "Generate unit tests for this code:" (toPlainText qt (editor s)) s
  else if String.eqb command ":run" then run_current_file s
  else if Py.startswith command ":lint" then lint_code s
  else with_ai_output ("Unknown command: " +:+ command) s.

(** [VimAIEditor.vim_key_handler] *)
Definition vim_key_handler (event : QKeyEvent) (s : VimAIEditor)
    : VimAIEditor :=
  let key := key event in
  let text := text event in
  let modifiers := modifiers event in
  if command_mode s then
    let s :=
      if (key =? Qt.Key_Escape)%Z then set_normal_mode s
      else if (key =? Qt.Key_Return)%Z then
        let s := execute_vim_command (command_buffer s) s in
        let s := with_command_buffer "" s in
        set_normal_mode s
      else if (key =? Qt.Key_Backspace)%Z then
        with_command_buffer (Py.drop_last (command_buffer s)) s
      else if Py.truthy text then
        with_command_buffer (command_buffer s +:+ text) s
      else s in
    update_command_status s
  else if vim_mode s && (modifiers =? 0)%Z then
    if String.eqb text ":" then set_command_mode s
    else if String.eqb text "i" then set_insert_mode s
    else if String.eqb text "a" then
      set_insert_mode (editor_call (Call_moveCursor Right) s)
    else
      let s :=
        if String.eqb text "h" then editor_call (Call_moveCursor Left) s
        else if String.eqb text "j" then editor_call (Call_moveCursor Down) s
        else if String.eqb text "k" then editor_call (Call_moveCursor Up) s
        else if String.eqb text "l" then editor_call (Call_moveCursor Right) s
        else if String.eqb text "x" then editor_edit Call_deleteChar s
        else if String.eqb text "d"
                && bool_decide (last_action s = Some "d")
        then editor_edit Call_removeLineUnderCursor s
        else if String.eqb text "u"
                && negb (bool_decide (last_action s = Some "u"))
                && negb (bool_decide (last_action s = Some "ctrl+r"))
        then editor_edit Call_undo s
        else if (modifiers =? Qt.ControlModifier)%Z && String.eqb text "r"
        then editor_edit Call_redo s
        else if String.eqb text "G" then editor_call (Call_moveCursor End_) s
        else if String.eqb text "gg" then editor_call (Call_moveCursor Start) s
        else s in
      with_last_action (Some text) s
  else editor_edit (Call_keyPressEvent event) s.

(** [VimTextEdit.keyPressEvent]: a key press while the text widget has
    the focus. *)
Definition VimTextEdit_keyPressEvent (event : QKeyEvent) (s : VimAIEditor)
    : VimAIEditor :=
  if negb (Z.land (modifiers event) Qt.ControlModifier =? 0)%Z then
    editor_edit (Call_keyPressEvent event) s
  else if insert_mode s then
    if (key event =? Qt.Key_Escape)%Z then set_normal_mode s
    else editor_edit (Call_keyPressEvent event) s
  else vim_key_handler event s.

(** [VimAIEditor.keyPressEvent]: a key press that reaches the window.
    The base class [QMainWindow.keyPressEvent] changes nothing here. *)
Definition VimAIEditor_keyPressEvent (event : QKeyEvent) (s : VimAIEditor)
    : VimAIEditor :=
  if command_mode s || insert_mode s then s
  else if String.eqb (text event) ":" then set_command_mode s
  else if String.eqb (text event) "i" then
    editor_call Call_setFocus (set_insert_mode s)
  else if String.eqb (text event) "a" then
    let s := editor_call (Call_moveCursor Right) s in
    editor_call Call_setFocus (set_insert_mode s)
  else s.

(** A sequence of key presses on the focused text widget, oldest
    first. *)
Definition press_keys (events : list QKeyEvent) (s : VimAIEditor)
    : VimAIEditor :=
  fold_left (fun s event => VimTextEdit_keyPressEvent event s) events s.

End Editor.

(** ** The state after [VimAIEditor.__init__]

    [VirtualFileSystemModel.__init__] builds the starting tree;
    [gemini] tells whether [init_ai] could configure the remote model. *)
Definition backslash_n : string := String (ascii_of_nat 92) "n".

Definition initial_tree : list Item :=
  [ Dir "src"
      [ File "main.py"
          ("# Python starter code" +:+ nl
           +:+ "print(" +:+ dquote +:+ "Hello VimAI!" +:+ dquote +:+ ")");
        File "utils.py"
          ("# Utility functions" +:+ nl +:+ "def greet(name):" +:+ nl
           +:+ "    return f" +:+ dquote +:+ "Hello {name}" +:+ dquote);
        File "testing.c"
          ("#include <stdio.h>" +:+ nl +:+ nl +:+ "int main() {" +:+ nl
           +:+ "    printf(" +:+ dquote +:+ "Hello, C World!" +:+ backslash_n
           +:+ dquote +:+ ");" +:+ nl +:+ "    return 0;" +:+ nl +:+ "}");
        File "testing.cpp"
          ("#include <iostream>" +:+ nl +:+ nl +:+ "int main() {" +:+ nl
           +:+ "    std::cout << " +:+ dquote +:+ "Hello, C++ World!" +:+ dquote
           +:+ " << std::endl;" +:+ nl +:+ "    return 0;" +:+ nl +:+ "}") ];
    Dir "docs"
      [ File "README.md"
          ("# Project Documentation" +:+ nl +:+ nl
           +:+ "This is a VimAI project.") ] ].

Definition empty_gutter : LineNumberArea :=
  {| error_lines := ∅; warning_lines := ∅; info_lines := ∅;
     error_messages := ∅; warning_messages := ∅; info_messages := ∅ |}.

Definition initial (gemini : bool) : VimAIEditor :=
  update_status
    {| vim_mode := true; command_mode := false; insert_mode := false;
       last_action := None; current_file := None; modified := false;
       command_buffer := ""; ai_ready := gemini; ai_connected := gemini;
       file_model := initial_tree; editor := [];
       line_number_area := empty_gutter; language := None;
       mode_label := "NORMAL"; file_status_label := "";
       ai_status_label := ""; ai_output := ""; terminal_output := [];
       auto_lint_timer := false; closed := false; launched := [] |}.

(** ** Key events *)

(** A key pressed with no modifier held. *)
Definition plain_key (k : Z) (t : string) : QKeyEvent :=
  {| key := k; text := t; modifiers := Qt.NoModifier |}.

Definition key_d : QKeyEvent := plain_key 0x44 "d".
Definition key_g : QKeyEvent := plain_key 0x47 "g".
Definition key_i : QKeyEvent := plain_key 0x49 "i".
Definition key_q : QKeyEvent := plain_key 0x51 "q".
Definition key_u : QKeyEvent := plain_key 0x55 "u".
Definition key_w : QKeyEvent := plain_key 0x57 "w".
Definition key_colon : QKeyEvent := plain_key 0x3a ":".
Definition key_escape : QKeyEvent :=
  plain_key Qt.Key_Escape (String (ascii_of_nat 27) EmptyString).
Definition key_return : QKeyEvent :=
  plain_key Qt.Key_Return (String (ascii_of_nat 13) EmptyString).
Definition key_ctrl_r : QKeyEvent :=
  {| key := 0x52; text := String (ascii_of_nat 18) EmptyString;
     modifiers := Qt.ControlModifier |}.

(** ** Reading aids for the statements below *)

(** The dispatcher is in normal mode. *)
Definition normal_mode (s : VimAIEditor) : Prop :=
  vim_mode s = true /\ command_mode s = false /\ insert_mode s = false.

(** Some file node of the tree below [item] carries the name. *)
Fixpoint has_file (filename : string) (item : Item) : bool :=
  match item with
  | File n _ => String.eqb n filename
  | Dir _ ch => existsb (has_file filename) ch
  end.

(** Induction over the tree, with the children of a directory covered. *)
Fixpoint Item_ind (P : Item -> Prop)
    (HFile : forall n c, P (File n c))
    (HDir : forall n ch, Forall P ch -> P (Dir n ch))
    (item : Item) : P item :=
  match item with
  | File n c => HFile n c
  | Dir n ch =>
      HDir n ch
        ((fix each (l : list Item) : Forall P l :=
            match l with
            | [] => @List.Forall_nil _ P
            | x :: l' => @List.Forall_cons _ P x l' (Item_ind P HFile HDir x) (each l')
            end) ch)
  end.

(** A text widget that only remembers the text last loaded with
    [setPlainText], has no selection, signals [textChanged] on a load,
    and a remote model that is out of reach.  It serves to run the
    embedding on concrete key sequences. *)
Fixpoint last_loaded (calls : list EditorCall) (t : string) : string :=
  match calls with
  | [] => t
  | Call_setPlainText t' :: calls' => last_loaded calls' t'
  | _ :: calls' => last_loaded calls' t
  end.

Definition plain_toolkit : Toolkit :=
  {| toPlainText := fun calls => last_loaded calls "";
     selectedText := fun _ => None;
     lineUnderCursor := fun _ => "";
     textChanged_emitted :=
       fun _ c => match c with Call_setPlainText _ => true | _ => false end;
     generate_content := fun _ => Raised "offline";
     NamedTemporaryFile :=
       fun calls suffix _ =>
         Written ("/tmp/tmp" +:+ Py.str (length calls) +:+ suffix);
     is_windows := false |}.

(** The statements [search_and_open] runs on the file node it was
    looking for. *)
Definition load_file (qt : Toolkit) (n c : string) (s : VimAIEditor)
    : VimAIEditor :=
  let s := editor_edit qt (Call_setPlainText c) s in
  let s := with_current_file (Some n) s in
  let s := with_modified false s in
  let s := update_status s in
  set_document_language n s.

(** The attributes the key dispatcher itself reads and writes. *)
Definition same_modal (s s' : VimAIEditor) : Prop :=
  vim_mode s' = vim_mode s
  /\ command_mode s' = command_mode s
  /\ insert_mode s' = insert_mode s
  /\ last_action s' = last_action s
  /\ command_buffer s' = command_buffer s.

(** [s'] has the history of [s] followed by calls that all satisfy [P]. *)
Definition extends (P : EditorCall -> Prop) (s s' : VimAIEditor) : Prop :=
  exists calls, editor s' = editor s ++ calls /\ Forall P calls.

(** In a report, the lines of a category are the keys of its message
    table. *)
Definition keyed (lines : list nat) (messages : gmap nat string) : Prop :=
  forall n, n ∈ lines <-> is_Some (messages !! n).

Definition report_keyed (r : LintReport) : Prop :=
  keyed (rep_error_lines r) (rep_error_messages r)
  /\ keyed (rep_warning_lines r) (rep_warning_messages r)
  /\ keyed (rep_info_lines r) (rep_info_messages r).

(** A call that loads a text into the widget. *)
Definition is_load (c : EditorCall) : Prop :=
  exists t, c = Call_setPlainText t.

(** The calls a key press may add to the history: never [redo], and
    [moveCursor(Start)] only for an event whose text is ['gg']. *)
Definition key_call (e : QKeyEvent) (c : EditorCall) : Prop :=
  c <> Call_redo /\ (c = Call_moveCursor Start -> text e = "gg").

(** The mode flags are consistent: [vim_mode] is set and the editor is
    not in insert and command mode at once. *)
Definition modes_consistent (s : VimAIEditor) : Prop :=
  vim_mode s = true /\ insert_mode s && command_mode s = false.

(** ** The tree seen as a list of files

    The files below a node, name and content, in the depth-first order
    in which [get_file_content], [search_and_open] and
    [update_file_content] visit them. *)
Fixpoint files_of (item : Item) : list (string * string) :=
  match item with
  | File n c => [(n, c)]
  | Dir _ ch => flat_map files_of ch
  end.

Definition files_in (items : list Item) : list (string * string) :=
  flat_map files_of items.

(** The content of the first entry that carries the name. *)
Fixpoint lookup_first (filename : string) (l : list (string * string))
    : option string :=
  match l with
  | [] => None
  | (n, c) :: l' => if String.eqb n filename then Some c
                    else lookup_first filename l'
  end.

(** The list with the content of the first entry of that name replaced. *)
Fixpoint replace_first (filename content : string) (l : list (string * string))
    : list (string * string) :=
  match l with
  | [] => []
  | (n, c) :: l' =>
      if String.eqb n filename then (n, content) :: l'
      else (n, c) :: replace_first filename content l'
  end.

(** The tree without the file contents: directories, names and order. *)
Fixpoint skeleton (item : Item) : Item :=
  match item with
  | File n _ => File n ""
  | Dir n ch => Dir n (map skeleton ch)
  end.

(** Some entry carries the name. *)
Definition listed (filename : string) (l : list (string * string)) : bool :=
  match lookup_first filename l with Some _ => true | None => false end.

(** ** Keys that type into the command line

    A key press that, in command mode, reaches the branch
    [self.command_buffer += text]: no control modifier, not Escape,
    Return or Backspace, and a non-empty text. *)
Definition typing_key (e : QKeyEvent) : bool :=
  (Z.land (modifiers e) Qt.ControlModifier =? 0)%Z
  && negb (key e =? Qt.Key_Escape)%Z
  && negb (key e =? Qt.Key_Return)%Z
  && negb (key e =? Qt.Key_Backspace)%Z
  && Py.truthy (text e).

(** The text a sequence of key presses carries. *)
Definition typed_text (events : list QKeyEvent) : string :=
  Py.join "" (map text events).

Definition key_backspace : QKeyEvent :=
  plain_key Qt.Key_Backspace (String (ascii_of_nat 8) EmptyString).

(** ** The tests of the lint loop, line by line

    The four conditions of the loop body of [lint_code], for the line
    [line] with the 1-based number [i] of the text [lines]. *)
Definition flags_import (line : string) : bool :=
  Py.contains "import" line && negb (Py.contains "from" line)
  && negb (Py.contains "import os" line).

Definition flags_print (line : string) : bool :=
  Py.contains "print(" line && negb (Py.contains ("f" +:+ dquote) line)
  && negb (Py.contains "'" line).

Definition flags_todo (line : string) : bool :=
  Py.contains "TODO" line || Py.contains "FIXME" line.

Definition flags_indent (lines : list string) (i : nat) (line : string)
    : bool :=
  Py.contains "    " line && negb (Py.startswith (Py.strip line) "#")
  && (1 <? i)%nat
  && negb (Py.endswith (Py.strip (default "" (lines !! (i - 2)%nat))) ":").

(** The message a line ends up with in each category, if any.  For a
    warning the indentation message is assigned last and wins. *)
Definition error_message_of (i : nat) (line : string) : option string :=
  if flags_todo line then Some "TODO or FIXME found" else None.

Definition info_message_of (i : nat) (line : string) : option string :=
  if flags_print line
  then Some "Consider using f-strings for better readability" else None.

Definition warning_message_of (lines : list string) (i : nat) (line : string)
    : option string :=
  if flags_indent lines i line then Some "Potential indentation issue"
  else if flags_import line
  then Some "Consider using 'from module import name' instead of 'import module'"
  else None.

(** ** Key presses on either receiver

    A key press reaches the text widget when it has the focus, the
    window otherwise. *)
Inductive Receiver := OnEditor | OnWindow.

Definition deliver (qt : Toolkit) (input : Receiver * QKeyEvent)
    (s : VimAIEditor) : VimAIEditor :=
  match input with
  | (OnEditor, e) => VimTextEdit_keyPressEvent qt e s
  | (OnWindow, e) => VimAIEditor_keyPressEvent e s
  end.

Definition deliver_all (qt : Toolkit) (inputs : list (Receiver * QKeyEvent))
    (s : VimAIEditor) : VimAIEditor :=
  fold_left (fun s input => deliver qt input s) inputs s.

(** ** Editing the tree ([VirtualFileSystemModel])

    A [QModelIndex] of the tree view refers to a node of the tree.  It
    is modelled by the row numbers that lead from the root to the node;
    the empty path is the invalid index, which the model reads as the
    root.  [index.row()] is the last row number, and
    [index.internalPointer()] the node at the end of the path.  A
    method that raises (a missing ['children'] key, a row out of
    range) returns [None]. *)
Definition root_item (items : list Item) : Item := Dir "workspace" items.

Definition children_of (item : Item) : list Item :=
  match item with
  | Dir _ ch => ch
  | File _ _ => []
  end.

Definition item_name (item : Item) : string :=
  match item with
  | File n _ => n
  | Dir n _ => n
  end.

(** The node a path leads to. *)
Fixpoint get_at (p : list nat) (item : Item) : option Item :=
  match p with
  | [] => Some item
  | i :: p' =>
      match item with
      | Dir _ ch =>
          match ch !! i with
          | Some child => get_at p' child
          | None => None
          end
      | File _ _ => None
      end
  end.

(** In-place change of the node a path leads to. *)
Fixpoint alter_at (f : Item -> option Item) (p : list nat) (item : Item)
    : option Item :=
  match p with
  | [] => f item
  | i :: p' =>
      match item with
      | Dir n ch =>
          match ch !! i with
          | Some child =>
              match alter_at f p' child with
              | Some child' => Some (Dir n (<[i := child']> ch))
              | None => None
              end
          | None => None
          end
      | File _ _ => None
      end
  end.

(** [parent_item['children'].append(node)] *)
Definition append_child (node : Item) (parent_item : Item) : option Item :=
  match parent_item with
  | Dir n ch => Some (Dir n (ch ++ [node]))
  | File _ _ => None
  end.

(** [VirtualFileSystemModel.add_file] *)
Definition add_file (parent_index : list nat) (name content : string)
    (root : Item) : option Item :=
  alter_at (append_child (File name content)) parent_index root.

(** [VirtualFileSystemModel.add_directory] *)
Definition add_directory (parent_index : list nat) (name : string)
    (root : Item) : option Item :=
  alter_at (append_child (Dir name [])) parent_index root.

(** [item['name'] = new_name] *)
Definition set_name (new_name : string) (item : Item) : option Item :=
  match item with
  | File _ c => Some (File new_name c)
  | Dir _ ch => Some (Dir new_name ch)
  end.

(** [VirtualFileSystemModel.rename_item]; the invalid index has no
    node to rename. *)
Definition rename_item (index : list nat) (new_name : string) (root : Item)
    : option Item :=
  match index with
  | [] => None
  | _ => alter_at (set_name new_name) index root
  end.

(** A call on [self.file_model] that replaces the tree under the root. *)
Definition on_file_model (f : Item -> option Item) (s : VimAIEditor)
    : option VimAIEditor :=
  match f (root_item (file_model s)) with
  | Some root' => Some (with_file_model (children_of root') s)
  | None => None
  end.

(** [VimAIEditor.create_new_file]; [answer] is what
    [QInputDialog.getText] returns, the text and whether the dialog was
    accepted. *)
Definition create_new_file (parent_index : list nat) (answer : string * bool)
    (s : VimAIEditor) : option VimAIEditor :=
  let '(name, ok) := answer in
  if ok && Py.truthy name
  then on_file_model (add_file parent_index name "") s
  else Some s.

(** [VimAIEditor.create_new_folder] *)
Definition create_new_folder (parent_index : list nat) (answer : string * bool)
    (s : VimAIEditor) : option VimAIEditor :=
  let '(name, ok) := answer in
  if ok && Py.truthy name
  then on_file_model (add_directory parent_index name) s
  else Some s.

(** [VimAIEditor.rename_file] *)
Definition rename_file (index : list nat) (answer : string * bool)
    (s : VimAIEditor) : option VimAIEditor :=
  match index, get_at index (root_item (file_model s)) with
  | _ :: _, Some item =>
      let old_name := item_name item in
      let '(new_name, ok) := answer in
      if ok && Py.truthy new_name && negb (String.eqb new_name old_name) then
        match on_file_model (rename_item index new_name) s with
        | Some s =>
            if bool_decide (current_file s = Some old_name)
            then Some (update_status (with_current_file (Some new_name) s))
            else Some s
        | None => None
        end
      else Some s
  | _, _ => None
  end.

(** ** Removing a node ([VirtualFileSystemModel.remove_item])

    [child == target] on two nodes compares the dicts by value. *)
Fixpoint Item_eqb (a b : Item) : bool :=
  match a, b with
  | File n c, File n' c' => String.eqb n n' && String.eqb c c'
  | Dir n ch, Dir n' ch' =>
      String.eqb n n'
      && (fix each (l l' : list Item) : bool :=
            match l, l' with
            | [], [] => true
            | x :: l, y :: l' => Item_eqb x y && each l l'
            | _, _ => false
            end) ch ch'
  | _, _ => false
  end.

(** The loop of [find_parent] over the children of [current], from the
    row [row] on: a child equal to the target makes [current] the
    answer (the empty path); otherwise the answer found below the child
    is passed on. *)
Definition scan_children (below : Item -> option (list nat)) (target : Item)
    : list Item -> nat -> option (list nat) :=
  fix each (l : list Item) (row : nat) : option (list nat) :=
    match l with
    | [] => None
    | child :: l' =>
        if Item_eqb child target then Some []
        else match below child with
             | Some q => Some (row :: q)
             | None => each l' (S row)
             end
    end.

(** [VirtualFileSystemModel.find_parent]: the path from [current] to
    the node it returns, [None] when it returns [None]. *)
Fixpoint find_parent (current target : Item) : option (list nat) :=
  match current with
  | File _ _ => None
  | Dir _ ch =>
      scan_children (fun child => find_parent child target) target ch 0
  end.

(** The node [index.parent().internalPointer()] of
    [VirtualFileSystemModel.parent], as a path ([[]] for the root, which
    the invalid parent index stands for); [None] when the method
    raises.  The row of the parent index, found by
    [grandparent['children'].index(parent_item)], is not used by the
    callers modelled here. *)
Definition parent_pointer (index : list nat) (root : Item)
    : option (list nat) :=
  match index with
  | [] => Some []
  | _ =>
      match get_at index root with
      | Some child_item =>
          match find_parent root child_item with
          | Some q =>
              match get_at q root with
              | Some parent_item =>
                  if Item_eqb parent_item root then Some []
                  else match find_parent root parent_item with
                       | Some _ => Some q
                       | None => None
                       end
              | None => None
              end
          | None => None
          end
      | None => None
      end
  end.

(** [del parent_item['children'][row]] for a row that is not negative. *)
Definition delete_row (row : nat) (parent_item : Item) : option Item :=
  match parent_item with
  | Dir n ch => if (row <? length ch)%nat then Some (Dir n (delete row ch))
                else None
  | File _ _ => None
  end.

(** [del parent_item['children'][-1]], the row of the invalid index. *)
Definition delete_last_row (parent_item : Item) : option Item :=
  match parent_item with
  | Dir n ch => match ch with
                | [] => None
                | _ => Some (Dir n (removelast ch))
                end
  | File _ _ => None
  end.

(** [VirtualFileSystemModel.remove_item] *)
Definition remove_item (index : list nat) (root : Item) : option Item :=
  match parent_pointer index root with
  | Some q =>
      match last index with
      | Some row => alter_at (delete_row row) q root
      | None => alter_at delete_last_row q root
      end
  | None => None
  end.

(** The number of nodes of a tree. *)
Fixpoint nodes (item : Item) : nat :=
  match item with
  | File _ _ => 1
  | Dir _ ch => S (list_sum (map nodes ch))
  end.

(** The paths, from [item], of the nodes equal to [target]: the loop
    over the children from the row [row] on, and the whole search. *)
Definition paths_below (below : Item -> list (list nat))
    : list Item -> nat -> list (list nat) :=
  fix each (l : list Item) (row : nat) : list (list nat) :=
    match l with
    | [] => []
    | child :: l' => map (cons row) (below child) ++ each l' (S row)
    end.

Fixpoint paths_to (target item : Item) : list (list nat) :=
  (if Item_eqb item target then [[]] else [])
  ++ match item with
     | File _ _ => []
     | Dir _ ch => paths_below (paths_to target) ch 0
     end.

(** The tooltip [LineNumberArea.mouseMoveEvent] composes when the mouse
    is over the indicator of line [line_number]; the empty string
    stands for no tooltip. *)
Definition tooltip (a : LineNumberArea) (line_number : nat) : string :=
  match error_messages a !! line_number with
  | Some message => "Error: " +:+ message
  | None =>
      match warning_messages a !! line_number with
      | Some message => "Warning: " +:+ message
      | None =>
          match info_messages a !! line_number with
          | Some message => "Info: " +:+ message
          | None => ""
          end
      end
  end.

(** * Properties *)

(** ** Sanity checks of the string primitives *)

Example startswith_wq : Py.startswith ":wq" ":w" = true.
Proof. reflexivity. Qed.

Example endswith_colon : Py.endswith "def f():" ":" = true.
Proof. reflexivity. Qed.

Example contains_import : Py.contains "import" "  import sys" = true.
Proof. reflexivity. Qed.

Example contains_empty : Py.contains "" "" = true.
Proof. reflexivity. Qed.

Example strip_both : Py.strip "  main.py  " = "main.py".
Proof. reflexivity. Qed.

Example split_trailing : Py.split_lines ("a" +:+ nl) = ["a"; ""].
Proof. reflexivity. Qed.

Example drop_last_empty : Py.drop_last "" = "".
Proof. reflexivity. Qed.

Example join_str : Py.join ", " (map Py.str [1; 12; 0]) = "1, 12, 0".
Proof. reflexivity. Qed.

Example initial_status : file_status_label (initial true) = "No file open".
Proof. reflexivity. Qed.

(** ** What a call on the text widget leaves in the history *)

Section Frames.

Variable qt : Toolkit.

Lemma set_modified_editor s : editor (set_modified s) = editor s.
Proof. unfold set_modified. by case_match. Qed.

Lemma textChanged_editor s : editor (textChanged s) = editor s.
Proof. unfold textChanged. simpl. apply set_modified_editor. Qed.

Lemma editor_edit_editor c s :
  editor (editor_edit qt c s) = editor s ++ [c].
Proof.
  unfold editor_edit. case_match; [|done].
  by rewrite textChanged_editor.
Qed.

(** The slots of [textChanged] leave the dispatcher's own attributes
    alone. *)
Lemma set_modified_modal s :
  vim_mode (set_modified s) = vim_mode s
  /\ command_mode (set_modified s) = command_mode s
  /\ insert_mode (set_modified s) = insert_mode s
  /\ last_action (set_modified s) = last_action s
  /\ command_buffer (set_modified s) = command_buffer s.
Proof. unfold set_modified. by case_match. Qed.

Lemma editor_edit_modal c s :
  vim_mode (editor_edit qt c s) = vim_mode s
  /\ command_mode (editor_edit qt c s) = command_mode s
  /\ insert_mode (editor_edit qt c s) = insert_mode s
  /\ last_action (editor_edit qt c s) = last_action s
  /\ command_buffer (editor_edit qt c s) = command_buffer s.
Proof.
  unfold editor_edit, textChanged. case_match; [|done].
  simpl. apply (set_modified_modal (editor_call c s)).
Qed.

End Frames.

(** ** Single key presses in a known mode *)

Section Keys.

Variable qt : Toolkit.

(** A key without the control modifier, pressed outside insert mode,
    is handed to the dispatcher. *)
Lemma press_reaches_handler e s :
  Z.land (modifiers e) Qt.ControlModifier = 0%Z ->
  insert_mode s = false ->
  VimTextEdit_keyPressEvent qt e s = vim_key_handler qt e s.
Proof.
  intros He Hi. unfold VimTextEdit_keyPressEvent. by rewrite He, Hi.
Qed.

Lemma press_i s :
  normal_mode s -> VimTextEdit_keyPressEvent qt key_i s = set_insert_mode s.
Proof.
  intros (Hv & Hc & Hi).
  rewrite press_reaches_handler by done.
  unfold vim_key_handler. by rewrite Hc, Hv.
Qed.

Lemma press_colon s :
  normal_mode s ->
  VimTextEdit_keyPressEvent qt key_colon s = set_command_mode s.
Proof.
  intros (Hv & Hc & Hi).
  rewrite press_reaches_handler by done.
  unfold vim_key_handler. by rewrite Hc, Hv.
Qed.

Lemma press_escape_insert s :
  insert_mode s = true ->
  VimTextEdit_keyPressEvent qt key_escape s = set_normal_mode s.
Proof. intros Hi. unfold VimTextEdit_keyPressEvent. by rewrite Hi. Qed.

Lemma press_d s :
  normal_mode s ->
  VimTextEdit_keyPressEvent qt key_d s =
  with_last_action (Some "d")
    (if bool_decide (last_action s = Some "d")
     then editor_edit qt Call_removeLineUnderCursor s else s).
Proof.
  intros (Hv & Hc & Hi).
  rewrite press_reaches_handler by done.
  unfold vim_key_handler. rewrite Hc, Hv. simpl.
  by case_bool_decide.
Qed.

Lemma press_u s :
  normal_mode s ->
  VimTextEdit_keyPressEvent qt key_u s =
  with_last_action (Some "u")
    (if negb (bool_decide (last_action s = Some "u"))
        && negb (bool_decide (last_action s = Some "ctrl+r"))
     then editor_edit qt Call_undo s else s).
Proof.
  intros (Hv & Hc & Hi).
  rewrite press_reaches_handler by done.
  unfold vim_key_handler. rewrite Hc, Hv. simpl.
  by repeat case_bool_decide.
Qed.

Lemma press_g s :
  normal_mode s ->
  VimTextEdit_keyPressEvent qt key_g s = with_last_action (Some "g") s.
Proof.
  intros (Hv & Hc & Hi).
  rewrite press_reaches_handler by done.
  unfold vim_key_handler. by rewrite Hc, Hv.
Qed.

(** The line removal of the [d] key is decided by [last_action] alone. *)
Lemma d_key_effect s :
  normal_mode s ->
  editor (VimTextEdit_keyPressEvent qt key_d s) =
  if bool_decide (last_action s = Some "d")
  then editor s ++ [Call_removeLineUnderCursor] else editor s.
Proof.
  intros Hn. rewrite press_d by done. simpl.
  case_bool_decide; [apply editor_edit_editor | done].
Qed.

Lemma set_normal_mode_normal s : normal_mode (set_normal_mode s).
Proof. by repeat split. Qed.

Lemma initial_normal gemini : normal_mode (initial gemini).
Proof. by repeat split. Qed.

End Keys.

(** ** Mode flags *)

(** C10: after [set_normal_mode], [set_insert_mode] or
    [set_command_mode], [vim_mode] is true and [insert_mode] and
    [command_mode] are not both true. *)
Theorem mode_setters_consistent (s : VimAIEditor) :
  (vim_mode (set_normal_mode s) = true
   /\ insert_mode (set_normal_mode s) && command_mode (set_normal_mode s)
      = false)
  /\ (vim_mode (set_insert_mode s) = true
      /\ insert_mode (set_insert_mode s) && command_mode (set_insert_mode s)
         = false)
  /\ (vim_mode (set_command_mode s) = true
      /\ insert_mode (set_command_mode s) && command_mode (set_command_mode s)
         = false).
Proof. repeat split. Qed.

(** C2: from normal mode, [i] followed by Escape ends in normal mode:
    [insert_mode] and [command_mode] are false, [vim_mode] is true, the
    next key without the control modifier is dispatched by
    [vim_key_handler], and apart from the focus request on the text
    widget and the mode label the state is the one before, whatever the
    text widget held. *)
Theorem insert_escape_round_trip (qt : Toolkit) (s : VimAIEditor) :
  normal_mode s ->
  let s' := press_keys qt [key_i; key_escape] s in
  normal_mode s'
  /\ (forall e, Z.land (modifiers e) Qt.ControlModifier = 0%Z ->
        VimTextEdit_keyPressEvent qt e s' = vim_key_handler qt e s')
  /\ s' = with_mode_label "NORMAL" (editor_call Call_setFocus s).
Proof.
  intros Hn s'.
  assert (Hs' : s' = set_normal_mode (set_insert_mode s)).
  { subst s'. unfold press_keys. simpl.
    rewrite press_i by done. by rewrite press_escape_insert. }
  rewrite Hs'. split; [apply set_normal_mode_normal|]. split.
  - intros e He. by apply press_reaches_handler.
  - destruct Hn as (Hv & Hc & Hi). destruct s. simpl in *. by subst.
Qed.

Lemma insert_escape_round_trip_witness :
  let s' := press_keys plain_toolkit [key_i; key_escape] (initial true) in
  normal_mode s'
  /\ (forall e, Z.land (modifiers e) Qt.ControlModifier = 0%Z ->
        VimTextEdit_keyPressEvent plain_toolkit e s'
        = vim_key_handler plain_toolkit e s')
  /\ s' = with_mode_label "NORMAL" (editor_call Call_setFocus (initial true)).
Proof.
  apply (insert_escape_round_trip plain_toolkit (initial true)).
  repeat split; reflexivity.
Defined.

(** ** The [d] and [u] keys *)

Lemma d_i_escape_state (qt : Toolkit) (gemini : bool) :
  press_keys qt [key_d; key_i; key_escape] (initial gemini)
  = set_normal_mode
      (set_insert_mode (with_last_action (Some "d") (initial gemini))).
Proof.
  unfold press_keys. cbn [fold_left].
  rewrite (press_d qt (initial gemini)) by apply initial_normal.
  replace (bool_decide (last_action (initial gemini) = Some "d"))
    with false by reflexivity.
  rewrite press_i by (by repeat split).
  by rewrite press_escape_insert.
Qed.

(** C1: the keys [d], [i], Escape, [d] typed into the freshly started
    editor: the key before the second [d] is Escape (and before it [i]),
    the editor is back in normal mode, [last_action] still holds ['d']
    because the [i] branch returns before [self.last_action = text], and
    the second [d] removes the line under the cursor. *)
Theorem d_after_insert_removes_line (qt : Toolkit) (gemini : bool) :
  let s := press_keys qt [key_d; key_i; key_escape] (initial gemini) in
  normal_mode s
  /\ last_action s = Some "d"
  /\ editor (VimTextEdit_keyPressEvent qt key_d s)
     = editor s ++ [Call_removeLineUnderCursor].
Proof.
  intros s. subst s. rewrite d_i_escape_state.
  split; [apply set_normal_mode_normal|]. split; [reflexivity|].
  rewrite d_key_effect by apply set_normal_mode_normal. reflexivity.
Qed.

(** The claim of C6 fails on [u] pressed twice: the second [u] finds
    ['u'] in [last_action] and makes no call on the text widget. *)
Lemma u_after_u_no_undo :
  let s := press_keys plain_toolkit [key_u] (initial true) in
  normal_mode s
  /\ editor s = [Call_undo]
  /\ editor (VimTextEdit_keyPressEvent plain_toolkit key_u s) = editor s
  /\ editor (VimTextEdit_keyPressEvent plain_toolkit key_u s)
     <> editor s ++ [Call_undo].
Proof. vm_compute. repeat split; discriminate. Qed.

(** What a [u] key does is decided by [last_action]: [undo] is called
    on the text widget when it is neither ['u'] nor ['ctrl+r'], nothing
    is called on the widget otherwise. *)
Lemma u_key_effect (qt : Toolkit) (s : VimAIEditor) :
  normal_mode s ->
  editor (VimTextEdit_keyPressEvent qt key_u s) =
  if negb (bool_decide (last_action s = Some "u"))
     && negb (bool_decide (last_action s = Some "ctrl+r"))
  then editor s ++ [Call_undo] else editor s.
Proof.
  intros Hn. rewrite press_u by done.
  cbn [editor with_last_action].
  case_match; [apply editor_edit_editor | done].
Qed.

(** A key without modifier other than [:], [i] and [a], pressed in
    normal mode, leaves the editor in normal mode and is recorded as
    the last action. *)
Lemma recorded_key (qt : Toolkit) (e : QKeyEvent) (s : VimAIEditor) :
  normal_mode s ->
  modifiers e = Qt.NoModifier ->
  text e <> ":" -> text e <> "i" -> text e <> "a" ->
  normal_mode (VimTextEdit_keyPressEvent qt e s)
  /\ last_action (VimTextEdit_keyPressEvent qt e s) = Some (text e).
Proof.
  intros (Hv & Hc & Hi) Hm Hcolon Hti Hta.
  rewrite press_reaches_handler by (by rewrite ?Hm).
  unfold vim_key_handler, normal_mode. rewrite Hc, Hv, Hm.
  cbn [andb Z.eqb Qt.NoModifier].
  apply String.eqb_neq in Hcolon, Hti, Hta. rewrite Hcolon, Hti, Hta.
  cbn [vim_mode command_mode insert_mode last_action with_last_action].
  split; [|done].
  repeat case_match;
    try (destruct (editor_edit_modal qt Call_deleteChar s) as (-> & -> & -> & _));
    try (destruct (editor_edit_modal qt Call_removeLineUnderCursor s)
           as (-> & -> & -> & _));
    try (destruct (editor_edit_modal qt Call_undo s) as (-> & -> & -> & _));
    try (destruct (editor_edit_modal qt Call_redo s) as (-> & -> & -> & _));
    done.
Qed.

(** The first key after start-up: [u] calls [undo]. *)
Example u_first_key (qt : Toolkit) (gemini : bool) :
  editor (VimTextEdit_keyPressEvent qt key_u (initial gemini)) = [Call_undo].
Proof. by rewrite u_key_effect by apply initial_normal. Qed.

(** C6, amended: in normal mode, let a key [e] that the dispatcher
    records (no modifier, the text of one keystroke, not [:], [i] or
    [a], which leave normal mode) be followed at once by [u].  After
    [e] the editor is still in normal mode, and the [u] calls [undo]
    on the text widget exactly when [e] was not itself [u]; after
    [u], a second [u] makes no call on the widget. *)
Theorem u_after_recorded_key
    (qt : Toolkit) (e : QKeyEvent) (s : VimAIEditor) :
  normal_mode s ->
  modifiers e = Qt.NoModifier ->
  String.length (text e) <= 1 ->
  text e <> ":" -> text e <> "i" -> text e <> "a" ->
  let s1 := VimTextEdit_keyPressEvent qt e s in
  let s2 := VimTextEdit_keyPressEvent qt key_u s1 in
  normal_mode s1
  /\ (text e <> "u" -> editor s2 = editor s1 ++ [Call_undo])
  /\ (text e = "u" -> editor s2 = editor s1).
Proof.
  intros Hn Hm Hlen Hcolon Hti Hta s1 s2. subst s1 s2.
  destruct (recorded_key qt e s Hn Hm Hcolon Hti Hta) as [Hn1 Hl1].
  split; [done|].
  rewrite u_key_effect, Hl1 by done.
  split.
  - intros Hu. rewrite !bool_decide_eq_false_2; [done| |].
    + intros [= H]. rewrite H in Hlen. cbn in Hlen. lia.
    + by intros [= H].
  - intros ->. by rewrite bool_decide_eq_true_2.
Qed.

Lemma u_after_recorded_key_witness :
  let s1 := VimTextEdit_keyPressEvent plain_toolkit key_d (initial true) in
  let s2 := VimTextEdit_keyPressEvent plain_toolkit key_u s1 in
  normal_mode s1
  /\ (text key_d <> "u" -> editor s2 = editor s1 ++ [Call_undo])
  /\ (text key_d = "u" -> editor s2 = editor s1).
Proof.
  apply (u_after_recorded_key plain_toolkit key_d (initial true)).
  - repeat split; reflexivity.
  - reflexivity.
  - simpl. lia.
  - discriminate.
  - discriminate.
  - discriminate.
Defined.

(** ** Looking a file up in the tree *)

Section Tree.

Variable qt : Toolkit.

Lemma get_file_content_None filename item :
  has_file filename item = false -> get_file_content item filename = None.
Proof.
  induction item as [n c|n ch IH] using Item_ind; simpl.
  - by intros ->.
  - induction IH as [|x l Hx _ IHl]; simpl; [done|].
    intros [H1 H2]%orb_false_elim.
    rewrite Hx by done. by apply IHl.
Qed.

Lemma find_content_None filename items :
  existsb (has_file filename) items = false ->
  find_content items filename None = None.
Proof.
  induction items as [|x l IH]; simpl; [done|].
  intros [H1 H2]%orb_false_elim.
  rewrite get_file_content_None by done. by apply IH.
Qed.

(** [search_and_open] finds what [get_file_content] finds, and loads
    it. *)
Lemma search_and_open_spec filename item s :
  search_and_open qt item filename s =
  match get_file_content item filename with
  | Some c => (load_file qt filename c s, true)
  | None => (s, false)
  end.
Proof.
  revert s.
  induction item as [n c|n ch IH] using Item_ind; intros s; simpl.
  - destruct (String.eqb_spec n filename) as [->|]; done.
  - revert s. induction IH as [|x l Hx _ IHl]; intros s; simpl; [done|].
    rewrite Hx. destruct (get_file_content x filename); [done|].
    apply IHl.
Qed.

Lemma search_first_spec filename items s :
  search_first qt items filename s =
  match find_content items filename None with
  | Some c => (load_file qt filename c s, true)
  | None => (s, false)
  end.
Proof.
  revert s. induction items as [|x l IH]; intros s; simpl; [done|].
  rewrite search_and_open_spec.
  destruct (get_file_content x filename); [done|]. apply IH.
Qed.

Lemma find_and_open_file_spec filename s :
  find_and_open_file qt filename s =
  match find_content (file_model s) filename None with
  | Some c => load_file qt filename c s
  | None => with_ai_output ("File not found: " +:+ filename) s
  end.
Proof.
  unfold find_and_open_file. rewrite search_first_spec.
  by destruct (find_content (file_model s) filename None).
Qed.

Lemma set_document_language_with n s :
  exists l, set_document_language n s = with_language l s.
Proof. unfold set_document_language. repeat case_match; eauto. Qed.

Lemma load_file_editor n c s :
  editor (load_file qt n c s) = editor s ++ [Call_setPlainText c].
Proof.
  unfold load_file.
  destruct (set_document_language_with n
    (update_status (with_modified false (with_current_file (Some n)
       (editor_edit qt (Call_setPlainText c) s))))) as [l ->].
  cbn. apply editor_edit_editor.
Qed.


Lemma set_modified_gutter s :
  line_number_area (set_modified s) = line_number_area s
  /\ closed (set_modified s) = closed s.
Proof. unfold set_modified. by case_match. Qed.

Lemma editor_edit_gutter c s :
  line_number_area (editor_edit qt c s) = line_number_area s
  /\ closed (editor_edit qt c s) = closed s.
Proof.
  unfold editor_edit, textChanged. case_match; [|done].
  cbn. apply (set_modified_gutter (editor_call c s)).
Qed.

(** Loading a file keeps the gutter markers as they are. *)
Lemma load_file_gutter n c s :
  line_number_area (load_file qt n c s) = line_number_area s
  /\ closed (load_file qt n c s) = closed s.
Proof.
  unfold load_file.
  destruct (set_document_language_with n
    (update_status (with_modified false (with_current_file (Some n)
       (editor_edit qt (Call_setPlainText c) s))))) as [l ->].
  cbn. apply editor_edit_gutter.
Qed.

Lemma load_file_modal n c s : same_modal s (load_file qt n c s).
Proof.
  unfold load_file.
  destruct (set_document_language_with n
    (update_status (with_modified false (with_current_file (Some n)
       (editor_edit qt (Call_setPlainText c) s))))) as [l ->].
  unfold same_modal. cbn. apply editor_edit_modal.
Qed.

Lemma find_and_open_file_gutter filename s :
  line_number_area (find_and_open_file qt filename s) = line_number_area s.
Proof.
  rewrite find_and_open_file_spec. case_match; [|done].
  apply load_file_gutter.
Qed.

End Tree.

(** ** The command line *)

Section Commands.

Variable qt : Toolkit.

Lemma save_file_closed s : closed (save_file qt s) = closed s.
Proof. unfold save_file. by repeat case_match. Qed.

(** [save_file] neither reads nor writes the command buffer. *)
Lemma save_file_command_buffer b s :
  save_file qt (with_command_buffer b s)
  = with_command_buffer b (save_file qt s).
Proof. unfold save_file. cbn. by repeat case_match. Qed.

Lemma execute_wq_is_save rest s :
  execute_vim_command qt (":wq" +:+ rest) s = save_file qt s.
Proof.
  unfold execute_vim_command, Py.startswith.
  change (":wq" +:+ rest)
    with (String ":"%char (String "w"%char (String "q"%char rest))).
  reflexivity.
Qed.

Lemma execute_e name s :
  execute_vim_command qt (":e " +:+ name) s
  = find_and_open_file qt (Py.strip name) s.
Proof.
  unfold execute_vim_command, Py.startswith.
  change (":e " +:+ name)
    with (String ":"%char (String "e"%char (String " "%char name))).
  cbn [String.prefix]. cbn.
  replace (String.prefix "" name) with true by (by destruct name).
  reflexivity.
Qed.

(** Return in command mode: run the buffer, clear it, go back to
    normal mode, show the (now empty) buffer in the status bar. *)
Lemma press_return_command s :
  command_mode s = true -> insert_mode s = false ->
  VimTextEdit_keyPressEvent qt key_return s
  = update_command_status
      (set_normal_mode
         (with_command_buffer ""
            (execute_vim_command qt (command_buffer s) s))).
Proof.
  intros Hc Hi. rewrite press_reaches_handler by done.
  unfold vim_key_handler. by rewrite Hc.
Qed.

End Commands.

(** C3: Return on the command buffer [:wq].  The buffer starts with
    [:w], so the first test of [execute_vim_command] takes it: the
    command is [save_file] and nothing else, the window is not closed,
    and the outcome is the one of submitting [:w]. *)
Theorem wq_runs_the_w_action (qt : Toolkit) (s : VimAIEditor) :
  command_mode s = true -> insert_mode s = false ->
  command_buffer s = ":wq" ->
  let s' := VimTextEdit_keyPressEvent qt key_return s in
  execute_vim_command qt ":wq" s = save_file qt s
  /\ closed s' = closed s
  /\ s' = VimTextEdit_keyPressEvent qt key_return (with_command_buffer ":w" s).
Proof.
  intros Hc Hi Hb s'. subst s'.
  rewrite !press_return_command by done.
  rewrite Hb. cbn [command_buffer with_command_buffer].
  change (execute_vim_command qt ":wq" s) with (save_file qt s).
  change (execute_vim_command qt ":w" (with_command_buffer ":w" s))
    with (save_file qt (with_command_buffer ":w" s)).
  rewrite save_file_command_buffer.
  split; [done|]. split; [|done].
  cbn. apply save_file_closed.
Qed.

Lemma wq_runs_the_w_action_witness :
  let s := press_keys plain_toolkit [key_w; key_q]
             (set_command_mode (initial true)) in
  let s' := VimTextEdit_keyPressEvent plain_toolkit key_return s in
  execute_vim_command plain_toolkit ":wq" s = save_file plain_toolkit s
  /\ closed s' = closed s
  /\ s' = VimTextEdit_keyPressEvent plain_toolkit key_return
            (with_command_buffer ":w" s).
Proof.
  apply (wq_runs_the_w_action plain_toolkit
           (press_keys plain_toolkit [key_w; key_q]
              (set_command_mode (initial true)))); reflexivity.
Defined.

Example wq_leaves_window_open :
  closed (press_keys plain_toolkit [key_colon; key_w; key_q; key_return]
            (initial true)) = false.
Proof. vm_compute. reflexivity. Qed.

(** C8: [:e name] for a name that, stripped, belongs to no file node of
    the tree: the command only writes the not-found message to the AI
    panel; [current_file], the text widget and the tree are as before. *)
Theorem edit_missing_file (qt : Toolkit) (s : VimAIEditor) (name : string) :
  existsb (has_file (Py.strip name)) (file_model s) = false ->
  let s' := execute_vim_command qt (":e " +:+ name) s in
  s' = with_ai_output ("File not found: " +:+ Py.strip name) s
  /\ ai_output s' = "File not found: " +:+ Py.strip name
  /\ current_file s' = current_file s
  /\ editor s' = editor s
  /\ toPlainText qt (editor s') = toPlainText qt (editor s)
  /\ file_model s' = file_model s.
Proof.
  intros Hno s'. subst s'.
  rewrite execute_e, find_and_open_file_spec.
  by rewrite find_content_None.
Qed.

Lemma edit_missing_file_witness :
  let s := initial true in
  let s' := execute_vim_command plain_toolkit (":e " +:+ " notes.txt ") s in
  s' = with_ai_output ("File not found: " +:+ Py.strip " notes.txt ") s
  /\ ai_output s' = "File not found: " +:+ Py.strip " notes.txt "
  /\ current_file s' = current_file s
  /\ editor s' = editor s
  /\ toPlainText plain_toolkit (editor s') = toPlainText plain_toolkit (editor s)
  /\ file_model s' = file_model s.
Proof.
  apply (edit_missing_file plain_toolkit (initial true) " notes.txt ").
  reflexivity.
Defined.

(** The same through the keyboard: Return on the buffer [:e name]. *)
Lemma return_on_missing_file (qt : Toolkit) (s : VimAIEditor) (name : string) :
  command_mode s = true -> insert_mode s = false ->
  command_buffer s = ":e " +:+ name ->
  existsb (has_file (Py.strip name)) (file_model s) = false ->
  let s' := VimTextEdit_keyPressEvent qt key_return s in
  ai_output s' = "File not found: " +:+ Py.strip name
  /\ current_file s' = current_file s
  /\ editor s' = editor s
  /\ file_model s' = file_model s.
Proof.
  intros Hc Hi Hb Hno s'. subst s'.
  rewrite press_return_command by done. rewrite Hb.
  rewrite execute_e, find_and_open_file_spec.
  by rewrite find_content_None.
Qed.

(** ** Gutter markers across a file switch *)

(** The editor after [:e main.py] and [:lint] on the starting tree:
    [main.py] is open and its line 2 carries an info marker. *)
Example linted_main_py :
  let s := execute_vim_command plain_toolkit ":lint"
             (execute_vim_command plain_toolkit ":e main.py" (initial true)) in
  current_file s = Some "main.py"
  /\ info_lines (line_number_area s) = {[2]}
  /\ info_messages (line_number_area s) !! 2
     = Some "Consider using f-strings for better readability".
Proof. vm_compute. repeat split. Qed.

(** C7: a file switch through [:e name] never touches the gutter, and
    a switch through [open_file] empties the three line sets but keeps
    the message tables.  On the starting tree, after [:e main.py] and
    [:lint], both ways of switching to [utils.py] are run: [:e] leaves
    the info marker of line 2 of [main.py] in place, [open_file] clears
    the marker and keeps its message. *)
Theorem file_switch_keeps_markers :
  (forall (qt : Toolkit) (s : VimAIEditor) (name : string),
     line_number_area (execute_vim_command qt (":e " +:+ name) s)
     = line_number_area s)
  /\ (forall (qt : Toolkit) (s : VimAIEditor) (n c : string),
        let a := line_number_area s in
        let a' := line_number_area (open_file qt (File n c) s) in
        error_lines a' = ∅ /\ warning_lines a' = ∅ /\ info_lines a' = ∅
        /\ error_messages a' = error_messages a
        /\ warning_messages a' = warning_messages a
        /\ info_messages a' = info_messages a)
  /\ (let s := execute_vim_command plain_toolkit ":lint"
                 (execute_vim_command plain_toolkit ":e main.py"
                    (initial true)) in
      let by_command := execute_vim_command plain_toolkit ":e utils.py" s in
      let by_click :=
        open_file plain_toolkit
          (File "utils.py"
             ("# Utility functions" +:+ nl +:+ "def greet(name):" +:+ nl
              +:+ "    return f" +:+ dquote +:+ "Hello {name}" +:+ dquote)) s in
      current_file by_command = Some "utils.py"
      /\ info_lines (line_number_area by_command) = {[2]}
      /\ info_messages (line_number_area by_command) !! 2
         = Some "Consider using f-strings for better readability"
      /\ current_file by_click = Some "utils.py"
      /\ info_lines (line_number_area by_click) = ∅
      /\ info_messages (line_number_area by_click) !! 2
         = Some "Consider using f-strings for better readability").
Proof.
  split; [|split].
  - intros qt s name. rewrite execute_e. apply find_and_open_file_gutter.
  - intros qt s n c a a'. subst a a'. unfold open_file.
    destruct (set_document_language_with n
      (update_status (with_modified false (with_current_file (Some n)
         (editor_edit qt (Call_setPlainText c) s))))) as [l ->].
    cbn.
    destruct (editor_edit_gutter qt (Call_setPlainText c) s) as [-> _].
    by repeat split.
  - vm_compute. by repeat split.
Qed.

(** ** The lint pass *)

Lemma keyed_nil : keyed [] ∅.
Proof.
  intros n. rewrite lookup_empty. split.
  - by intros ?%elem_of_nil.
  - by intros [? ?].
Qed.

Lemma keyed_add lines messages i msg :
  keyed lines messages -> keyed (lines ++ [i]) (<[i := msg]> messages).
Proof.
  intros H n. rewrite elem_of_app, list_elem_of_singleton, (H n).
  destruct (decide (i = n)) as [->|Hne].
  - rewrite lookup_insert_eq. split; [by eexists | by right].
  - rewrite lookup_insert_ne by done.
    split; [intros [?|?]; [done | congruence] | by left].
Qed.

Lemma add_error_keyed i msg r : report_keyed r -> report_keyed (add_error i msg r).
Proof.
  intros (He & Hw & Hi).
  split; [|split]; cbn; try done; by apply keyed_add.
Qed.

Lemma add_warning_keyed i msg r :
  report_keyed r -> report_keyed (add_warning i msg r).
Proof.
  intros (He & Hw & Hi).
  split; [|split]; cbn; try done; by apply keyed_add.
Qed.

Lemma add_info_keyed i msg r : report_keyed r -> report_keyed (add_info i msg r).
Proof.
  intros (He & Hw & Hi).
  split; [|split]; cbn; try done; by apply keyed_add.
Qed.

Lemma lint_line_keyed lines i line r :
  report_keyed r -> report_keyed (lint_line lines i line r).
Proof.
  intros H. unfold lint_line.
  repeat case_match;
    repeat first [ apply add_error_keyed | apply add_warning_keyed
                 | apply add_info_keyed ]; done.
Qed.

Lemma lint_loop_keyed lines rest : forall i r,
  report_keyed r -> report_keyed (lint_loop lines i rest r).
Proof.
  induction rest as [|line rest IH]; intros i r H; simpl; [done|].
  apply IH. by apply lint_line_keyed.
Qed.

Lemma lint_report_keyed content : report_keyed (lint_report content).
Proof.
  apply lint_loop_keyed. split; [|split]; apply keyed_nil.
Qed.

(** A line that is flagged after [set_errors] shows the message the
    caller passed for it, also when the table passed is the empty one
    and the old table stays. *)
Lemma flagged_message lines messages old n :
  keyed lines messages ->
  n ∈ (list_to_set lines : gset nat) ->
  (if truthy_messages (Some messages) then messages else old) !! n
  = messages !! n.
Proof.
  intros Hk Hn%elem_of_list_to_set. unfold truthy_messages.
  case_bool_decide as He; [|done]. simpl.
  apply Hk in Hn as [msg Hmsg]. rewrite He, lookup_empty in Hmsg. done.
Qed.

(** The gutter after a lint pass that ran. *)
Lemma lint_code_gutter qt s :
  Py.truthy_opt (current_file s) = true ->
  let r := lint_report (toPlainText qt (editor s)) in
  line_number_area (lint_code qt s)
  = set_info (rep_info_lines r) (Some (rep_info_messages r))
      (set_warnings (rep_warning_lines r) (Some (rep_warning_messages r))
         (set_errors (rep_error_lines r) (Some (rep_error_messages r))
            (line_number_area s)))
  /\ ai_output (lint_code qt s) = lint_summary r.
Proof. intros H r. unfold lint_code. by rewrite H. Qed.

(** X26: two lint passes over the same text, from any two states with
    a file open (and under any two toolkits): the six values the pass
    computes are the same, the three line sets left in the gutter are
    the same, namely the lines of the report, every flagged line shows
    the same message, namely the one of the report, and the summary in
    the AI panel is the same.  Nothing is said of the messages of lines
    that are not flagged. *)
Theorem lint_depends_on_text_only
    (qt1 qt2 : Toolkit) (s1 s2 : VimAIEditor) :
  toPlainText qt1 (editor s1) = toPlainText qt2 (editor s2) ->
  Py.truthy_opt (current_file s1) = true ->
  Py.truthy_opt (current_file s2) = true ->
  let r := lint_report (toPlainText qt1 (editor s1)) in
  let a1 := line_number_area (lint_code qt1 s1) in
  let a2 := line_number_area (lint_code qt2 s2) in
  lint_report (toPlainText qt2 (editor s2)) = r
  /\ (error_lines a1 = list_to_set (rep_error_lines r)
      /\ error_lines a2 = error_lines a1)
  /\ (warning_lines a1 = list_to_set (rep_warning_lines r)
      /\ warning_lines a2 = warning_lines a1)
  /\ (info_lines a1 = list_to_set (rep_info_lines r)
      /\ info_lines a2 = info_lines a1)
  /\ (forall n, n ∈ error_lines a1 ->
        error_messages a1 !! n = rep_error_messages r !! n
        /\ error_messages a2 !! n = error_messages a1 !! n)
  /\ (forall n, n ∈ warning_lines a1 ->
        warning_messages a1 !! n = rep_warning_messages r !! n
        /\ warning_messages a2 !! n = warning_messages a1 !! n)
  /\ (forall n, n ∈ info_lines a1 ->
        info_messages a1 !! n = rep_info_messages r !! n
        /\ info_messages a2 !! n = info_messages a1 !! n)
  /\ ai_output (lint_code qt2 s2) = ai_output (lint_code qt1 s1).
Proof.
  intros Htext H1 H2 r a1 a2. subst a1 a2.
  destruct (lint_code_gutter qt1 s1 H1) as [-> ->].
  destruct (lint_code_gutter qt2 s2 H2) as [-> ->].
  rewrite <- Htext. fold r.
  destruct (lint_report_keyed (toPlainText qt1 (editor s1)))
    as (He & Hw & Hi). fold r in He, Hw, Hi.
  cbn [error_lines warning_lines info_lines error_messages warning_messages
       info_messages set_errors set_warnings set_info default].
  do 4 (split; [done|]).
  split.
  { intros n Hn. by rewrite !(flagged_message (rep_error_lines r)). }
  split.
  { intros n Hn. by rewrite !(flagged_message (rep_warning_lines r)). }
  split.
  { intros n Hn. by rewrite !(flagged_message (rep_info_lines r)). }
  done.
Qed.

Lemma lint_depends_on_text_only_witness :
  let s1 := execute_vim_command plain_toolkit ":e main.py" (initial true) in
  let s2 := execute_vim_command plain_toolkit ":e main.py"
              (execute_vim_command plain_toolkit ":lint"
                 (execute_vim_command plain_toolkit ":e testing.c"
                    (initial false))) in
  let r := lint_report (toPlainText plain_toolkit (editor s1)) in
  let a1 := line_number_area (lint_code plain_toolkit s1) in
  let a2 := line_number_area (lint_code plain_toolkit s2) in
  lint_report (toPlainText plain_toolkit (editor s2)) = r
  /\ (error_lines a1 = list_to_set (rep_error_lines r)
      /\ error_lines a2 = error_lines a1)
  /\ (warning_lines a1 = list_to_set (rep_warning_lines r)
      /\ warning_lines a2 = warning_lines a1)
  /\ (info_lines a1 = list_to_set (rep_info_lines r)
      /\ info_lines a2 = info_lines a1)
  /\ (forall n, n ∈ error_lines a1 ->
        error_messages a1 !! n = rep_error_messages r !! n
        /\ error_messages a2 !! n = error_messages a1 !! n)
  /\ (forall n, n ∈ warning_lines a1 ->
        warning_messages a1 !! n = rep_warning_messages r !! n
        /\ warning_messages a2 !! n = warning_messages a1 !! n)
  /\ (forall n, n ∈ info_lines a1 ->
        info_messages a1 !! n = rep_info_messages r !! n
        /\ info_messages a2 !! n = info_messages a1 !! n)
  /\ ai_output (lint_code plain_toolkit s2)
     = ai_output (lint_code plain_toolkit s1).
Proof.
  apply (lint_depends_on_text_only plain_toolkit plain_toolkit
           (execute_vim_command plain_toolkit ":e main.py" (initial true))
           (execute_vim_command plain_toolkit ":e main.py"
              (execute_vim_command plain_toolkit ":lint"
                 (execute_vim_command plain_toolkit ":e testing.c"
                    (initial false)))));
    vm_compute; reflexivity.
Defined.

(** C9: two lint passes over the same text that leave different message
    tables.  [utils.py] is opened and linted, once right after start-up
    and once after [main.py] was opened and linted.  The text in the
    widget and the open file are the same, and so are the three line
    sets after the pass (all empty: [utils.py] has nothing to report).
    The message tables are not: [set_info] replaces the table only when
    the new one is not empty, so the second run still holds the message
    of line 2 of [main.py], and the tooltip of line 2 shows it. *)
Theorem lint_keeps_stale_messages :
  let s1 := execute_vim_command plain_toolkit ":e utils.py" (initial true) in
  let s2 := execute_vim_command plain_toolkit ":e utils.py"
              (execute_vim_command plain_toolkit ":lint"
                 (execute_vim_command plain_toolkit ":e main.py"
                    (initial true))) in
  let a1 := line_number_area (lint_code plain_toolkit s1) in
  let a2 := line_number_area (lint_code plain_toolkit s2) in
  toPlainText plain_toolkit (editor s1) = toPlainText plain_toolkit (editor s2)
  /\ current_file s1 = Some "utils.py"
  /\ current_file s2 = Some "utils.py"
  /\ (error_lines a1 = ∅ /\ warning_lines a1 = ∅ /\ info_lines a1 = ∅)
  /\ (error_lines a2 = ∅ /\ warning_lines a2 = ∅ /\ info_lines a2 = ∅)
  /\ info_messages a1 !! 2 = None
  /\ info_messages a2 !! 2
     = Some "Consider using f-strings for better readability"
  /\ info_messages a1 <> info_messages a2
  /\ tooltip a1 2 = ""
  /\ tooltip a2 2 = "Info: Consider using f-strings for better readability".
Proof.
  vm_compute. repeat split. discriminate.
Qed.

(** ** Which calls reach the text widget *)

Section History.

Variable qt : Toolkit.

Lemma extends_intro P s s' calls :
  editor s' = editor s ++ calls -> Forall P calls -> extends P s s'.
Proof. intros. by exists calls. Qed.

Lemma extends_refl P s : extends P s s.
Proof. apply (extends_intro P s s []); [by rewrite app_nil_r | constructor]. Qed.

Lemma extends_trans P s1 s2 s3 :
  extends P s1 s2 -> extends P s2 s3 -> extends P s1 s3.
Proof.
  intros (l1 & H1 & F1) (l2 & H2 & F2). exists (l1 ++ l2). split.
  - by rewrite H2, H1, app_assoc.
  - by apply Forall_app.
Qed.

Lemma extends_weaken (P Q : EditorCall -> Prop) s s' :
  (forall c, P c -> Q c) -> extends P s s' -> extends Q s s'.
Proof.
  intros HPQ (l & H & F). exists l. split; [done|].
  eapply Forall_impl; eauto.
Qed.

Lemma extends_same P s s' : editor s' = editor s -> extends P s s'.
Proof. intros H. apply (extends_intro P s s' []); [by rewrite app_nil_r | constructor]. Qed.

Lemma extends_one P s s' c :
  editor s' = editor s ++ [c] -> P c -> extends P s s'.
Proof. intros H Hc. apply (extends_intro P s s' [c]); [done | by constructor]. Qed.

Lemma save_file_editor s : editor (save_file qt s) = editor s.
Proof. unfold save_file. by repeat case_match. Qed.

Lemma lint_code_editor s : editor (lint_code qt s) = editor s.
Proof. unfold lint_code. by repeat case_match. Qed.

Lemma call_ai_editor prompt context s :
  editor (call_ai qt prompt context s) = editor s.
Proof. unfold call_ai. by repeat case_match. Qed.

Lemma explain_code_editor s : editor (explain_code qt s) = editor s.
Proof. unfold explain_code. case_match; apply call_ai_editor. Qed.

Lemma run_current_file_editor s : editor (run_current_file qt s) = editor s.
Proof.
  unfold run_current_file. case_match; [done|].
  repeat case_match; cbn; apply save_file_editor.
Qed.

Lemma find_and_open_file_extends filename s :
  extends is_load s (find_and_open_file qt filename s).
Proof.
  rewrite find_and_open_file_spec. case_match.
  - eapply extends_one; [apply load_file_editor | by eexists].
  - by apply extends_same.
Qed.

(** A command only ever loads text into the widget. *)
Lemma execute_vim_command_extends command s :
  extends is_load s (execute_vim_command qt command s).
Proof.
  unfold execute_vim_command.
  repeat case_match;
    first [ apply find_and_open_file_extends | apply extends_same ];
    cbn;
    first [ apply save_file_editor | apply call_ai_editor
          | apply explain_code_editor | apply run_current_file_editor
          | apply lint_code_editor | done ].
Qed.

Lemma is_load_key_call e c : is_load c -> key_call e c.
Proof. intros [t ->]. by split. Qed.

(** The dispatcher: the [redo] branch is never taken, and the
    [Start] jump only for the text ['gg']. *)
Lemma vim_key_handler_extends e s :
  extends (key_call e) s (vim_key_handler qt e s).
Proof.
  unfold vim_key_handler. destruct (command_mode s).
  - repeat case_match; try (by apply extends_same).
    eapply extends_trans.
    + eapply extends_weaken; [apply is_load_key_call|].
      apply execute_vim_command_extends.
    + by apply extends_same.
  - destruct (vim_mode s && (modifiers e =? 0)%Z) eqn:Hplain.
    + apply andb_true_iff in Hplain as [_ Hm%Z.eqb_eq].
      rewrite Hm.
      repeat case_match; try (by apply extends_same);
        try (eapply extends_one;
             [cbn; first [apply editor_edit_editor | reflexivity]
             | by split]).
      * eapply (extends_intro _ _ _ [Call_moveCursor Right; Call_setFocus]).
        { cbn. by rewrite <- app_assoc. }
        by repeat constructor.
      * eapply extends_one; [reflexivity|]. split; [done|].
        intros _. by apply String.eqb_eq.
    + eapply extends_one; [apply editor_edit_editor | by split].
Qed.

Lemma keyPressEvent_extends e s :
  extends (key_call e) s (VimTextEdit_keyPressEvent qt e s).
Proof.
  unfold VimTextEdit_keyPressEvent. repeat case_match.
  - eapply extends_one; [apply editor_edit_editor | by split].
  - by apply extends_same.
  - eapply extends_one; [apply editor_edit_editor | by split].
  - apply vim_key_handler_extends.
Qed.

(** No sequence of key presses makes the program call [redo]. *)
Lemma redo_never_called events : forall s,
  extends (fun c => c <> Call_redo) s (press_keys qt events s).
Proof.
  induction events as [|e events IH]; intros s; [apply extends_refl|].
  eapply extends_trans; [|apply IH].
  eapply extends_weaken; [|apply keyPressEvent_extends].
  by intros c [H _].
Qed.

End History.

(** ** Control-R and [gg] *)

(** C4: a key event with the control modifier, in normal mode, with any
    key code and any text: [VimTextEdit.keyPressEvent] hands it to the
    base class before the dispatcher is asked; the dispatcher, were it
    called, would hand it to the base class too, since its normal-mode
    block requires an event without modifiers.  The only call on the
    text widget is the base-class key handler, not [redo]. *)
Theorem ctrl_r_goes_to_base_class
    (qt : Toolkit) (s : VimAIEditor) (e : QKeyEvent) :
  normal_mode s ->
  modifiers e = Qt.ControlModifier ->
  VimTextEdit_keyPressEvent qt e s = editor_edit qt (Call_keyPressEvent e) s
  /\ vim_key_handler qt e s = editor_edit qt (Call_keyPressEvent e) s
  /\ editor (VimTextEdit_keyPressEvent qt e s)
     = editor s ++ [Call_keyPressEvent e]
  /\ ~ In Call_redo [Call_keyPressEvent e].
Proof.
  intros (Hv & Hc & Hi) He.
  assert (H1 : VimTextEdit_keyPressEvent qt e s
               = editor_edit qt (Call_keyPressEvent e) s).
  { unfold VimTextEdit_keyPressEvent. by rewrite He. }
  split; [done|]. split.
  - unfold vim_key_handler. by rewrite Hc, Hv, He.
  - rewrite H1, editor_edit_editor. split; [done|].
    intros [H|[]]. discriminate.
Qed.

Lemma ctrl_r_goes_to_base_class_witness :
  VimTextEdit_keyPressEvent plain_toolkit key_ctrl_r (initial true)
  = editor_edit plain_toolkit (Call_keyPressEvent key_ctrl_r) (initial true)
  /\ vim_key_handler plain_toolkit key_ctrl_r (initial true)
     = editor_edit plain_toolkit (Call_keyPressEvent key_ctrl_r) (initial true)
  /\ editor (VimTextEdit_keyPressEvent plain_toolkit key_ctrl_r (initial true))
     = editor (initial true) ++ [Call_keyPressEvent key_ctrl_r]
  /\ ~ In Call_redo [Call_keyPressEvent key_ctrl_r].
Proof.
  apply (ctrl_r_goes_to_base_class plain_toolkit (initial true) key_ctrl_r).
  - repeat split; reflexivity.
  - reflexivity.
Defined.

(** The event the [redo] branch tests for, control modifier with the
    text ['r'], fares the same. *)
Example ctrl_with_text_r :
  editor (VimTextEdit_keyPressEvent plain_toolkit
            {| key := 0x52; text := "r"; modifiers := Qt.ControlModifier |}
            (initial true))
  = [Call_keyPressEvent
       {| key := 0x52; text := "r"; modifiers := Qt.ControlModifier |}].
Proof. vm_compute. reflexivity. Qed.

(** C5: when every event carries the text of at most one keystroke, no
    sequence of key presses makes the program call [moveCursor(Start)]:
    the branch compares the text of one event with ['gg']. *)
Theorem start_jump_unreachable
    (qt : Toolkit) (events : list QKeyEvent) (s : VimAIEditor) :
  Forall (fun e => String.length (text e) <= 1) events ->
  extends (fun c => c <> Call_moveCursor Start) s (press_keys qt events s).
Proof.
  intros Hev. revert s.
  induction Hev as [|e events He _ IH]; intros s; [apply extends_refl|].
  eapply extends_trans; [|apply IH].
  eapply extends_weaken; [|apply keyPressEvent_extends].
  intros c [_ Hgg] ->. rewrite Hgg in He by done. cbn in He. lia.
Qed.

Lemma start_jump_unreachable_witness :
  extends (fun c => c <> Call_moveCursor Start) (initial true)
    (press_keys plain_toolkit [key_g; key_g] (initial true)).
Proof.
  apply (start_jump_unreachable plain_toolkit [key_g; key_g] (initial true)).
  repeat constructor.
Defined.

(** [g], [g] in normal mode: no call on the text widget at all. *)
Example gg_makes_no_call (qt : Toolkit) (s : VimAIEditor) :
  normal_mode s ->
  press_keys qt [key_g; key_g] s = with_last_action (Some "g") s.
Proof.
  intros Hn. unfold press_keys. cbn [fold_left].
  rewrite (press_g qt s) by done.
  destruct Hn as (Hv & Hc & Hi).
  rewrite press_g by (by repeat split). reflexivity.
Qed.

(** ** The mode flags along a run *)

Section Modes.

Variable qt : Toolkit.

Lemma modes_consistent_same s s' :
  vim_mode s' = vim_mode s -> command_mode s' = command_mode s ->
  insert_mode s' = insert_mode s ->
  modes_consistent s -> modes_consistent s'.
Proof. unfold modes_consistent. by intros -> -> ->. Qed.

Lemma editor_edit_modes c s :
  modes_consistent s -> modes_consistent (editor_edit qt c s).
Proof.
  destruct (editor_edit_modal qt c s) as (Hv & Hc & Hi & _).
  by apply modes_consistent_same.
Qed.

Lemma vim_key_handler_modes e s :
  modes_consistent s -> modes_consistent (vim_key_handler qt e s).
Proof.
  intros Hs. unfold vim_key_handler.
  repeat case_match;
    try (by apply modes_consistent_same with s);
    try done;
    by apply editor_edit_modes.
Qed.

(** Every key press on the text widget keeps the flags consistent. *)
Lemma keyPressEvent_modes e s :
  modes_consistent s ->
  modes_consistent (VimTextEdit_keyPressEvent qt e s).
Proof.
  intros Hs. unfold VimTextEdit_keyPressEvent.
  repeat case_match;
    first [ by apply editor_edit_modes | by apply vim_key_handler_modes
          | done ].
Qed.

Lemma window_keyPressEvent_modes e s :
  modes_consistent s ->
  modes_consistent (VimAIEditor_keyPressEvent e s).
Proof. intros Hs. unfold VimAIEditor_keyPressEvent. by repeat case_match. Qed.

(** Whatever is typed into the freshly started editor, it is never in
    insert and command mode at once. *)
Lemma modes_consistent_run gemini events :
  modes_consistent (press_keys qt events (initial gemini)).
Proof.
  assert (H : modes_consistent (initial gemini)) by done.
  revert H. generalize (initial gemini).
  induction events as [|e events IH]; intros s Hs; [done|].
  apply IH. by apply keyPressEvent_modes.
Qed.

End Modes.

(** ** Stale messages

    [set_errors], [set_warnings] and [set_info] keep the old message
    table when the new one is empty.  After [main.py] was linted, a lint
    pass over [utils.py], which has nothing to report, leaves no line
    flagged and the message of line 2 of [main.py] in the table. *)
Example messages_outlive_their_lines :
  let s := execute_vim_command plain_toolkit ":lint"
             (execute_vim_command plain_toolkit ":e utils.py"
                (execute_vim_command plain_toolkit ":lint"
                   (execute_vim_command plain_toolkit ":e main.py"
                      (initial true)))) in
  info_lines (line_number_area s) = ∅
  /\ info_messages (line_number_area s) !! 2
     = Some "Consider using f-strings for better readability".
Proof. vm_compute. by split. Qed.

(** * Further properties *)

(** ** The tree operations on the list of files *)

Lemma lookup_first_app filename l1 l2 :
  lookup_first filename (l1 ++ l2)
  = match lookup_first filename l1 with
    | Some c => Some c
    | None => lookup_first filename l2
    end.
Proof.
  induction l1 as [|[n c] l1 IH]; simpl; [done|].
  by destruct (String.eqb n filename).
Qed.

Lemma replace_first_app filename content l1 l2 :
  replace_first filename content (l1 ++ l2)
  = match lookup_first filename l1 with
    | Some _ => replace_first filename content l1 ++ l2
    | None => l1 ++ replace_first filename content l2
    end.
Proof.
  induction l1 as [|[n c] l1 IH]; simpl; [done|].
  destruct (String.eqb n filename); [done|].
  rewrite IH. by destruct (lookup_first filename l1).
Qed.

Lemma replace_first_absent filename content l :
  lookup_first filename l = None -> replace_first filename content l = l.
Proof.
  induction l as [|[n c] l IH]; simpl; [done|].
  destruct (String.eqb n filename); [done|]. intros H. by rewrite IH.
Qed.

Lemma lookup_replace_same filename content l :
  lookup_first filename (replace_first filename content l)
  = match lookup_first filename l with
    | Some _ => Some content
    | None => None
    end.
Proof.
  induction l as [|[n c] l IH]; simpl; [done|].
  destruct (String.eqb n filename) eqn:E; simpl; by rewrite E.
Qed.

Lemma lookup_replace_other filename content other l :
  other <> filename ->
  lookup_first other (replace_first filename content l)
  = lookup_first other l.
Proof.
  intros Hne. induction l as [|[n c] l IH]; simpl; [done|].
  destruct (String.eqb_spec n filename) as [->|]; simpl.
  - destruct (String.eqb_spec filename other); [congruence | done].
  - by rewrite IH.
Qed.

Lemma has_file_listed filename item :
  has_file filename item = listed filename (files_of item).
Proof.
  unfold listed.
  induction item as [n c|n ch IH] using Item_ind; simpl.
  - by destruct (String.eqb n filename).
  - induction IH as [|x l Hx _ IHl]; simpl; [done|].
    rewrite lookup_first_app, Hx, IHl.
    by destruct (lookup_first filename (files_of x)).
Qed.

Lemma get_file_content_lookup filename item :
  get_file_content item filename = lookup_first filename (files_of item).
Proof.
  induction item as [n c|n ch IH] using Item_ind; simpl.
  - by destruct (String.eqb n filename).
  - induction IH as [|x l Hx _ IHl]; simpl; [done|].
    rewrite lookup_first_app, Hx.
    by destruct (lookup_first filename (files_of x)).
Qed.

Lemma find_content_lookup filename items :
  find_content items filename None = lookup_first filename (files_in items).
Proof.
  induction items as [|x l IH]; simpl; [done|].
  unfold files_in in *. simpl.
  rewrite lookup_first_app, get_file_content_lookup.
  by destruct (lookup_first filename (files_of x)).
Qed.

(** The loop of [run_current_file] starts from [content = ""]: with no
    node below the root the loop body never runs and the empty text is
    kept; otherwise the first iteration overwrites it. *)
Lemma find_content_start filename items :
  find_content items filename (Some "")
  = match items with
    | [] => Some ""
    | _ :: _ => lookup_first filename (files_in items)
    end.
Proof.
  destruct items as [|x l]; [done|].
  rewrite <- find_content_lookup. reflexivity.
Qed.

Lemma find_content_found filename items start c :
  lookup_first filename (files_in items) = Some c ->
  find_content items filename start = Some c.
Proof.
  rewrite <- find_content_lookup. by destruct items.
Qed.

(** Replacing the first entry of a name changes that entry alone. *)
Lemma replace_first_split filename content l c :
  lookup_first filename l = Some c ->
  exists l1 l2,
    l = l1 ++ (filename, c) :: l2
    /\ lookup_first filename l1 = None
    /\ replace_first filename content l = l1 ++ (filename, content) :: l2.
Proof.
  induction l as [|[n c'] l IH]; simpl; [done|].
  destruct (String.eqb_spec n filename) as [->|Hne].
  - intros [= ->]. by exists [], l.
  - intros (l1 & l2 & -> & H1 & ->)%IH.
    exists ((n, c') :: l1), l2. simpl.
    apply String.eqb_neq in Hne. by rewrite Hne.
Qed.

Lemma update_file_content_files filename content item :
  files_of (update_file_content item filename content).1
  = replace_first filename content (files_of item)
  /\ (update_file_content item filename content).2
     = listed filename (files_of item)
  /\ skeleton (update_file_content item filename content).1 = skeleton item.
Proof.
  unfold listed.
  induction item as [n c|n ch IH] using Item_ind.
  - simpl. by destruct (String.eqb n filename).
  - cbn [update_file_content].
    set (each := fix each (l : list Item) : list Item * bool :=
           match l with
           | [] => ([], false)
           | child :: l' =>
               let '(child', found) :=
                 update_file_content child filename content in
               if found then (child' :: l', true)
               else let '(l'', found') := each l' in (child' :: l'', found')
           end).
    assert (H : flat_map files_of (each ch).1
                = replace_first filename content (flat_map files_of ch)
                /\ (each ch).2
                   = match lookup_first filename (flat_map files_of ch) with
                     | Some _ => true
                     | None => false
                     end
                /\ map skeleton (each ch).1 = map skeleton ch).
    { induction IH as [|x l (Hx1 & Hx2 & Hx3) _ IHl]; simpl; [done|].
      destruct IHl as (Hl1 & Hl2 & Hl3).
      rewrite replace_first_app, lookup_first_app.
      destruct (update_file_content x filename content) as [x' fx].
      simpl in Hx1, Hx2, Hx3.
      destruct (lookup_first filename (files_of x)) as [c|] eqn:E;
        subst fx; simpl.
      - by rewrite Hx1, Hx3.
      - destruct (each l) as [l'' fl]. simpl in *.
        rewrite Hx1, Hl1, Hx3, Hl3.
        by rewrite (replace_first_absent _ _ _ E). }
    destruct (each ch) as [ch' found]. simpl in *.
    destruct H as (H1 & H2 & H3). by rewrite H1, H2, H3.
Qed.

Lemma update_first_files filename content items :
  files_in (update_first items filename content).1
  = replace_first filename content (files_in items)
  /\ (update_first items filename content).2
     = listed filename (files_in items)
  /\ map skeleton (update_first items filename content).1 = map skeleton items.
Proof.
  unfold files_in, listed.
  induction items as [|x l (Hl1 & Hl2 & Hl3)]; simpl; [done|].
  destruct (update_file_content_files filename content x) as (Hx1 & Hx2 & Hx3).
  unfold listed in Hx2.
  rewrite replace_first_app, lookup_first_app.
  destruct (update_file_content x filename content) as [x' fx].
  simpl in Hx1, Hx2, Hx3.
  destruct (lookup_first filename (files_of x)) as [c|] eqn:E;
    subst fx; simpl.
  - by rewrite Hx1, Hx3.
  - destruct (update_first l filename content) as [l'' fl].
    simpl in *. rewrite Hx1, Hl1, Hx3, Hl3.
    by rewrite (replace_first_absent _ _ _ E).
Qed.

Lemma existsb_has_file_listed filename items :
  existsb (has_file filename) items = listed filename (files_in items).
Proof.
  unfold listed, files_in.
  induction items as [|x l IH]; simpl; [done|].
  rewrite lookup_first_app, IH, has_file_listed. unfold listed.
  by destruct (lookup_first filename (files_of x)).
Qed.

Lemma update_file_content_absent filename content item :
  has_file filename item = false ->
  update_file_content item filename content = (item, false).
Proof.
  induction item as [n c|n ch IH] using Item_ind; simpl.
  - by intros ->.
  - intros H.
    enough (E : (fix each (l : list Item) : list Item * bool :=
                   match l with
                   | [] => ([], false)
                   | child :: l' =>
                       let '(child', found) :=
                         update_file_content child filename content in
                       if found then (child' :: l', true)
                       else let '(l'', found') := each l' in
                            (child' :: l'', found')
                   end) ch = (ch, false)) by (by rewrite E).
    induction IH as [|x l Hx _ IHl]; [done|].
    simpl in H. apply orb_false_elim in H as [H1 H2].
    rewrite Hx by done. by rewrite IHl.
Qed.

Lemma update_first_absent filename content items :
  existsb (has_file filename) items = false ->
  update_first items filename content = (items, false).
Proof.
  induction items as [|x l IH]; simpl; [done|].
  intros [H1 H2]%orb_false_elim.
  rewrite update_file_content_absent by done. by rewrite IH.
Qed.

(** ** Saving and opening *)

(** X1: the two lookups by name.  The loop of [run_current_file]
    starts from [content = ""] and calls [get_file_content] on the
    children of the root; the loop of [:e] calls [search_and_open] on
    them.  When the root has a child, both stop at the first file of
    that name in depth-first order, so they pick the same file, and
    directories of that name are passed over.  When the root has no
    child, [:e] finds nothing, while the lookup of [run_current_file]
    ends with the empty text it started from. *)
Theorem lookups_take_first_match
    (qt : Toolkit) (items : list Item) (filename : string) (s : VimAIEditor) :
  find_content items filename (Some "")
  = match items with
    | [] => Some ""
    | _ :: _ => lookup_first filename (files_in items)
    end
  /\ search_first qt items filename s
     = match lookup_first filename (files_in items) with
       | Some c => (load_file qt filename c s, true)
       | None => (s, false)
       end.
Proof.
  split; [apply find_content_start|].
  by rewrite search_first_spec, find_content_lookup.
Qed.



(** X3: saving when no file of the tree carries the name of the open
    file (it was renamed or deleted meanwhile): the tree is left as it
    is, [modified] is not cleared, and the AI panel reports the
    failure. *)
Theorem save_without_target (qt : Toolkit) (s : VimAIEditor) (f : string) :
  current_file s = Some f ->
  Py.truthy f = true ->
  existsb (has_file f) (file_model s) = false ->
  save_file qt s = with_ai_output ("Could not save " +:+ f) s.
Proof.
  intros Hc Ht Hf. unfold save_file. rewrite Hc.
  cbn [Py.truthy_opt default from_option id]. rewrite Ht. cbn [negb].
  rewrite update_first_absent by done.
  destruct s. simpl in *. by subst.
Qed.

Lemma save_without_target_witness :
  save_file plain_toolkit (with_current_file (Some "gone.py") (initial true))
  = with_ai_output ("Could not save " +:+ "gone.py")
      (with_current_file (Some "gone.py") (initial true)).
Proof.
  apply (save_without_target plain_toolkit
           (with_current_file (Some "gone.py") (initial true)) "gone.py");
    reflexivity.
Defined.

(** X4: [save_file] writes to one file at most.  The directories, the
    names and the order of the tree stay as they are, and either the
    tree is the one before, or exactly one entry of the list of its
    files has a new content: the first one, in depth-first order, that
    carries the name of the open file, which now holds the text of the
    widget.  The entries before and after it, later files of the same
    name included, are the ones before. *)
Theorem save_writes_one_file (qt : Toolkit) (s : VimAIEditor) :
  let s' := save_file qt s in
  map skeleton (file_model s') = map skeleton (file_model s)
  /\ (file_model s' = file_model s
      \/ exists f c l1 l2,
           current_file s = Some f
           /\ files_in (file_model s) = l1 ++ (f, c) :: l2
           /\ lookup_first f l1 = None
           /\ files_in (file_model s')
              = l1 ++ (f, toPlainText qt (editor s)) :: l2).
Proof.
  intros s'. subst s'. unfold save_file.
  destruct (current_file s) as [f|] eqn:Hc;
    cbn [Py.truthy_opt default from_option id]; [|by split; [|left]].
  destruct (Py.truthy f); cbn [negb]; [|by split; [|left]].
  destruct (update_first_files f (toPlainText qt (editor s)) (file_model s))
    as (H1 & H2 & H3).
  destruct (lookup_first f (files_in (file_model s))) as [c|] eqn:Hl.
  - destruct (replace_first_split f (toPlainText qt (editor s)) _ c Hl)
      as (l1 & l2 & E1 & E2 & E3).
    destruct (update_first (file_model s) f (toPlainText qt (editor s)))
      as [items found].
    simpl in H1, H3.
    assert (Hfiles : file_model
                       (if found
                        then with_ai_output ("Saved " +:+ f)
                               (update_status (with_modified false
                                  (with_file_model items s)))
                        else with_ai_output ("Could not save " +:+ f)
                               (with_file_model items s))
                     = items) by (by destruct found).
    rewrite Hfiles. split; [done|]. right.
    exists f, c, l1, l2. by rewrite H1, E3.
  - assert (Habs : existsb (has_file f) (file_model s) = false).
    { rewrite existsb_has_file_listed. unfold listed. by rewrite Hl. }
    rewrite update_first_absent by done.
    split; [done|]. by left.
Qed.

(** Two files of the same name: saving writes to the first and leaves
    the second. *)
Example save_leaves_the_twin :
  let s :=
    execute_vim_command plain_toolkit ":e a.py"
      (with_file_model [File "a.py" "one"; Dir "lib" [File "a.py" "two"]]
         (initial true)) in
  files_in (file_model s) = [("a.py", "one"); ("a.py", "two")]
  /\ files_in
       (file_model
          (save_file plain_toolkit (editor_call (Call_setPlainText "new") s)))
     = [("a.py", "new"); ("a.py", "two")].
Proof. vm_compute. by split. Qed.



(** ** What a command can touch *)

Section Footprint.

Variable qt : Toolkit.

Lemma save_file_frame s :
  same_modal s (save_file qt s)
  /\ closed (save_file qt s) = closed s
  /\ line_number_area (save_file qt s) = line_number_area s
  /\ editor (save_file qt s) = editor s
  /\ current_file (save_file qt s) = current_file s.
Proof. unfold save_file, same_modal. by repeat case_match. Qed.

Lemma lint_code_frame s :
  same_modal s (lint_code qt s)
  /\ closed (lint_code qt s) = closed s
  /\ file_model (lint_code qt s) = file_model s
  /\ editor (lint_code qt s) = editor s
  /\ current_file (lint_code qt s) = current_file s.
Proof. unfold lint_code, same_modal. by repeat case_match. Qed.

Lemma call_ai_frame prompt context s :
  same_modal s (call_ai qt prompt context s)
  /\ closed (call_ai qt prompt context s) = closed s
  /\ file_model (call_ai qt prompt context s) = file_model s
  /\ line_number_area (call_ai qt prompt context s) = line_number_area s
  /\ editor (call_ai qt prompt context s) = editor s
  /\ current_file (call_ai qt prompt context s) = current_file s.
Proof. unfold call_ai, same_modal. by repeat case_match. Qed.

Lemma explain_code_frame s :
  same_modal s (explain_code qt s)
  /\ closed (explain_code qt s) = closed s
  /\ file_model (explain_code qt s) = file_model s
  /\ line_number_area (explain_code qt s) = line_number_area s
  /\ editor (explain_code qt s) = editor s
  /\ current_file (explain_code qt s) = current_file s.
Proof. unfold explain_code. case_match; apply call_ai_frame. Qed.

Lemma run_current_file_frame s :
  same_modal s (run_current_file qt s)
  /\ closed (run_current_file qt s) = closed s
  /\ editor (run_current_file qt s) = editor s
  /\ current_file (run_current_file qt s) = current_file s
  /\ (file_model (run_current_file qt s) = file_model (save_file qt s)
      \/ file_model (run_current_file qt s) = file_model s).
Proof.
  unfold run_current_file.
  destruct (save_file_frame s) as (Hm & Hc & _ & He & Hf).
  case_match; [by repeat split; try right|].
  repeat case_match; cbn; repeat split; try apply Hm; try done; by left.
Qed.

Lemma set_modified_frame s :
  file_model (set_modified s) = file_model s
  /\ current_file (set_modified s) = current_file s.
Proof. unfold set_modified. by case_match. Qed.

Lemma editor_edit_frame c s :
  file_model (editor_edit qt c s) = file_model s
  /\ current_file (editor_edit qt c s) = current_file s.
Proof.
  unfold editor_edit, textChanged. case_match; [|done].
  cbn. apply (set_modified_frame (editor_call c s)).
Qed.

Lemma load_file_file_model n c s :
  file_model (load_file qt n c s) = file_model s.
Proof.
  unfold load_file.
  destruct (set_document_language_with n
    (update_status (with_modified false (with_current_file (Some n)
       (editor_edit qt (Call_setPlainText c) s))))) as [l ->].
  cbn. apply editor_edit_frame.
Qed.

Lemma find_and_open_file_frame filename s :
  same_modal s (find_and_open_file qt filename s)
  /\ closed (find_and_open_file qt filename s) = closed s
  /\ file_model (find_and_open_file qt filename s) = file_model s
  /\ line_number_area (find_and_open_file qt filename s) = line_number_area s.
Proof.
  rewrite find_and_open_file_spec. case_match; [|done].
  split; [apply load_file_modal|].
  split; [apply load_file_gutter|].
  split; [apply load_file_file_model | apply load_file_gutter].
Qed.

Lemma prefix_w_not_q command :
  Py.startswith command ":w" = true -> Py.startswith command ":q" = false.
Proof.
  unfold Py.startswith.
  destruct command as [|a [|b rest]]; cbn [String.prefix]; try done.
  - by destruct (ascii_dec ":" a).
  - destruct (ascii_dec ":" a); [|done].
    destruct (ascii_dec "w" b) as [<-|]; [|done]. done.
Qed.

Lemma prefix_wq_w command :
  Py.startswith command ":wq" = true -> Py.startswith command ":w" = true.
Proof.
  unfold Py.startswith.
  destruct command as [|a [|b rest]]; cbn [String.prefix]; try done.
  destruct (ascii_dec ":" a); [|done].
  destruct (ascii_dec "w" b); [|done]. by destruct rest.
Qed.

End Footprint.

(** X6: what each command of the command line can touch.  No command
    changes the mode flags, [last_action] or the command buffer; the
    window is closed exactly by the commands that start with [:q]; the
    tree can change only under [:w...] and [:run], the gutter only
    under [:run] and [:lint...], the text widget and the open file only
    under [:e ...]. *)
Theorem command_footprint
    (qt : Toolkit) (command : string) (s : VimAIEditor) :
  let s' := execute_vim_command qt command s in
  same_modal s s'
  /\ closed s' = closed s || Py.startswith command ":q"
  /\ (file_model s' = file_model s
      \/ Py.startswith command ":w" = true \/ command = ":run")
  /\ (line_number_area s' = line_number_area s
      \/ command = ":run" \/ Py.startswith command ":lint" = true)
  /\ (editor s' = editor s /\ current_file s' = current_file s
      \/ Py.startswith command ":e " = true).
Proof.
  intros s'. subst s'. unfold execute_vim_command.
  destruct (Py.startswith command ":w") eqn:Hw.
  { rewrite (prefix_w_not_q _ Hw), orb_false_r.
    destruct (save_file_frame qt s) as (Hm & Hc & Hg & He & Hf).
    split; [exact Hm|]. split; [exact Hc|]. split; [right; by left|].
    split; [left; exact Hg|]. left. by split. }
  destruct (Py.startswith command ":wq") eqn:Hwq.
  { apply prefix_wq_w in Hwq. congruence. }
  destruct (Py.startswith command ":q") eqn:Hq.
  { rewrite orb_true_r. split; [by repeat split|]. split; [reflexivity|].
    split; [by left|]. split; [by left|]. left. by split. }
  rewrite orb_false_r.
  destruct (Py.startswith command ":e ") eqn:He.
  { destruct (find_and_open_file_frame qt (Py.strip (Py.drop 3 command)) s)
      as (Hm & Hc & Ht & Hg).
    split; [exact Hm|]. split; [exact Hc|]. split; [left; exact Ht|].
    split; [left; exact Hg|]. by right. }
  assert (Hai : forall prompt context,
            let s' := call_ai qt prompt context s in
            same_modal s s'
            /\ closed s' = closed s
            /\ (file_model s' = file_model s
                \/ false = true \/ command = ":run")
            /\ (line_number_area s' = line_number_area s
                \/ command = ":run" \/ Py.startswith command ":lint" = true)
            /\ (editor s' = editor s /\ current_file s' = current_file s
                \/ false = true)).
  { intros prompt context s'. subst s'.
    destruct (call_ai_frame qt prompt context s)
      as (Hm & Hc & Ht & Hg & Hed & Hf).
    split; [exact Hm|]. split; [exact Hc|]. split; [left; exact Ht|].
    split; [left; exact Hg|]. left. by split. }
  destruct (Py.startswith command ":ai "); [apply Hai|].
  destruct (String.eqb command ":fix"); [apply Hai|].
  destruct (String.eqb command ":explain").
  { unfold explain_code. case_match; apply Hai. }
  destruct (String.eqb command ":opt"); [apply Hai|].
  destruct (String.eqb command ":test"); [apply Hai|].
  clear Hai.
  destruct (String.eqb_spec command ":run") as [Hrun|Hrun].
  { destruct (run_current_file_frame qt s) as (Hm & Hc & Hed & Hf & _).
    split; [exact Hm|]. split; [exact Hc|].
    split; [right; right; exact Hrun|]. split; [right; left; exact Hrun|].
    left. by split. }
  destruct (Py.startswith command ":lint").
  { destruct (lint_code_frame qt s) as (Hm & Hc & Ht & Hed & Hf).
    split; [exact Hm|]. split; [exact Hc|]. split; [left; exact Ht|].
    split; [right; by right|]. left. by split. }
  split; [by repeat split|]. split; [reflexivity|].
  split; [by left|]. split; [by left|]. left. by split.
Qed.

(** ** What a key press can touch *)

Section KeyFootprint.

Variable qt : Toolkit.

Lemma save_file_skeleton s :
  map skeleton (file_model (save_file qt s)) = map skeleton (file_model s).
Proof.
  unfold save_file. case_match; [done|].
  destruct (update_first_files (default "" (current_file s))
              (toPlainText qt (editor s)) (file_model s)) as (_ & _ & Hsk).
  destruct (update_first (file_model s) (default "" (current_file s))
              (toPlainText qt (editor s))) as [items found].
  by destruct found.
Qed.

Lemma execute_vim_command_skeleton command s :
  map skeleton (file_model (execute_vim_command qt command s))
  = map skeleton (file_model s).
Proof.
  unfold execute_vim_command. repeat case_match.
  - apply save_file_skeleton.
  - apply save_file_skeleton.
  - done.
  - by destruct (find_and_open_file_frame qt (Py.strip (Py.drop 3 command)) s)
      as (_ & _ & -> & _).
  - by destruct (call_ai_frame qt (Py.drop 4 command)
                   (toPlainText qt (editor s)) s) as (_ & _ & -> & _).
  - by destruct (call_ai_frame qt "Find and fix any bugs in this code:"
                   (toPlainText qt (editor s)) s) as (_ & _ & -> & _).
  - by destruct (explain_code_frame qt s) as (_ & _ & -> & _).
  - by destruct (call_ai_frame qt
                   "Optimize this code for better performance or readability:"
                   (toPlainText qt (editor s)) s) as (_ & _ & -> & _).
  - by destruct (call_ai_frame qt "Generate unit tests for this code:"
                   (toPlainText qt (editor s)) s) as (_ & _ & -> & _).
  - destruct (run_current_file_frame qt s) as (_ & _ & _ & _ & [->| ->]);
      [apply save_file_skeleton | done].
  - by destruct (lint_code_frame qt s) as (_ & _ & -> & _).
  - done.
Qed.

Lemma execute_vim_command_closed command s :
  closed (execute_vim_command qt command s)
  = closed s || Py.startswith command ":q".
Proof.
  unfold execute_vim_command.
  destruct (Py.startswith command ":w") eqn:Hw.
  { rewrite (prefix_w_not_q _ Hw), orb_false_r. apply save_file_closed. }
  destruct (Py.startswith command ":wq") eqn:Hwq.
  { apply prefix_wq_w in Hwq. congruence. }
  destruct (Py.startswith command ":q"); [by rewrite orb_true_r|].
  rewrite orb_false_r. repeat case_match.
  - by destruct (find_and_open_file_frame qt (Py.strip (Py.drop 3 command)) s)
      as (_ & -> & _).
  - by destruct (call_ai_frame qt (Py.drop 4 command)
                   (toPlainText qt (editor s)) s) as (_ & -> & _).
  - by destruct (call_ai_frame qt "Find and fix any bugs in this code:"
                   (toPlainText qt (editor s)) s) as (_ & -> & _).
  - by destruct (explain_code_frame qt s) as (_ & -> & _).
  - by destruct (call_ai_frame qt
                   "Optimize this code for better performance or readability:"
                   (toPlainText qt (editor s)) s) as (_ & -> & _).
  - by destruct (call_ai_frame qt "Generate unit tests for this code:"
                   (toPlainText qt (editor s)) s) as (_ & -> & _).
  - by destruct (run_current_file_frame qt s) as (_ & -> & _).
  - by destruct (lint_code_frame qt s) as (_ & -> & _).
  - done.
Qed.

(** The tree after a key press handled by the dispatcher is the tree
    before, or the tree the submitted command left. *)
Lemma vim_key_handler_file_model e s :
  file_model (vim_key_handler qt e s) = file_model s
  \/ file_model (vim_key_handler qt e s)
     = file_model (execute_vim_command qt (command_buffer s) s).
Proof.
  unfold vim_key_handler.
  repeat case_match; cbn;
    rewrite ?(proj1 (editor_edit_frame qt _ _)); auto.
Qed.

Lemma keyPressEvent_skeleton e s :
  map skeleton (file_model (VimTextEdit_keyPressEvent qt e s))
  = map skeleton (file_model s).
Proof.
  unfold VimTextEdit_keyPressEvent. repeat case_match;
    rewrite ?(proj1 (editor_edit_frame qt _ _)); try done.
  destruct (vim_key_handler_file_model e s) as [-> | ->]; [done|].
  apply execute_vim_command_skeleton.
Qed.

Lemma vim_key_handler_closed e s :
  closed (vim_key_handler qt e s)
  = closed s
    || command_mode s && (key e =? Qt.Key_Return)%Z
       && Py.startswith (command_buffer s) ":q".
Proof.
  unfold vim_key_handler. destruct (command_mode s); cbn [andb].
  - destruct (key e =? Qt.Key_Escape)%Z eqn:Hesc.
    { apply Z.eqb_eq in Hesc. rewrite Hesc. cbn. by rewrite orb_false_r. }
    destruct (key e =? Qt.Key_Return)%Z.
    { cbn. apply execute_vim_command_closed. }
    rewrite orb_false_r. by repeat case_match.
  - rewrite orb_false_r.
    repeat case_match; cbn;
      rewrite ?(proj2 (editor_edit_gutter qt _ _)); done.
Qed.

End KeyFootprint.

(** X7: typing cannot create, remove, rename or move a node of the
    tree: after any sequence of key presses the directories, the names
    and their order are what they were; only file contents can differ. *)
Theorem typing_keeps_tree_shape
    (qt : Toolkit) (events : list QKeyEvent) (s : VimAIEditor) :
  map skeleton (file_model (press_keys qt events s))
  = map skeleton (file_model s).
Proof.
  revert s. induction events as [|e events IH]; intros s; [done|].
  unfold press_keys in *. cbn [fold_left].
  rewrite IH. apply keyPressEvent_skeleton.
Qed.

(** X8: a key press closes the window exactly when it is Return
    without the control modifier, pressed in command mode (and not in
    insert mode) on a command buffer that starts with [:q]. *)
Theorem key_press_closes_window
    (qt : Toolkit) (e : QKeyEvent) (s : VimAIEditor) :
  closed (VimTextEdit_keyPressEvent qt e s)
  = closed s
    || (Z.land (modifiers e) Qt.ControlModifier =? 0)%Z
       && negb (insert_mode s) && command_mode s
       && (key e =? Qt.Key_Return)%Z
       && Py.startswith (command_buffer s) ":q".
Proof.
  unfold VimTextEdit_keyPressEvent.
  destruct (Z.land (modifiers e) Qt.ControlModifier =? 0)%Z; cbn [negb andb].
  - destruct (insert_mode s); cbn [negb andb].
    + rewrite orb_false_r. case_match; [done|].
      apply (editor_edit_gutter qt (Call_keyPressEvent e) s).
    + apply vim_key_handler_closed.
  - rewrite orb_false_r.
    apply (editor_edit_gutter qt (Call_keyPressEvent e) s).
Qed.

(** ** Typing a command line *)

Lemma append_empty_r (a : string) : a +:+ "" = a.
Proof.
  induction a as [|c a IH]; [done|].
  change (String c a +:+ "") with (String c (a +:+ "")). by rewrite IH.
Qed.

Lemma append_associative (a b c : string) :
  (a +:+ b) +:+ c = a +:+ (b +:+ c).
Proof.
  induction a as [|x a IH]; [done|].
  change ((String x a +:+ b) +:+ c) with (String x ((a +:+ b) +:+ c)).
  change (String x a +:+ (b +:+ c)) with (String x (a +:+ (b +:+ c))).
  by rewrite IH.
Qed.

Section CommandLine.

Variable qt : Toolkit.

Lemma typed_text_cons e events :
  typed_text (e :: events) = text e +:+ typed_text events.
Proof.
  unfold typed_text. destruct events as [|e' events]; simpl; [|done].
  by rewrite append_empty_r.
Qed.

Lemma press_typing_key e s :
  command_mode s = true -> insert_mode s = false ->
  typing_key e = true ->
  VimTextEdit_keyPressEvent qt e s
  = update_command_status
      (with_command_buffer (command_buffer s +:+ text e) s).
Proof.
  intros Hc Hi He. unfold typing_key in He.
  repeat (apply andb_true_iff in He as [He ?]).
  apply Z.eqb_eq in He.
  rewrite press_reaches_handler by done.
  unfold vim_key_handler. rewrite Hc.
  destruct (key e =? Qt.Key_Escape)%Z; [done|].
  destruct (key e =? Qt.Key_Return)%Z; [done|].
  destruct (key e =? Qt.Key_Backspace)%Z; [done|].
  by destruct (Py.truthy (text e)).
Qed.

Lemma press_typing_keys events : forall s,
  command_mode s = true -> insert_mode s = false ->
  forallb typing_key events = true ->
  press_keys qt events s
  = match events with
    | [] => s
    | _ => update_command_status
             (with_command_buffer (command_buffer s +:+ typed_text events) s)
    end.
Proof.
  induction events as [|e events IH]; intros s Hc Hi Hev; [done|].
  cbn [forallb] in Hev. apply andb_true_iff in Hev as [He Hev].
  unfold press_keys in *. cbn [fold_left].
  rewrite (press_typing_key e s) by done.
  rewrite IH by done.
  rewrite typed_text_cons.
  destruct events as [|e' events]; [by rewrite append_empty_r|].
  cbn [command_buffer update_command_status with_command_buffer
       with_file_status_label].
  by rewrite append_associative.
Qed.

Lemma drop_last_append_single b c :
  Py.drop_last (b +:+ String c EmptyString) = b.
Proof.
  induction b as [|a b IH]; [done|].
  change (String a b +:+ String c "") with (String a (b +:+ String c "")).
  cbn [Py.drop_last]. rewrite IH. by destruct b.
Qed.

End CommandLine.

(** X9: in command mode the typed text accumulates.  After a sequence
    of key presses that carry text (no control modifier, none of them
    Escape, Return or Backspace) the command buffer is the old buffer
    followed by the texts in order, the status bar shows it, the editor
    is still in command mode, and nothing else has changed. *)
Theorem command_line_accumulates
    (qt : Toolkit) (events : list QKeyEvent) (s : VimAIEditor) :
  command_mode s = true -> insert_mode s = false ->
  forallb typing_key events = true ->
  let s' := press_keys qt events s in
  command_buffer s' = command_buffer s +:+ typed_text events
  /\ command_mode s' = true
  /\ s' = match events with
          | [] => s
          | _ => update_command_status
                   (with_command_buffer
                      (command_buffer s +:+ typed_text events) s)
          end.
Proof.
  intros Hc Hi Hev s'. subst s'.
  rewrite press_typing_keys by done.
  destruct events as [|e events].
  - split; [by rewrite append_empty_r|]. by split.
  - by repeat split.
Qed.

Lemma command_line_accumulates_witness :
  let s := set_command_mode (initial true) in
  let s' := press_keys plain_toolkit [key_w; key_q] s in
  command_buffer s' = command_buffer s +:+ typed_text [key_w; key_q]
  /\ command_mode s' = true
  /\ s' = update_command_status
            (with_command_buffer
               (command_buffer s +:+ typed_text [key_w; key_q]) s).
Proof.
  apply (command_line_accumulates plain_toolkit [key_w; key_q]
           (set_command_mode (initial true))); reflexivity.
Defined.

(** X10: a command line typed from normal mode.  [:], then keys that
    carry text, then Return: the command run is [:] followed by the
    typed text, it runs in the state command mode built up, and
    afterwards the editor is in normal mode with an empty command
    buffer shown in the status bar. *)
Theorem typed_command_is_executed
    (qt : Toolkit) (events : list QKeyEvent) (s : VimAIEditor) :
  normal_mode s ->
  forallb typing_key events = true ->
  let command := ":" +:+ typed_text events in
  press_keys qt (key_colon :: events ++ [key_return]) s
  = update_command_status
      (set_normal_mode
         (with_command_buffer ""
            (execute_vim_command qt command
               (update_command_status
                  (with_command_buffer command (set_command_mode s)))))).
Proof.
  intros Hn Hev command. subst command.
  unfold press_keys. cbn [fold_left]. rewrite fold_left_app. cbn [fold_left].
  rewrite press_colon by done.
  change (fold_left (fun s0 event => VimTextEdit_keyPressEvent qt event s0)
            events (set_command_mode s))
    with (press_keys qt events (set_command_mode s)).
  rewrite press_typing_keys by done.
  destruct events as [|e events].
  - by rewrite press_return_command.
  - by rewrite press_return_command.
Qed.

Lemma typed_command_is_executed_witness :
  press_keys plain_toolkit (key_colon :: [key_w; key_q] ++ [key_return])
    (initial true)
  = update_command_status
      (set_normal_mode
         (with_command_buffer ""
            (execute_vim_command plain_toolkit
               (":" +:+ typed_text [key_w; key_q])
               (update_command_status
                  (with_command_buffer (":" +:+ typed_text [key_w; key_q])
                     (set_command_mode (initial true))))))).
Proof.
  apply (typed_command_is_executed plain_toolkit [key_w; key_q]
           (initial true)).
  - repeat split; reflexivity.
  - reflexivity.
Defined.

(** X11: Backspace takes back what a key typed.  In command mode, a
    key that carries one character followed by Backspace leaves the
    command buffer, and the whole state apart from the status bar
    showing the buffer, as before. *)
Theorem type_then_backspace
    (qt : Toolkit) (e : QKeyEvent) (s : VimAIEditor) :
  command_mode s = true -> insert_mode s = false ->
  typing_key e = true ->
  String.length (text e) = 1 ->
  press_keys qt [e; key_backspace] s = update_command_status s.
Proof.
  intros Hc Hi He Hlen.
  unfold press_keys. cbn [fold_left].
  rewrite (press_typing_key qt e s) by done.
  rewrite press_reaches_handler; [|reflexivity|exact Hi].
  unfold vim_key_handler.
  cbn [command_mode update_command_status with_command_buffer
       with_file_status_label command_buffer].
  rewrite Hc.
  change (key key_backspace =? Qt.Key_Escape)%Z with false.
  change (key key_backspace =? Qt.Key_Return)%Z with false.
  change (key key_backspace =? Qt.Key_Backspace)%Z with true.
  cbn iota.
  destruct (text e) as [|c [|c' t]]; try done.
  rewrite drop_last_append_single.
  destruct s. reflexivity.
Qed.

Lemma type_then_backspace_witness :
  press_keys plain_toolkit [key_w; key_backspace]
    (set_command_mode (initial true))
  = update_command_status (set_command_mode (initial true)).
Proof.
  apply (type_then_backspace plain_toolkit key_w
           (set_command_mode (initial true))); reflexivity.
Defined.

(** ** What the lint pass flags *)

(** One category of the report along the loop: if every pass through
    the loop body adds the current line number when the line has a
    message, and files that message under it, then after the loop the
    category holds the numbers of the lines with a message, each with
    its message. *)
Section Category.

Variable lines : list string.
Variable cat_lines : LintReport -> list nat.
Variable cat_messages : LintReport -> gmap nat string.
Variable message_of : nat -> string -> option string.

Hypothesis step_lines : forall i line r n,
  n ∈ cat_lines (lint_line lines i line r)
  <-> n ∈ cat_lines r \/ (n = i /\ is_Some (message_of i line)).

Hypothesis step_messages : forall i line r n,
  cat_messages (lint_line lines i line r) !! n
  = if decide (n = i)
    then match message_of i line with
         | Some msg => Some msg
         | None => cat_messages r !! n
         end
    else cat_messages r !! n.

Lemma loop_lines rest : forall i r n,
  n ∈ cat_lines (lint_loop lines i rest r)
  <-> n ∈ cat_lines r
      \/ exists j line,
           rest !! j = Some line /\ n = (i + j)%nat
           /\ is_Some (message_of n line).
Proof.
  induction rest as [|line rest IH]; intros i r n; simpl.
  - split; [by left|]. intros [H|(j & l & H & _)]; [done|].
    by rewrite lookup_nil in H.
  - rewrite IH, step_lines. split.
    + intros [[H|[-> H]]|(j & l & Hj & -> & H)].
      * by left.
      * right. exists 0, line. rewrite Nat.add_0_r. by repeat split.
      * right. exists (S j), l. repeat split; [done|lia|].
        by replace (i + S j)%nat with (S i + j)%nat by lia.
    + intros [H|(j & l & Hj & -> & H)]; [by left; left|].
      destruct j as [|j]; simpl in Hj.
      * injection Hj as <-. rewrite Nat.add_0_r in *. left. right. done.
      * right. exists j, l. repeat split; [done|lia|].
        by replace (S i + j)%nat with (i + S j)%nat by lia.
Qed.

Lemma loop_messages_before rest : forall i r n,
  (n < i)%nat ->
  cat_messages (lint_loop lines i rest r) !! n = cat_messages r !! n.
Proof.
  induction rest as [|line rest IH]; intros i r n Hn; simpl; [done|].
  rewrite IH by lia. rewrite step_messages.
  destruct (decide (n = i)); [lia | done].
Qed.

Lemma loop_messages rest : forall i r j line,
  rest !! j = Some line ->
  cat_messages (lint_loop lines i rest r) !! (i + j)%nat
  = match message_of (i + j)%nat line with
    | Some msg => Some msg
    | None => cat_messages r !! (i + j)%nat
    end.
Proof.
  induction rest as [|l rest IH]; intros i r j line Hj; [done|].
  simpl. destruct j as [|j]; simpl in Hj.
  - injection Hj as ->. rewrite Nat.add_0_r.
    rewrite loop_messages_before by lia. rewrite step_messages.
    by destruct (decide (i = i)).
  - replace (i + S j)%nat with (S i + j)%nat by lia.
    rewrite (IH (S i) _ j line Hj). rewrite step_messages.
    destruct (decide (S i + j = i)%nat); [lia | done].
Qed.

(** The category after the whole pass over [rest = lines], from line
    number 1 and the empty report. *)
Lemma category_of_report r0 n :
  cat_lines r0 = [] -> cat_messages r0 = ∅ ->
  let r := lint_loop lines 1 lines r0 in
  (n ∈ cat_lines r
   <-> exists line, (1 <= n)%nat /\ lines !! (n - 1)%nat = Some line
                    /\ is_Some (message_of n line))
  /\ (forall line, (1 <= n)%nat -> lines !! (n - 1)%nat = Some line ->
        cat_messages r !! n = message_of n line).
Proof.
  intros Hl Hm r. subst r. split.
  - rewrite loop_lines, Hl. split.
    + intros [H|(j & l & Hj & -> & H)]; [by apply elem_of_nil in H|].
      exists l. split; [lia|]. split; [|done].
      by replace (1 + j - 1)%nat with j by lia.
    + intros (l & Hn & Hlk & H). right. exists (n - 1)%nat, l.
      repeat split; [done|lia|done].
  - intros line Hn Hlk.
    replace n with (1 + (n - 1))%nat at 1 by lia.
    rewrite (loop_messages lines 1 r0 (n - 1)%nat line Hlk).
    replace (1 + (n - 1))%nat with n by lia.
    destruct (message_of n line); [done|]. by rewrite Hm, lookup_empty.
Qed.

End Category.

(** The loop body in terms of the four tests. *)
Lemma lint_line_flags lines i line r :
  lint_line lines i line r
  = let r :=
      if flags_import line
      then add_warning i
             "Consider using 'from module import name' instead of 'import module'"
             r
      else r in
    let r :=
      if flags_print line
      then add_info i "Consider using f-strings for better readability" r
      else r in
    let r :=
      if flags_todo line then add_error i "TODO or FIXME found" r else r in
    if flags_indent lines i line
    then add_warning i "Potential indentation issue" r else r.
Proof.
  unfold lint_line, flags_indent.
  fold (flags_import line). fold (flags_print line). fold (flags_todo line).
  destruct (Py.contains "    " line
            && negb (Py.startswith (Py.strip line) "#")); [|done].
  destruct (1 <? i)%nat; [|done].
  by destruct (negb (Py.endswith
                       (Py.strip (default "" (lines !! (i - 2)%nat))) ":")).
Qed.

Ltac step_lines_tac :=
  intros; rewrite lint_line_flags;
  unfold error_message_of, info_message_of, warning_message_of;
  destruct (flags_import _), (flags_print _), (flags_todo _),
    (flags_indent _ _ _); cbn;
  rewrite ?elem_of_app, ?list_elem_of_singleton;
  (split;
   [ intros; repeat match goal with
                    | H : _ \/ _ |- _ => destruct H
                    end; subst; eauto
   | intros [?|[? [? ?]]]; subst; eauto; try discriminate ]).

Ltac step_messages_tac :=
  intros; rewrite lint_line_flags;
  unfold error_message_of, info_message_of, warning_message_of;
  destruct (flags_import _), (flags_print _), (flags_todo _),
    (flags_indent _ _ _); cbn;
  case_decide; subst;
  rewrite ?lookup_insert_eq, ?lookup_insert_ne by done; done.

Lemma lint_line_error_lines lines i line r n :
  n ∈ rep_error_lines (lint_line lines i line r)
  <-> n ∈ rep_error_lines r \/ (n = i /\ is_Some (error_message_of i line)).
Proof. step_lines_tac. Qed.

Lemma lint_line_error_messages lines i line r n :
  rep_error_messages (lint_line lines i line r) !! n
  = if decide (n = i)
    then match error_message_of i line with
         | Some msg => Some msg
         | None => rep_error_messages r !! n
         end
    else rep_error_messages r !! n.
Proof. step_messages_tac. Qed.

Lemma lint_line_info_lines lines i line r n :
  n ∈ rep_info_lines (lint_line lines i line r)
  <-> n ∈ rep_info_lines r \/ (n = i /\ is_Some (info_message_of i line)).
Proof. step_lines_tac. Qed.

Lemma lint_line_info_messages lines i line r n :
  rep_info_messages (lint_line lines i line r) !! n
  = if decide (n = i)
    then match info_message_of i line with
         | Some msg => Some msg
         | None => rep_info_messages r !! n
         end
    else rep_info_messages r !! n.
Proof. step_messages_tac. Qed.

Lemma lint_line_warning_lines lines i line r n :
  n ∈ rep_warning_lines (lint_line lines i line r)
  <-> n ∈ rep_warning_lines r
      \/ (n = i /\ is_Some (warning_message_of lines i line)).
Proof. step_lines_tac. Qed.

Lemma lint_line_warning_messages lines i line r n :
  rep_warning_messages (lint_line lines i line r) !! n
  = if decide (n = i)
    then match warning_message_of lines i line with
         | Some msg => Some msg
         | None => rep_warning_messages r !! n
         end
    else rep_warning_messages r !! n.
Proof. step_messages_tac. Qed.

Lemma report_errors text n :
  let lines := Py.split_lines text in
  let r := lint_report text in
  (n ∈ rep_error_lines r
   <-> exists line, (1 <= n)%nat /\ lines !! (n - 1)%nat = Some line
                    /\ is_Some (error_message_of n line))
  /\ (forall line, (1 <= n)%nat -> lines !! (n - 1)%nat = Some line ->
        rep_error_messages r !! n = error_message_of n line).
Proof.
  apply (category_of_report (Py.split_lines text) rep_error_lines
           rep_error_messages error_message_of); try done.
  - apply lint_line_error_lines.
  - apply lint_line_error_messages.
Qed.

Lemma report_info text n :
  let lines := Py.split_lines text in
  let r := lint_report text in
  (n ∈ rep_info_lines r
   <-> exists line, (1 <= n)%nat /\ lines !! (n - 1)%nat = Some line
                    /\ is_Some (info_message_of n line))
  /\ (forall line, (1 <= n)%nat -> lines !! (n - 1)%nat = Some line ->
        rep_info_messages r !! n = info_message_of n line).
Proof.
  apply (category_of_report (Py.split_lines text) rep_info_lines
           rep_info_messages info_message_of); try done.
  - apply lint_line_info_lines.
  - apply lint_line_info_messages.
Qed.

Lemma report_warnings text n :
  let lines := Py.split_lines text in
  let r := lint_report text in
  (n ∈ rep_warning_lines r
   <-> exists line, (1 <= n)%nat /\ lines !! (n - 1)%nat = Some line
                    /\ is_Some (warning_message_of lines n line))
  /\ (forall line, (1 <= n)%nat -> lines !! (n - 1)%nat = Some line ->
        rep_warning_messages r !! n = warning_message_of lines n line).
Proof.
  apply (category_of_report (Py.split_lines text) rep_warning_lines
           rep_warning_messages (warning_message_of (Py.split_lines text)));
    try done.
  - apply lint_line_warning_lines.
  - apply lint_line_warning_messages.
Qed.

(** X12: after a lint pass, the lines with an error marker are exactly
    the lines of the text that contain [TODO] or [FIXME], numbered from
    1, and each of them shows the message "TODO or FIXME found". *)
Theorem lint_marks_todo_lines (qt : Toolkit) (s : VimAIEditor) (n : nat) :
  Py.truthy_opt (current_file s) = true ->
  let lines := Py.split_lines (toPlainText qt (editor s)) in
  let a := line_number_area (lint_code qt s) in
  (n ∈ error_lines a
   <-> exists line, (1 <= n)%nat /\ lines !! (n - 1)%nat = Some line
                    /\ flags_todo line = true)
  /\ (n ∈ error_lines a ->
      error_messages a !! n = Some "TODO or FIXME found").
Proof.
  intros Hopen lines a. subst lines a.
  destruct (lint_code_gutter qt s Hopen) as [-> _].
  destruct (lint_report_keyed (toPlainText qt (editor s))) as (Hk & _ & _).
  destruct (report_errors (toPlainText qt (editor s)) n) as [Hl Hm].
  cbn [error_lines error_messages set_errors set_warnings set_info default
       from_option id].
  assert (Hiff : n ∈ (list_to_set
                        (rep_error_lines
                           (lint_report (toPlainText qt (editor s))))
                      : gset nat)
                 <-> exists line, (1 <= n)%nat
                       /\ Py.split_lines (toPlainText qt (editor s))
                          !! (n - 1)%nat = Some line
                       /\ flags_todo line = true).
  { rewrite elem_of_list_to_set, Hl. unfold error_message_of.
    split; intros (line & H1 & H2 & H3); exists line;
      (split; [done|]); (split; [done|]).
    - destruct (flags_todo line); [done|]. by destruct H3.
    - by rewrite H3. }
  split; [exact Hiff|].
  intros Hn. rewrite flagged_message with (lines := rep_error_lines
    (lint_report (toPlainText qt (editor s)))) by done.
  apply Hiff in Hn as (line & H1 & H2 & H3).
  rewrite (Hm line H1 H2). unfold error_message_of. by rewrite H3.
Qed.

Lemma lint_marks_todo_lines_witness :
  let s :=
    execute_vim_command plain_toolkit ":e todo.py"
      (with_file_model
         [File "todo.py" ("x = 1" +:+ nl +:+ "# TODO tidy up")]
         (initial true)) in
  let a := line_number_area (lint_code plain_toolkit s) in
  flags_todo "# TODO tidy up" = true
  /\ 2 ∈ error_lines a
  /\ error_messages a !! 2 = Some "TODO or FIXME found".
Proof.
  intros s a.
  destruct (lint_marks_todo_lines plain_toolkit s 2) as [Hiff Hmsg];
    [reflexivity|].
  assert (H : 2 ∈ error_lines a).
  { apply Hiff. exists "# TODO tidy up".
    split; [lia|]. split; reflexivity. }
  split; [reflexivity|]. split; [exact H | exact (Hmsg H)].
Defined.





(** X15: every line number the lint pass marks, in any of the three
    categories, is a line of the text: between 1 and the number of
    lines. *)
Theorem lint_marks_within_text (qt : Toolkit) (s : VimAIEditor) (n : nat) :
  Py.truthy_opt (current_file s) = true ->
  let lines := Py.split_lines (toPlainText qt (editor s)) in
  let a := line_number_area (lint_code qt s) in
  n ∈ error_lines a ∪ warning_lines a ∪ info_lines a ->
  (1 <= n <= length lines)%nat.
Proof.
  intros Hopen lines a. subst lines a.
  destruct (lint_code_gutter qt s Hopen) as [-> _].
  cbn [error_lines warning_lines info_lines set_errors set_warnings set_info].
  rewrite !elem_of_union, !elem_of_list_to_set.
  intros [[H|H]|H].
  - apply (report_errors (toPlainText qt (editor s)) n)
      in H as (line & H1 & H2 & _).
    apply lookup_lt_Some in H2. lia.
  - apply (report_warnings (toPlainText qt (editor s)) n)
      in H as (line & H1 & H2 & _).
    apply lookup_lt_Some in H2. lia.
  - apply (report_info (toPlainText qt (editor s)) n)
      in H as (line & H1 & H2 & _).
    apply lookup_lt_Some in H2. lia.
Qed.

Lemma lint_marks_within_text_witness :
  let s := execute_vim_command plain_toolkit ":e main.py" (initial true) in
  let lines := Py.split_lines (toPlainText plain_toolkit (editor s)) in
  (1 <= 2 <= length lines)%nat.
Proof.
  apply (lint_marks_within_text plain_toolkit
           (execute_vim_command plain_toolkit ":e main.py" (initial true)) 2).
  - reflexivity.
  - apply (bool_decide_unpack _). vm_compute. exact I.
Defined.

(** ** The mode flags, whoever receives the keys *)

(** X16: in every state reached from start-up by key presses, whether
    they arrive at the text widget or at the window, [vim_mode] is set
    and the editor is not in insert and command mode at once. *)
Theorem modes_consistent_always
    (qt : Toolkit) (gemini : bool) (inputs : list (Receiver * QKeyEvent)) :
  modes_consistent (deliver_all qt inputs (initial gemini)).
Proof.
  assert (H : modes_consistent (initial gemini)) by done.
  revert H. generalize (initial gemini).
  induction inputs as [|[[|] e] inputs IH]; intros s Hs; [done| |].
  - apply IH. by apply keyPressEvent_modes.
  - apply IH. by apply window_keyPressEvent_modes.
Qed.

(** ** Creating and renaming nodes *)

Lemma files_of_root items : files_of (root_item items) = files_in items.
Proof. done. Qed.

Lemma files_in_insert ch i child child' :
  ch !! i = Some child ->
  files_in ch
  = files_in (take i ch) ++ files_of child ++ files_in (drop (S i) ch)
  /\ files_in (<[i := child']> ch)
     = files_in (take i ch) ++ files_of child' ++ files_in (drop (S i) ch).
Proof.
  intros Hi. unfold files_in. split.
  - rewrite <- (take_drop_middle ch i child Hi) at 1.
    by rewrite flat_map_app.
  - rewrite insert_take_drop by (by eapply lookup_lt_Some).
    by rewrite flat_map_app.
Qed.

(** Appending a node below some directory inserts its files at one
    place of the list of files. *)
Lemma alter_at_append_files node p : forall item item',
  alter_at (append_child node) p item = Some item' ->
  exists l1 l2,
    files_of item = l1 ++ l2 /\ files_of item' = l1 ++ files_of node ++ l2.
Proof.
  induction p as [|i p IH]; intros item item' H.
  - destruct item as [n c|n ch]; [done|]. injection H as <-.
    exists (files_in ch), []. cbn [files_of]. fold (files_in ch).
    split; [by rewrite app_nil_r|].
    fold (files_in (ch ++ [node])). unfold files_in.
    rewrite flat_map_app. cbn. by rewrite !app_nil_r.
  - destruct item as [n c|n ch]; [done|]. cbn [alter_at] in H.
    destruct (ch !! i) as [child|] eqn:Hi; [|done].
    destruct (alter_at (append_child node) p child) as [child'|] eqn:Ha;
      [|done].
    injection H as <-.
    destruct (IH _ _ Ha) as (l1 & l2 & H1 & H2).
    destruct (files_in_insert ch i child child' Hi) as [E1 E2].
    exists (files_in (take i ch) ++ l1), (l2 ++ files_in (drop (S i) ch)).
    cbn [files_of]. fold (files_in ch). fold (files_in (<[i:=child']> ch)).
    rewrite E1, E2, H1, H2. by rewrite <- !app_assoc.
Qed.

Lemma alter_at_succeeds f p : forall item x y,
  get_at p item = Some x -> f x = Some y ->
  exists item', alter_at f p item = Some item'.
Proof.
  induction p as [|i p IH]; intros item x y Hg Hf.
  - injection Hg as ->. by exists y.
  - destruct item as [n c|n ch]; [done|]. cbn [get_at alter_at] in *.
    destruct (ch !! i) as [child|]; [|done].
    destruct (IH _ _ _ Hg Hf) as [child' ->]. by eexists.
Qed.

(** Changing a node below a directory leaves a directory. *)
Lemma alter_at_dir f p n ch item' :
  (forall n ch y, f (Dir n ch) = Some y -> exists n' ch', y = Dir n' ch') ->
  alter_at f p (Dir n ch) = Some item' ->
  exists n' ch', item' = Dir n' ch'.
Proof.
  intros Hf H. destruct p as [|i p]; [by eapply Hf|].
  cbn [alter_at] in H. repeat case_match; try done.
  injection H as <-. by eexists _, _.
Qed.

Lemma append_child_dir node n ch y :
  append_child node (Dir n ch) = Some y -> exists n' ch', y = Dir n' ch'.
Proof. intros [= <-]. by eexists _, _. Qed.

Lemma lookup_first_inserted g l1 l2 entries :
  lookup_first g entries = None ->
  lookup_first g (l1 ++ entries ++ l2) = lookup_first g (l1 ++ l2).
Proof.
  intros H. rewrite !lookup_first_app, H. done.
Qed.

(** The tree after a successful [add_file] or [add_directory]. *)
Lemma on_file_model_append node p s s1 :
  on_file_model (alter_at (append_child node) p) s = Some s1 ->
  s1 = with_file_model (file_model s1) s
  /\ exists l1 l2,
       files_in (file_model s) = l1 ++ l2
       /\ files_in (file_model s1) = l1 ++ files_of node ++ l2.
Proof.
  unfold on_file_model. intros H.
  destruct (alter_at (append_child node) p (root_item (file_model s)))
    as [root'|] eqn:Ha; [|done].
  injection H as <-.
  destruct (alter_at_dir _ _ _ _ _ (append_child_dir node) Ha)
    as (n' & ch' & ->).
  split; [done|].
  destruct (alter_at_append_files _ _ _ _ Ha) as (l1 & l2 & H1 & H2).
  by exists l1, l2.
Qed.



(** X18: creating a file changes what no other name opens: after
    [create_new_file], whatever the dialog returned, the lookup of every
    name other than the one entered gives what it gave before. *)
Theorem create_file_keeps_other_names
    (s s1 : VimAIEditor) (p : list nat) (answer : string * bool) (g : string) :
  create_new_file p answer s = Some s1 ->
  g <> answer.1 ->
  find_content (file_model s1) g None = find_content (file_model s) g None.
Proof.
  intros Hc Hg. destruct answer as [name ok]. unfold create_new_file in Hc.
  destruct (ok && Py.truthy name); [|by injection Hc as <-].
  apply on_file_model_append in Hc as (_ & l1 & l2 & H1 & H2).
  rewrite !find_content_lookup, H1, H2.
  apply lookup_first_inserted. cbn.
  destruct (String.eqb_spec name g); [by subst|done].
Qed.

Lemma create_file_keeps_other_names_witness :
  find_content
    (file_model
       (default (initial true)
          (create_new_file [0] ("notes.py", true) (initial true))))
    "main.py" None
  = find_content (file_model (initial true)) "main.py" None.
Proof.
  apply (create_file_keeps_other_names (initial true) _ [0]
           ("notes.py", true) "main.py").
  - reflexivity.
  - discriminate.
Defined.

(** X19: creating a folder changes what no name opens: the list of
    files of the tree is the same after [create_new_folder]. *)
Theorem create_folder_keeps_files
    (s s1 : VimAIEditor) (p : list nat) (answer : string * bool) :
  create_new_folder p answer s = Some s1 ->
  files_in (file_model s1) = files_in (file_model s)
  /\ forall g, find_content (file_model s1) g None
               = find_content (file_model s) g None.
Proof.
  intros Hc. destruct answer as [name ok]. unfold create_new_folder in Hc.
  assert (H : files_in (file_model s1) = files_in (file_model s)).
  { destruct (ok && Py.truthy name); [|by injection Hc as <-].
    apply on_file_model_append in Hc as (_ & l1 & l2 & H1 & H2).
    by rewrite H1, H2. }
  split; [done|]. intros g. by rewrite !find_content_lookup, H.
Qed.

Lemma create_folder_keeps_files_witness :
  let s1 := default (initial true)
              (create_new_folder [] ("lib", true) (initial true)) in
  files_in (file_model s1) = files_in (file_model (initial true))
  /\ forall g, find_content (file_model s1) g None
               = find_content (file_model (initial true)) g None.
Proof.
  apply (create_folder_keeps_files (initial true) _ [] ("lib", true)).
  reflexivity.
Defined.

Lemma alter_at_get f p : forall item item' x,
  alter_at f p item = Some item' -> get_at p item = Some x ->
  exists y, f x = Some y /\ get_at p item' = Some y.
Proof.
  induction p as [|i p IH]; intros item item' x Ha Hg.
  - injection Hg as ->. by exists item'.
  - destruct item as [n c|n ch]; [done|]. cbn [get_at alter_at] in *.
    destruct (ch !! i) as [child|] eqn:Hi; [|done].
    destruct (alter_at f p child) as [child'|] eqn:Hc; [|done].
    injection Ha as <-.
    destruct (IH _ _ _ Hc Hg) as (y & Hf & Hy). exists y. split; [done|].
    cbn [get_at]. rewrite list_lookup_insert_eq by (by eapply lookup_lt_Some).
    done.
Qed.

(** Undoing a change of the node at a path restores the tree. *)
Lemma alter_at_inverse f g p : forall item item',
  alter_at f p item = Some item' ->
  (forall x y, get_at p item = Some x -> f x = Some y -> g y = Some x) ->
  alter_at g p item' = Some item.
Proof.
  induction p as [|i p IH]; intros item item' Ha Hinv.
  - by apply (Hinv item item').
  - destruct item as [n c|n ch]; [done|]. cbn [get_at alter_at] in *.
    destruct (ch !! i) as [child|] eqn:Hi; [|done].
    destruct (alter_at f p child) as [child'|] eqn:Hc; [|done].
    injection Ha as <-. cbn [alter_at].
    rewrite list_lookup_insert_eq by (by eapply lookup_lt_Some).
    rewrite (IH _ _ Hc Hinv).
    by rewrite list_insert_insert_eq, list_insert_id.
Qed.

Lemma alter_at_below_root f i p items root' :
  alter_at f (i :: p) (root_item items) = Some root' ->
  root' = root_item (children_of root').
Proof.
  unfold root_item. cbn [alter_at]. intros H.
  repeat case_match; try done. by injection H as <-.
Qed.

Lemma set_name_back x y a b :
  item_name x = a -> set_name b x = Some y -> set_name a y = Some x.
Proof. destruct x; intros <- [= <-]; done. Qed.

(** An accepted [rename_file]: the tree with the node renamed, and the
    open file following the name. *)
Lemma rename_file_accepted i p s item new_name :
  get_at (i :: p) (root_item (file_model s)) = Some item ->
  Py.truthy new_name = true ->
  new_name <> item_name item ->
  exists root',
    alter_at (set_name new_name) (i :: p) (root_item (file_model s))
    = Some root'
    /\ root' = root_item (children_of root')
    /\ get_at (i :: p) root' = set_name new_name item
    /\ rename_file (i :: p) (new_name, true) s
       = Some (if bool_decide (current_file s = Some (item_name item))
               then update_status
                      (with_current_file (Some new_name)
                         (with_file_model (children_of root') s))
               else with_file_model (children_of root') s).
Proof.
  intros Hg Ht Hne.
  destruct (alter_at_succeeds (set_name new_name) (i :: p) _ item
              (default item (set_name new_name item)) Hg)
    as [root' Ha]; [by destruct item|].
  exists root'. split; [done|].
  split; [by eapply alter_at_below_root|].
  destruct (alter_at_get _ _ _ _ _ Ha Hg) as (y & Hy & Hgy).
  split; [by rewrite Hy|].
  unfold rename_file. rewrite Hg. cbn [andb]. rewrite Ht. cbn [andb].
  destruct (String.eqb_spec new_name (item_name item)); [done|]. cbn [negb].
  unfold on_file_model, rename_item. rewrite Ha.
  cbn [current_file with_file_model]. by case_bool_decide.
Qed.

(** X20: renaming a node and renaming it back.  For a valid index, two
    accepted dialogs with different non-empty names, the second one the
    old name, restore the tree; the open file is tracked by name, so it
    is the same again provided it was not called by the intermediate
    name. *)
Theorem rename_there_and_back
    (s : VimAIEditor) (i : nat) (p : list nat) (item : Item) (b : string) :
  get_at (i :: p) (root_item (file_model s)) = Some item ->
  Py.truthy (item_name item) = true ->
  Py.truthy b = true ->
  b <> item_name item ->
  current_file s <> Some b ->
  exists s1 s2,
    rename_file (i :: p) (b, true) s = Some s1
    /\ rename_file (i :: p) (item_name item, true) s1 = Some s2
    /\ file_model s2 = file_model s
    /\ current_file s2 = current_file s.
Proof.
  intros Hg Ha Hb Hne Hcur.
  destruct (rename_file_accepted i p s item b Hg Hb Hne)
    as (root1 & Hr1 & Hroot1 & Hg1 & Hs1).
  set (s1 := if bool_decide (current_file s = Some (item_name item))
             then update_status
                    (with_current_file (Some b)
                       (with_file_model (children_of root1) s))
             else with_file_model (children_of root1) s) in *.
  assert (Hfm1 : file_model s1 = children_of root1).
  { subst s1. by case_bool_decide. }
  assert (Hitem1 : exists item1,
            set_name b item = Some item1 /\ item_name item1 = b
            /\ get_at (i :: p) (root_item (file_model s1)) = Some item1).
  { rewrite Hfm1, <- Hroot1, Hg1. destruct item; by eexists. }
  destruct Hitem1 as (item1 & Hset & Hname1 & Hg1').
  destruct (rename_file_accepted i p s1 item1 (item_name item) Hg1' Ha)
    as (root2 & Hr2 & Hroot2 & _ & Hs2); [by rewrite Hname1|].
  assert (Hback : root2 = root_item (file_model s)).
  { rewrite Hfm1, <- Hroot1 in Hr2.
    rewrite (alter_at_inverse (set_name b) (set_name (item_name item))
               (i :: p) _ _ Hr1) in Hr2; [by injection Hr2|].
    intros x y Hx Hy. rewrite Hg in Hx. injection Hx as <-.
    by eapply set_name_back. }
  eexists s1, _. split; [exact Hs1|]. split; [exact Hs2|].
  rewrite Hname1, Hback. cbn [children_of root_item].
  subst s1. case_bool_decide as E1.
  - cbn [current_file update_status with_current_file with_file_model
         with_file_status_label with_ai_status_label].
    rewrite bool_decide_eq_true_2 by done.
    cbn [current_file file_model update_status with_current_file
         with_file_model with_file_status_label with_ai_status_label].
    by split.
  - cbn [current_file with_file_model].
    rewrite bool_decide_eq_false_2 by done.
    cbn [current_file file_model with_file_model]. by split.
Qed.

Lemma rename_there_and_back_witness :
  exists s1 s2,
    rename_file [0; 0] ("app.py", true) (initial true) = Some s1
    /\ rename_file [0; 0] (item_name (File "main.py" ""), true) s1 = Some s2
    /\ file_model s2 = file_model (initial true)
    /\ current_file s2 = current_file (initial true).
Proof.
  destruct (rename_there_and_back (initial true) 0 [0]
              (File "main.py"
                 ("# Python starter code" +:+ nl
                  +:+ "print(" +:+ dquote +:+ "Hello VimAI!" +:+ dquote
                  +:+ ")"))
              "app.py") as (s1 & s2 & H); try reflexivity; try discriminate.
  by exists s1, s2.
Defined.

(** ** Removing a node *)

Lemma Item_eqb_true a : forall b, Item_eqb a b = true -> a = b.
Proof.
  induction a as [n c|n ch IH] using Item_ind; intros [n' c'|n' ch'];
    cbn [Item_eqb]; try done.
  - intros [H1 H2]%andb_true_iff.
    apply String.eqb_eq in H1, H2. by subst.
  - intros [H1 H2]%andb_true_iff. apply String.eqb_eq in H1. subst n'.
    f_equal. revert ch' H2.
    induction IH as [|x l Hx _ IHl]; intros [|y l'] H; try done.
    apply andb_true_iff in H as [Hxy Hl].
    f_equal; [by apply Hx | by apply IHl].
Qed.

Lemma Item_eqb_refl a : Item_eqb a a = true.
Proof.
  induction a as [n c|n ch IH] using Item_ind; cbn [Item_eqb].
  - by rewrite !String.eqb_refl.
  - rewrite String.eqb_refl. cbn [andb].
    induction IH as [|x l Hx _ IHl]; [done|]. by rewrite Hx, IHl.
Qed.

Lemma scan_children_Some below target l : forall row q,
  scan_children below target l row = Some q ->
  (q = [] /\ exists j, l !! j = Some target)
  \/ (exists j x q', q = (row + j)%nat :: q' /\ l !! j = Some x
                     /\ below x = Some q').
Proof.
  induction l as [|child l IH]; intros row q H; [done|].
  cbn [scan_children] in H.
  destruct (Item_eqb child target) eqn:E.
  { apply Item_eqb_true in E as ->. injection H as <-. left.
    split; [done|]. by exists 0. }
  destruct (below child) as [q0|] eqn:Hb.
  { injection H as <-. right. exists 0, child, q0.
    by rewrite Nat.add_0_r. }
  apply IH in H as [(-> & j & Hj)|(j & x & q' & -> & Hj & Hx)].
  - left. split; [done|]. by exists (S j).
  - right. exists (S j), x, q'. split; [f_equal; lia|done].
Qed.

Lemma scan_children_complete below target l j x :
  l !! j = Some x ->
  x = target \/ is_Some (below x) ->
  forall row, is_Some (scan_children below target l row).
Proof.
  revert j. induction l as [|child l IH]; intros j Hj Hx row; [done|].
  cbn [scan_children].
  destruct (Item_eqb child target) eqn:E; [done|].
  destruct (below child) as [q0|] eqn:Hb; [done|].
  destruct j as [|j]; simpl in Hj.
  - injection Hj as ->. destruct Hx as [->|[? Hx]].
    + by rewrite Item_eqb_refl in E.
    + by rewrite Hx in Hb.
  - by eapply IH.
Qed.

(** What [find_parent] returns is a directory with a child equal to
    the target. *)
Lemma find_parent_sound current : forall target q,
  find_parent current target = Some q ->
  exists n ch row,
    get_at q current = Some (Dir n ch) /\ ch !! row = Some target.
Proof.
  induction current as [n c|n ch IH] using Item_ind; intros target q H;
    [done|].
  cbn [find_parent] in H.
  apply scan_children_Some in H as [(-> & j & Hj)|(j & x & q' & -> & Hj & Hx)].
  - by exists n, ch, j.
  - rewrite Forall_lookup in IH.
    destruct (IH j x Hj target q' Hx) as (n' & ch' & row & Hg & Hrow).
    exists n', ch', row. split; [|done]. cbn [get_at Nat.add]. by rewrite Hj.
Qed.

(** A node somewhere below [current] has a parent [find_parent] finds. *)
Lemma find_parent_complete p : forall i current target,
  get_at (i :: p) current = Some target ->
  is_Some (find_parent current target).
Proof.
  induction p as [|i' p IH]; intros i [n c|n ch] target H; try done.
  - cbn [get_at] in H. destruct (ch !! i) as [x|] eqn:Hi; [|done].
    injection H as ->. cbn [find_parent].
    eapply scan_children_complete; [done | by left].
  - cbn [get_at] in H. destruct (ch !! i) as [x|] eqn:Hi; [|done].
    cbn [find_parent].
    eapply scan_children_complete; [done|]. right. by eapply IH.
Qed.

Lemma nodes_child ch i x :
  ch !! i = Some x -> (nodes x <= list_sum (map nodes ch))%nat.
Proof.
  revert i. induction ch as [|y ch IH]; intros [|i] H; try done; simpl in *.
  - injection H as ->. lia.
  - specialize (IH _ H). lia.
Qed.

Lemma nodes_below p : forall i item x,
  get_at (i :: p) item = Some x -> (nodes x < nodes item)%nat.
Proof.
  induction p as [|i' p IH]; intros i [n c|n ch] x H; try done;
    cbn [get_at] in H; destruct (ch !! i) as [y|] eqn:Hi; try done.
  - injection H as ->. apply nodes_child in Hi. simpl. lia.
  - apply IH in H. apply nodes_child in Hi. simpl. lia.
Qed.

Lemma get_at_snoc q row : forall item n ch,
  get_at q item = Some (Dir n ch) ->
  get_at (q ++ [row]) item = ch !! row.
Proof.
  induction q as [|i q IH]; intros item n ch H.
  - injection H as ->. cbn. by destruct (ch !! row).
  - destruct item as [n' c'|n' ch']; [done|]. cbn [get_at app] in *.
    destruct (ch' !! i); [|done]. by eapply IH.
Qed.

Lemma paths_below_lookup below l j x p : forall row,
  l !! j = Some x -> p ∈ below x ->
  ((row + j)%nat :: p) ∈ paths_below below l row.
Proof.
  revert j. induction l as [|y l IH]; intros j row Hj Hp; [done|].
  cbn [paths_below]. apply elem_of_app.
  destruct j as [|j]; simpl in Hj.
  - injection Hj as ->. left. rewrite Nat.add_0_r.
    apply list_elem_of_fmap. by exists p.
  - right. replace (row + S j)%nat with (S row + j)%nat by lia.
    by apply IH.
Qed.

(** [paths_to] lists every path that leads to a node equal to the
    target. *)
Lemma paths_to_complete target p : forall item,
  get_at p item = Some target -> p ∈ paths_to target item.
Proof.
  induction p as [|i p IH]; intros item H.
  - injection H as ->. destruct target; cbn [paths_to];
      rewrite Item_eqb_refl; apply elem_of_app; left; by constructor.
  - destruct item as [n c|n ch]; [done|]. cbn [get_at] in H.
    destruct (ch !! i) as [x|] eqn:Hi; [|done].
    cbn [paths_to]. apply elem_of_app. right.
    apply (paths_below_lookup (paths_to target) ch i x p 0 Hi).
    by apply IH.
Qed.

(** X21: removing a node.  When the node the index points to is the
    only node of the tree with its value, [remove_item] succeeds and
    deletes the row of the index from the children of the node's own
    parent; the rest of the tree is as before. *)
Theorem remove_item_removes_the_node
    (root : Item) (q : list nat) (row : nat) (target : Item) :
  get_at (q ++ [row]) root = Some target ->
  paths_to target root = [q ++ [row]] ->
  exists n ch root',
    get_at q root = Some (Dir n ch)
    /\ ch !! row = Some target
    /\ remove_item (q ++ [row]) root = Some root'
    /\ alter_at (delete_row row) q root = Some root'
    /\ get_at q root' = Some (Dir n (delete row ch)).
Proof.
  intros Hg Hunique.
  assert (Hcons : exists i p, q ++ [row] = i :: p).
  { destruct q; by eexists _, _. }
  destruct Hcons as (i0 & p0 & Hcons).
  assert (Hfound : is_Some (find_parent root target)).
  { rewrite Hcons in Hg. by eapply find_parent_complete. }
  destruct Hfound as [q1 Hq1].
  destruct (find_parent_sound _ _ _ Hq1) as (n & ch & r1 & Hparent & Hr1).
  assert (Hpath : q1 ++ [r1] = q ++ [row]).
  { assert (Hin : (q1 ++ [r1]) ∈ paths_to target root).
    { apply paths_to_complete. by rewrite (get_at_snoc _ _ _ _ _ Hparent). }
    rewrite Hunique in Hin. by apply list_elem_of_singleton in Hin. }
  apply app_inj_tail in Hpath as [-> ->].
  assert (Halter : exists root', alter_at (delete_row row) q root = Some root').
  { eapply alter_at_succeeds; [exact Hparent|]. cbn [delete_row].
    apply lookup_lt_Some in Hr1. apply Nat.ltb_lt in Hr1. by rewrite Hr1. }
  destruct Halter as [root' Halter].
  exists n, ch, root'. split; [done|]. split; [done|].
  assert (Hptr : parent_pointer (q ++ [row]) root = Some q).
  { unfold parent_pointer. rewrite Hcons, <- Hcons, Hg, Hq1, Hparent.
    destruct (Item_eqb (Dir n ch) root) eqn:E.
    - apply Item_eqb_true in E. destruct q as [|i q]; [done|].
      apply nodes_below in Hparent. rewrite E in Hparent. lia.
    - destruct q as [|i q].
      + injection Hparent as Hroot.
        by rewrite <- Hroot, Item_eqb_refl in E.
      + by destruct (find_parent_complete _ _ _ _ Hparent) as [g ->]. }
  split.
  { unfold remove_item. by rewrite Hptr, last_snoc. }
  split; [done|].
  destruct (alter_at_get _ _ _ _ _ Halter Hparent) as (y & Hy & Hgy).
  cbn [delete_row] in Hy.
  apply lookup_lt_Some in Hr1. apply Nat.ltb_lt in Hr1.
  rewrite Hr1 in Hy. by injection Hy as <-.
Qed.

Lemma remove_item_removes_the_node_witness :
  exists n ch root',
    get_at [0] (root_item initial_tree) = Some (Dir n ch)
    /\ ch !! 1 = Some (File "utils.py"
                         ("# Utility functions" +:+ nl +:+ "def greet(name):"
                          +:+ nl +:+ "    return f" +:+ dquote
                          +:+ "Hello {name}" +:+ dquote))
    /\ remove_item ([0] ++ [1]) (root_item initial_tree) = Some root'
    /\ alter_at (delete_row 1) [0] (root_item initial_tree) = Some root'
    /\ get_at [0] root' = Some (Dir n (delete 1 ch)).
Proof.
  apply (remove_item_removes_the_node (root_item initial_tree) [0] 1).
  - reflexivity.
  - vm_compute. reflexivity.
Defined.

(** With a twin the search goes astray: the tree holds [y] twice, in
    [a] and in [b]; removing the one in [b] (index [1; 0]) deletes row
    0 of [a], the first directory with a child equal to it, which is
    [x]. *)
Example remove_item_with_a_twin :
  remove_item [1; 0]
    (root_item [Dir "a" [File "x" ""; File "y" ""]; Dir "b" [File "y" ""]])
  = Some (root_item [Dir "a" [File "y" ""]; Dir "b" [File "y" ""]]).
Proof. reflexivity. Qed.

(** ** Opening by double click and by command *)

(** X22: a double click on a file that is the first of its name in the
    tree does what [:e] does when its argument, stripped of blanks, is
    that name, followed by the emptying of the three line sets of the
    gutter. *)
Theorem double_click_agrees_with_e
    (qt : Toolkit) (s : VimAIEditor) (n c arg : string) :
  lookup_first n (files_in (file_model s)) = Some c ->
  Py.strip arg = n ->
  open_file qt (File n c) s
  = on_line_number_area (set_info [] None)
      (on_line_number_area (set_warnings [] None)
         (on_line_number_area (set_errors [] None)
            (execute_vim_command qt (":e " +:+ arg) s))).
Proof.
  intros Hl Harg. rewrite execute_e, Harg.
  rewrite find_and_open_file_spec, find_content_lookup, Hl.
  reflexivity.
Qed.

Lemma double_click_agrees_with_e_witness :
  open_file plain_toolkit
    (File "README.md"
       ("# Project Documentation" +:+ nl +:+ nl
        +:+ "This is a VimAI project.")) (initial true)
  = on_line_number_area (set_info [] None)
      (on_line_number_area (set_warnings [] None)
         (on_line_number_area (set_errors [] None)
            (execute_vim_command plain_toolkit (":e " +:+ "README.md")
               (initial true)))).
Proof.
  apply (double_click_agrees_with_e plain_toolkit (initial true) "README.md"
           _ "README.md");
    reflexivity.
Defined.

(** A file whose name ends with a blank: the double click opens it,
    [:e] with that name does not find it. *)
Example padded_name_opens_by_click_only :
  let s := with_file_model [File "a.py " "pass"] (initial true) in
  current_file (open_file plain_toolkit (File "a.py " "pass") s)
  = Some "a.py "
  /\ execute_vim_command plain_toolkit (":e " +:+ "a.py ") s
     = with_ai_output "File not found: a.py" s.
Proof. vm_compute. by split. Qed.

(** ** Keys in normal mode *)

(** X23: in normal mode a key pressed with any modifier held, Shift
    included, is not interpreted by the dispatcher: it is handed to the
    base class of the text widget, and the mode flags, [last_action]
    and the command buffer stay as they are. *)
Theorem modifier_bypasses_dispatcher
    (qt : Toolkit) (e : QKeyEvent) (s : VimAIEditor) :
  normal_mode s ->
  modifiers e <> 0%Z ->
  let s' := VimTextEdit_keyPressEvent qt e s in
  s' = editor_edit qt (Call_keyPressEvent e) s
  /\ editor s' = editor s ++ [Call_keyPressEvent e]
  /\ same_modal s s'.
Proof.
  intros (Hv & Hc & Hi) Hm s'.
  assert (Hs' : s' = editor_edit qt (Call_keyPressEvent e) s).
  { subst s'. unfold VimTextEdit_keyPressEvent. rewrite Hi.
    case_match; [done|]. unfold vim_key_handler. rewrite Hc, Hv.
    apply Z.eqb_neq in Hm. by rewrite Hm. }
  rewrite Hs'. split; [done|]. split; [apply editor_edit_editor|].
  apply editor_edit_modal.
Qed.

Lemma modifier_bypasses_dispatcher_witness :
  let e := {| key := 0x47; text := "G"; modifiers := Qt.ShiftModifier |} in
  let s' := VimTextEdit_keyPressEvent plain_toolkit e (initial true) in
  s' = editor_edit plain_toolkit (Call_keyPressEvent e) (initial true)
  /\ editor s' = editor (initial true) ++ [Call_keyPressEvent e]
  /\ same_modal (initial true) s'.
Proof.
  apply (modifier_bypasses_dispatcher plain_toolkit
           {| key := 0x47; text := "G"; modifiers := Qt.ShiftModifier |}
           (initial true)).
  - repeat split; reflexivity.
  - discriminate.
Defined.

Section Repeats.

Variable qt : Toolkit.

Lemma repeated_d_after_d k : forall s,
  normal_mode s -> last_action s = Some "d" ->
  editor (press_keys qt (replicate k key_d) s)
  = editor s ++ replicate k Call_removeLineUnderCursor.
Proof.
  induction k as [|k IH]; intros s Hn Hl; [by rewrite app_nil_r|].
  unfold press_keys in *. cbn [replicate fold_left].
  rewrite press_d by done. rewrite Hl.
  rewrite bool_decide_eq_true_2 by done.
  rewrite IH.
  - cbn [editor with_last_action]. rewrite editor_edit_editor.
    by rewrite <- app_assoc.
  - destruct Hn as (Hv & Hc & Hi).
    destruct (editor_edit_modal qt Call_removeLineUnderCursor s)
      as (Ev & Ec & Ei & _).
    unfold normal_mode. cbn [vim_mode command_mode insert_mode
      with_last_action]. by rewrite Ev, Ec, Ei.
  - done.
Qed.

Lemma repeated_u_after_u k : forall s,
  normal_mode s -> last_action s = Some "u" ->
  editor (press_keys qt (replicate k key_u) s) = editor s.
Proof.
  induction k as [|k IH]; intros s Hn Hl; [done|].
  unfold press_keys in *. cbn [replicate fold_left].
  rewrite press_u by done. rewrite Hl.
  rewrite bool_decide_eq_true_2 by done. cbn [negb andb].
  rewrite IH; [done| |done].
  destruct Hn as (? & ? & ?). by repeat split.
Qed.

End Repeats.

(** X24: [d] held down.  In normal mode, when the last action is not
    ['d'], pressing [d] k+1 times in a row makes k calls on the text
    widget, each of them the pair [cursor.select(LineUnderCursor)],
    [cursor.removeSelectedText()]: the first [d] calls nothing, every
    [d] after it makes the pair of calls once.  What a call removes
    from the document is up to the widget. *)
Theorem repeated_d_removal_calls
    (qt : Toolkit) (k : nat) (s : VimAIEditor) :
  normal_mode s ->
  last_action s <> Some "d" ->
  editor (press_keys qt (replicate (S k) key_d) s)
  = editor s ++ replicate k Call_removeLineUnderCursor.
Proof.
  intros Hn Hl. unfold press_keys. cbn [replicate fold_left].
  rewrite press_d by done.
  rewrite bool_decide_eq_false_2 by done.
  change (fold_left (fun s0 event => VimTextEdit_keyPressEvent qt event s0)
            (replicate k key_d) (with_last_action (Some "d") s))
    with (press_keys qt (replicate k key_d) (with_last_action (Some "d") s)).
  rewrite repeated_d_after_d; [done| |done].
  destruct Hn as (? & ? & ?). by repeat split.
Qed.

Lemma repeated_d_removal_calls_witness :
  editor (press_keys plain_toolkit (replicate (S 2) key_d) (initial true))
  = editor (initial true) ++ replicate 2 Call_removeLineUnderCursor.
Proof.
  apply (repeated_d_removal_calls plain_toolkit 2 (initial true)).
  - repeat split; reflexivity.
  - discriminate.
Defined.

(** X25: [u] held down.  In normal mode, when the last action is
    neither ['u'] nor ['ctrl+r'], pressing [u] any number of times in a
    row undoes once: only the first [u] calls [undo]. *)
Theorem repeated_u_undoes_once
    (qt : Toolkit) (k : nat) (s : VimAIEditor) :
  normal_mode s ->
  last_action s <> Some "u" ->
  last_action s <> Some "ctrl+r" ->
  editor (press_keys qt (replicate (S k) key_u) s)
  = editor s ++ [Call_undo].
Proof.
  intros Hn Hu Hr. unfold press_keys. cbn [replicate fold_left].
  rewrite press_u by done.
  rewrite !bool_decide_eq_false_2 by done. cbn [negb andb].
  change (fold_left (fun s0 event => VimTextEdit_keyPressEvent qt event s0)
            (replicate k key_u)
            (with_last_action (Some "u") (editor_edit qt Call_undo s)))
    with (press_keys qt (replicate k key_u)
            (with_last_action (Some "u") (editor_edit qt Call_undo s))).
  rewrite repeated_u_after_u; [| |done].
  - cbn [editor with_last_action]. apply editor_edit_editor.
  - destruct Hn as (Hv & Hc & Hi).
    destruct (editor_edit_modal qt Call_undo s) as (Ev & Ec & Ei & _).
    unfold normal_mode. cbn [vim_mode command_mode insert_mode
      with_last_action]. by rewrite Ev, Ec, Ei.
Qed.

Lemma repeated_u_undoes_once_witness :
  editor (press_keys plain_toolkit (replicate (S 3) key_u) (initial true))
  = editor (initial true) ++ [Call_undo].
Proof.
  apply (repeated_u_undoes_once plain_toolkit 3 (initial true)).
  - repeat split; reflexivity.
  - discriminate.
  - discriminate.
Defined.

(** ** Running the open file *)

Section Run.

Variable qt : Toolkit.

(** Saving when some file carries the name of the open file. *)
Lemma save_file_listed s f c :
  current_file s = Some f ->
  Py.truthy f = true ->
  lookup_first f (files_in (file_model s)) = Some c ->
  exists items,
    save_file qt s
    = with_ai_output ("Saved " +:+ f)
        (update_status (with_modified false (with_file_model items s)))
    /\ lookup_first f (files_in items) = Some (toPlainText qt (editor s)).
Proof.
  intros Hc Ht Hl. unfold save_file. rewrite Hc.
  cbn [Py.truthy_opt default from_option id]. rewrite Ht. cbn [negb].
  destruct (update_first_files f (toPlainText qt (editor s)) (file_model s))
    as (H1 & H2 & _).
  unfold listed in H2. rewrite Hl in H2.
  destruct (update_first (file_model s) f (toPlainText qt (editor s)))
    as [items found].
  simpl in H1, H2. subst found. exists items. split; [done|].
  by rewrite H1, lookup_replace_same, Hl.
Qed.

(** [run_current_file] up to the test of the extension, when the open
    file is in the tree and the temporary file could be written: the
    file is saved, the terminal shows the one line that announces the
    run, the error and warning line sets are emptied, and the text of
    the widget, without its colon lines, is written to the temporary
    file. *)
Lemma run_current_file_written s f c temp_path :
  current_file s = Some f ->
  Py.truthy f = true ->
  lookup_first f (files_in (file_model s)) = Some c ->
  NamedTemporaryFile qt (launched s) (Py.from_last_dot f)
    (cleaned_content (toPlainText qt (editor s))) = Written temp_path ->
  exists s0,
    terminal_output s0 = ["Running " +:+ f +:+ "..." +:+ nl]
    /\ launched s0
       = launched s
         ++ [Call_NamedTemporaryFile (Py.from_last_dot f)
               (cleaned_content (toPlainText qt (editor s)))]
    /\ run_current_file qt s
       = let file_ext := Py.lower (Py.from_last_dot f) in
         if String.eqb file_ext ".py" then
           run_single_command ["python"; temp_path] temp_path file_ext s0
         else if String.eqb file_ext ".js" then
           run_single_command ["node"; temp_path] temp_path file_ext s0
         else if String.eqb file_ext ".java" then
           QProcess_start ["javac"; temp_path]
             (appendPlainText
                ("Compiling with: " +:+ Py.join " " ["javac"; temp_path]) s0)
         else if String.eqb file_ext ".c" || String.eqb file_ext ".cpp" then
           let compiler :=
             if String.eqb file_ext ".c" then "gcc" else "g++" in
           let exe_path :=
             temp_path +:+ (if is_windows qt then ".exe" else "") in
           QProcess_start [compiler; temp_path; "-o"; exe_path]
             (appendPlainText
                ("Compiling with: "
                 +:+ Py.join " " [compiler; temp_path; "-o"; exe_path]) s0)
         else
           appendPlainText ("Error: Unsupported file type " +:+ file_ext) s0.
Proof.
  intros Hc Ht Hl Htemp.
  destruct (save_file_listed s f c Hc Ht Hl) as (items & Hsave & Hl').
  assert (Hcur : current_file (save_file qt s) = Some f)
    by (by rewrite Hsave).
  assert (Hfm : file_model (save_file qt s) = items) by (by rewrite Hsave).
  assert (Hla : launched (save_file qt s) = launched s)
    by (by rewrite Hsave).
  exists (with_launched
            (launched s
             ++ [Call_NamedTemporaryFile (Py.from_last_dot f)
                   (cleaned_content (toPlainText qt (editor s)))])
            (on_line_number_area (set_warnings [] None)
               (on_line_number_area (set_errors [] None)
                  (appendPlainText ("Running " +:+ f +:+ "..." +:+ nl)
                     (with_terminal_output [] (save_file qt s)))))).
  split; [reflexivity|]. split; [reflexivity|].
  unfold run_current_file. rewrite Hc.
  cbn [Py.truthy_opt]. rewrite Ht. cbn [negb].
  rewrite Hcur, Hfm. cbn [default from_option id].
  rewrite (find_content_found f items (Some "") _ Hl').
  cbn [launched appendPlainText with_terminal_output on_line_number_area
       with_line_number_area].
  rewrite Hla, Htemp. reflexivity.
Qed.

End Run.

(** X27: running a file of a type the editor has no runner for.  When
    the open file is in the tree, the temporary file could be written
    and the lower-cased extension is none of [.py], [.js], [.java],
    [.c], [.cpp], [run_current_file] starts no process: the terminal
    shows the line that announces the run and then the complaint about
    the file type, and the only request to the operating system is the
    temporary file, which is left behind. *)
Theorem run_unsupported_type
    (qt : Toolkit) (s : VimAIEditor) (f c temp_path : string) :
  current_file s = Some f ->
  Py.truthy f = true ->
  lookup_first f (files_in (file_model s)) = Some c ->
  NamedTemporaryFile qt (launched s) (Py.from_last_dot f)
    (cleaned_content (toPlainText qt (editor s))) = Written temp_path ->
  Py.lower (Py.from_last_dot f) ∉ [".py"; ".js"; ".java"; ".c"; ".cpp"] ->
  let s' := run_current_file qt s in
  terminal_output s'
  = ["Running " +:+ f +:+ "..." +:+ nl;
     "Error: Unsupported file type " +:+ Py.lower (Py.from_last_dot f)]
  /\ launched s'
     = launched s
       ++ [Call_NamedTemporaryFile (Py.from_last_dot f)
             (cleaned_content (toPlainText qt (editor s)))].
Proof.
  intros Hc Ht Hl Htemp Hext s'. subst s'.
  destruct (run_current_file_written qt s f c temp_path Hc Ht Hl Htemp)
    as (s0 & Hterm & Hlaunched & ->).
  cbv zeta.
  assert (Hne : forall e, e ∈ [".py"; ".js"; ".java"; ".c"; ".cpp"] ->
                  String.eqb (Py.lower (Py.from_last_dot f)) e = false).
  { intros e He. apply String.eqb_neq. intros E. apply Hext. by rewrite E. }
  rewrite !Hne by (apply (bool_decide_unpack _); vm_compute; exact I).
  cbn [orb appendPlainText terminal_output launched with_terminal_output].
  by rewrite Hterm, Hlaunched.
Qed.

Lemma run_unsupported_type_witness :
  let s := execute_vim_command plain_toolkit ":e README.md" (initial true) in
  let s' := run_current_file plain_toolkit s in
  terminal_output s'
  = ["Running " +:+ "README.md" +:+ "..." +:+ nl;
     "Error: Unsupported file type " +:+ Py.lower (Py.from_last_dot "README.md")]
  /\ launched s'
     = launched s
       ++ [Call_NamedTemporaryFile (Py.from_last_dot "README.md")
             (cleaned_content (toPlainText plain_toolkit (editor s)))].
Proof.
  apply (run_unsupported_type plain_toolkit
           (execute_vim_command plain_toolkit ":e README.md" (initial true))
           "README.md"
           ("# Project Documentation" +:+ nl +:+ nl
            +:+ "This is a VimAI project.")
           "/tmp/tmp0.md").
  - reflexivity.
  - reflexivity.
  - reflexivity.
  - reflexivity.
  - apply (bool_decide_unpack _). vm_compute. exact I.
Defined.

(** X28: running a Python or JavaScript file.  When the open file is
    in the tree, the temporary file could be written and the
    lower-cased extension is [.py] or [.js], [run_current_file] writes
    the text of the widget, without the lines that start with a colon,
    to the temporary file and starts one process on it, [python] or
    [node]; the terminal shows the line that announces the run. *)
Theorem run_interpreted_file
    (qt : Toolkit) (s : VimAIEditor) (f c temp_path : string) :
  current_file s = Some f ->
  Py.truthy f = true ->
  lookup_first f (files_in (file_model s)) = Some c ->
  NamedTemporaryFile qt (launched s) (Py.from_last_dot f)
    (cleaned_content (toPlainText qt (editor s))) = Written temp_path ->
  Py.lower (Py.from_last_dot f) = ".py"
  \/ Py.lower (Py.from_last_dot f) = ".js" ->
  let s' := run_current_file qt s in
  terminal_output s' = ["Running " +:+ f +:+ "..." +:+ nl]
  /\ launched s'
     = launched s
       ++ [Call_NamedTemporaryFile (Py.from_last_dot f)
             (cleaned_content (toPlainText qt (editor s)));
           Call_start
             (if String.eqb (Py.lower (Py.from_last_dot f)) ".py"
              then "python" else "node")
             [temp_path]].
Proof.
  intros Hc Ht Hl Htemp Hext s'. subst s'.
  destruct (run_current_file_written qt s f c temp_path Hc Ht Hl Htemp)
    as (s0 & Hterm & Hlaunched & ->).
  cbv zeta.
  destruct Hext as [-> | ->];
    cbn [String.eqb Ascii.eqb Bool.eqb andb run_single_command QProcess_start
         terminal_output launched with_launched hd tl];
    by rewrite Hterm, Hlaunched, <- app_assoc.
Qed.

Lemma run_interpreted_file_witness :
  let s := execute_vim_command plain_toolkit ":e main.py" (initial true) in
  let s' := run_current_file plain_toolkit s in
  terminal_output s' = ["Running " +:+ "main.py" +:+ "..." +:+ nl]
  /\ launched s'
     = launched s
       ++ [Call_NamedTemporaryFile (Py.from_last_dot "main.py")
             (cleaned_content (toPlainText plain_toolkit (editor s)));
           Call_start
             (if String.eqb (Py.lower (Py.from_last_dot "main.py")) ".py"
              then "python" else "node")
             ["/tmp/tmp0.py"]].
Proof.
  apply (run_interpreted_file plain_toolkit
           (execute_vim_command plain_toolkit ":e main.py" (initial true))
           "main.py"
           ("# Python starter code" +:+ nl
            +:+ "print(" +:+ dquote +:+ "Hello VimAI!" +:+ dquote +:+ ")")
           "/tmp/tmp0.py").
  - reflexivity.
  - reflexivity.
  - reflexivity.
  - reflexivity.
  - left. reflexivity.
Defined.

(** X29: running a C or C++ file.  When the open file is in the tree,
    the temporary file could be written and the lower-cased extension
    is [.c] or [.cpp], [run_current_file] starts the compiler, [gcc] or
    [g++], on the temporary file, with the executable named after it
    ([.exe] appended on Windows), and shows the compiler command in the
    terminal.  The program itself is not started by the method: that is
    left to the handler of the compiler's exit. *)
Theorem run_compiled_file
    (qt : Toolkit) (s : VimAIEditor) (f c temp_path : string) :
  current_file s = Some f ->
  Py.truthy f = true ->
  lookup_first f (files_in (file_model s)) = Some c ->
  NamedTemporaryFile qt (launched s) (Py.from_last_dot f)
    (cleaned_content (toPlainText qt (editor s))) = Written temp_path ->
  Py.lower (Py.from_last_dot f) = ".c"
  \/ Py.lower (Py.from_last_dot f) = ".cpp" ->
  let compiler :=
    if String.eqb (Py.lower (Py.from_last_dot f)) ".c"
    then "gcc" else "g++" in
  let exe_path := temp_path +:+ (if is_windows qt then ".exe" else "") in
  let s' := run_current_file qt s in
  terminal_output s'
  = ["Running " +:+ f +:+ "..." +:+ nl;
     "Compiling with: " +:+ compiler +:+ " " +:+ temp_path +:+ " -o "
     +:+ exe_path]
  /\ launched s'
     = launched s
       ++ [Call_NamedTemporaryFile (Py.from_last_dot f)
             (cleaned_content (toPlainText qt (editor s)));
           Call_start compiler [temp_path; "-o"; exe_path]].
Proof.
  intros Hc Ht Hl Htemp Hext compiler exe_path s'. subst s' compiler exe_path.
  destruct (run_current_file_written qt s f c temp_path Hc Ht Hl Htemp)
    as (s0 & Hterm & Hlaunched & ->).
  cbv zeta.
  destruct Hext as [-> | ->];
    cbn [String.eqb Ascii.eqb Bool.eqb andb orb QProcess_start appendPlainText
         terminal_output launched with_launched with_terminal_output hd tl
         Py.join];
    rewrite Hterm, Hlaunched, <- app_assoc;
    (split; [|done]); cbn [app]; do 2 f_equal;
    change (" -o " +:+ ?x) with (" " +:+ "-o" +:+ " " +:+ x);
    reflexivity.
Qed.

Lemma run_compiled_file_witness :
  let s := execute_vim_command plain_toolkit ":e testing.c" (initial true) in
  let compiler :=
    if String.eqb (Py.lower (Py.from_last_dot "testing.c")) ".c"
    then "gcc" else "g++" in
  let exe_path :=
    "/tmp/tmp0.c" +:+ (if is_windows plain_toolkit then ".exe" else "") in
  let s' := run_current_file plain_toolkit s in
  terminal_output s'
  = ["Running " +:+ "testing.c" +:+ "..." +:+ nl;
     "Compiling with: " +:+ compiler +:+ " " +:+ "/tmp/tmp0.c" +:+ " -o "
     +:+ exe_path]
  /\ launched s'
     = launched s
       ++ [Call_NamedTemporaryFile (Py.from_last_dot "testing.c")
             (cleaned_content (toPlainText plain_toolkit (editor s)));
           Call_start compiler ["/tmp/tmp0.c"; "-o"; exe_path]].
Proof.
  apply (run_compiled_file plain_toolkit
           (execute_vim_command plain_toolkit ":e testing.c" (initial true))
           "testing.c"
           (toPlainText plain_toolkit
              (editor
                 (execute_vim_command plain_toolkit ":e testing.c"
                    (initial true))))
           "/tmp/tmp0.c").
  - reflexivity.
  - reflexivity.
  - reflexivity.
  - reflexivity.
  - left. reflexivity.
Defined.

(** A Java file: the compiler is started, the program is not. *)
Example run_java_file :
  let s :=
    execute_vim_command plain_toolkit ":e Main.java"
      (with_file_model [File "Main.java" "class Main {}"] (initial true)) in
  let s' := run_current_file plain_toolkit s in
  terminal_output s'
  = ["Running Main.java..." +:+ nl; "Compiling with: javac /tmp/tmp0.java"]
  /\ launched s'
     = [Call_NamedTemporaryFile ".java" "class Main {}";
        Call_start "javac" ["/tmp/tmp0.java"]].
Proof. vm_compute. by split. Qed.

(** With nothing below the root, [:run] on a leftover file name finds
    the empty text the loop starts from and runs it. *)
Example run_with_empty_tree :
  let s :=
    with_current_file (Some "gone.py") (with_file_model [] (initial true)) in
  let s' := run_current_file plain_toolkit s in
  terminal_output s' = ["Running gone.py..." +:+ nl]
  /\ launched s'
     = [Call_NamedTemporaryFile ".py" "";
        Call_start "python" ["/tmp/tmp0.py"]].
Proof. vm_compute. by split. Qed.

(** The lines of the program that start with a colon, blanks apart, are
    not written to the temporary file. *)
Example cleaned_content_drops_colon_lines :
  cleaned_content ("x = 1" +:+ nl +:+ "  :wq" +:+ nl +:+ "print(x)")
  = "x = 1" +:+ nl +:+ "print(x)".
Proof. reflexivity. Qed.

(** With no dot in the name the last character stands for the
    extension; upper case is folded. *)
Example extension_of_names :
  Py.from_last_dot "Makefile" = "e"
  /\ Py.lower (Py.from_last_dot "Main.PY") = ".py"
  /\ Py.from_last_dot "archive.tar.gz" = ".gz".
Proof. by repeat split. Qed.
